(** * minisci/preprocess.py: molecule featurizer and dataset assembly

    A shallow embedding of [src/minisci/preprocess.py] and the properties
    of its two parts: the featurizer [get_3dG_from_smi] and the batch
    script under [if __name__ == "__main__"].

    Conventions of the embedding.
    - numpy float64 values are binary64 primitive floats ([PrimFloat]).
    - Python exceptions are values of [error]; a computation that can
      raise returns a [result].  The script threads a [world] (files on
      disk, the toolkit's process-global random generator, and the trace
      of featurizer invocations) through a state-and-exception monad [M].
    - A Python dict and an HDF5 group are [gmap]s; a Python [set] is a
      [gset] whose iteration order is the one of [elements].
    - RDKit, the tables of [minisci.utils] and [get_dict_for_embedding]
      are not part of [preprocess.py]; they are parameters ([RDKit],
      [Utils]) of everything below. *)

From Stdlib Require Import PrimFloat Uint63 ZArith Floats Ascii.
From stdpp Require Import gmap strings list fin_maps pretty.

Local Open Scope Z_scope.
Local Open Scope string_scope.
Local Open Scope list_scope.

(** ** Python values and exceptions *)

(** Where a [KeyError] is raised: [df["col"]] on the table, a vocabulary
    lookup in the reaction loop, a lookup in one of the four atom feature
    tables, or the indexing of an HDF5 container by a group name. *)
Inductive key_site := SiteColumn | SiteVocabulary | SiteFeatureTable | SiteH5.

Inductive error :=
| KeyError (site : key_site) (key : string)
| IndexError
| TypeError
| ValueError (msg : string)
| OverflowError
| ArgumentError    (* Boost.Python: no matching C++ signature (AddHs(None)) *)
| H5Error (msg : string).   (* an HDF5 error whose Python class is not modelled *)

Inductive result (A : Type) :=
| Ok (a : A)
| Raise (e : error).
Arguments Ok {A} a.
Arguments Raise {A} e.

#[global] Instance result_ret : MRet result := λ A a, Ok a.
#[global] Instance result_bind : MBind result := λ A B f r,
  match r with Ok a => f a | Raise e => Raise e end.

(** [d[k]] on a dict. *)
Definition getitem {V} (site : key_site) (d : gmap string V) (k : string) : result V :=
  match d !! k with
  | Some v => Ok v
  | None => Raise (KeyError site k)
  end.

(** [l[i]] on a list, for an index that is not negative. *)
Definition list_getitem {A} (l : list A) (i : nat) : result A :=
  match l !! i with
  | Some v => Ok v
  | None => Raise IndexError
  end.

(** [[f(x) for x in l]] and [for x in l: f(x)] with a body that may raise:
    the first exception stops the loop. *)
Fixpoint mapR {A B} (f : A → result B) (l : list A) : result (list B) :=
  match l with
  | [] => Ok []
  | x :: l' => y ← f x; ys ← mapR f l'; Ok (y :: ys)
  end.

(** [enumerate(l)]. *)
Definition enumerate {A} (l : list A) : list (nat * A) := imap (λ i x, (i, x)) l.

Definition str_bool (b : bool) : string := if b then "True" else "False".

(** ** The part of RDKit the script uses *)

Inductive HybridizationType :=
| UNSPECIFIED | HS | SP | SP2 | SP3 | SP2D | SP3D | SP3D2 | OTHER.

Definition str_hybridization (h : HybridizationType) : string :=
  match h with
  | UNSPECIFIED => "UNSPECIFIED" | HS => "S" | SP => "SP" | SP2 => "SP2"
  | SP3 => "SP3" | SP2D => "SP2D" | SP3D => "SP3D" | SP3D2 => "SP3D2"
  | OTHER => "OTHER"
  end.

Record Atom := {
  GetSymbol : string;
  IsInRing : bool;
  GetHybridization : HybridizationType;
  GetIsAromatic : bool
}.

Record Bond := {
  GetBeginAtomIdx : nat;
  GetEndAtomIdx : nat
}.

Record Point3D := { px : float; py : float; pz : float }.

(** [list(p)] for a [Point3D]. *)
Definition list_of_point (p : Point3D) : list float := [px p; py p; pz p].

(** A conformer is the sequence of its atom positions. *)
Record Mol := {
  GetAtoms : list Atom;
  GetBonds : list Bond;
  GetConformers : list (list Point3D)
}.

Definition set_conformers (m : Mol) (cs : list (list Point3D)) : Mol :=
  {| GetAtoms := GetAtoms m; GetBonds := GetBonds m; GetConformers := cs |}.

(** The ends of every bond are atoms of the molecule. *)
Definition valid_bond_indices (m : Mol) : Prop :=
  Forall (λ b, (GetBeginAtomIdx b < length (GetAtoms m))%nat
               ∧ (GetEndAtomIdx b < length (GetAtoms m))%nat) (GetBonds m).

(** The toolkit's own algorithms.  [embed_coords mol maxAttempts g] is the
    distance-geometry embedding run with generator state [g]: it returns
    the coordinates, if it found any, and the state the generator is left
    in.  [seed_generator s] is a fresh generator seeded with [s]. *)
Class RDKit := {
  MolFromSmiles : string → option Mol;
  AddHs : Mol → Mol;
  seed_generator : Z → Z;
  embed_coords : Mol → Z → Z → option (list Point3D) * Z;
  uff_minimize : Mol → list Point3D → list Point3D;
  morgan_bits : Mol → Z → Z → list bool
}.

(** The names [preprocess.py] imports from [minisci.utils]. *)
Class Utils := {
  ATOMTYPE_DICT : gmap string Z;
  IS_RING_DICT : gmap string Z;
  HYBRIDISATION_DICT : gmap string Z;
  AROMATOCITY_DICT : gmap string Z;
  DATASET_NAME : string;
  get_dict_for_embedding : list string → gmap string Z
}.

(** ** Table cells and HDF5 data *)

(** A cell of a column as [list(df[col])] yields it: a Python [str], [int]
    or [float]. *)
Inductive cell :=
| CStr (s : string)
| CInt (z : Z)
| CFloat (f : float).

Inductive dataset :=
| DInt1 (v : list Z)
| DInt2 (m : list (list Z))
| DFloat1 (v : list float)
| DFloat2 (m : list (list float))
| DCell1 (v : list cell).

Inductive file :=
| TorchCondDicts (dicts : list (gmap string Z))
| TorchRxnSmi (items : list (cell * list string))
| H5File (groups : gmap (list string) (gmap string dataset)).

(** ** The world the script runs in *)

Record world := {
  fs : gmap string file;          (* files on disk, by path *)
  rng : Z;                        (* RDKit's process-global generator *)
  calls : list (string * Z)       (* featurizer invocations so far *)
}.

Definition M (A : Type) : Type := world → result A * world.

#[global] Instance M_ret : MRet M := λ A a w, (Ok a, w).
#[global] Instance M_bind : MBind M := λ A B f m w,
  match m w with
  | (Ok a, w') => f a w'
  | (Raise e, w') => (Raise e, w')
  end.

Definition lift {A} (r : result A) : M A := λ w, (r, w).

(** [for x in l: body(x)]. *)
Fixpoint for_each {A} (body : A → M unit) (l : list A) : M unit :=
  match l with
  | [] => mret ()
  | x :: l' => _ ← body x; for_each body l'
  end.

(** ** RDKit's Python interface *)

Section Featurizer.
Context `{RDKit} `{Utils}.

(** [Chem.AddHs(mol)]: [MolFromSmiles] returns [None] for a descriptor it
    cannot parse, and [AddHs(None)] raises. *)
Definition Chem_AddHs (mol_no_Hs : option Mol) : result Mol :=
  match mol_no_Hs with
  | Some m => Ok (AddHs m)
  | None => Raise ArgumentError
  end.

(** The C++ parameters of [EmbedMolecule]: [unsigned int maxAttempts] and
    [int randomSeed].  A Python int outside the range is refused when the
    call is made. *)
Definition fits_unsigned_int (z : Z) : bool := ((0 <=? z) && (z <? 2 ^ 32))%Z.
Definition fits_int (z : Z) : bool := ((- 2 ^ 31 <=? z) && (z <? 2 ^ 31))%Z.

(** [AllChem.EmbedMolecule(mol, maxAttempts=0, randomSeed=-1, clearConfs=True, ...)].
    A molecule without atoms is refused before any embedding.  Otherwise
    the conformers of [mol] are replaced by the new one; the result is the
    id of the new conformer, or -1 when the embedding failed.  With
    [randomSeed > -1] the embedding runs on a generator of its own seeded
    with [randomSeed]; otherwise it draws from the process-global
    generator, whose state advances. *)
Definition EmbedMolecule (mol : Mol) (maxAttempts randomSeed : Z) : M (Mol * Z) := λ w,
  if negb (fits_unsigned_int maxAttempts && fits_int randomSeed) then (Raise OverflowError, w)
  else
    match GetAtoms mol with
    | [] => (Raise (ValueError "molecule has no atoms"), w)
    | _ :: _ =>
        let seeded := (-1 <? randomSeed)%Z in
        let g := if seeded then seed_generator randomSeed else rng w in
        let '(found, g') := embed_coords mol maxAttempts g in
        let w' := if seeded then w else {| fs := fs w; rng := g'; calls := calls w |} in
        match found with
        | Some c => (Ok (set_conformers mol [c], 0), w')
        | None => (Ok (set_conformers mol [], -1), w')
        end
    end.

(** The default of the keyword parameter [randomSeed] of [EmbedMolecule]. *)
Definition default_randomSeed : Z := -1.

(** [AllChem.UFFOptimizeMolecule(mol)]: relaxes the default conformer. *)
Definition UFFOptimizeMolecule (mol : Mol) : result Mol :=
  match GetConformers mol with
  | [] => Raise (ValueError "Bad Conformer Id")
  | c :: cs => Ok (set_conformers mol (uff_minimize mol c :: cs))
  end.

(** [mol.GetConformer()]. *)
Definition GetConformer (mol : Mol) : result (list Point3D) :=
  match GetConformers mol with
  | [] => Raise (ValueError "Bad Conformer Id")
  | c :: _ => Ok c
  end.

(** [conf.GetAtomPosition(idx)]. *)
Definition GetAtomPosition (conf : list Point3D) (idx : nat) : result Point3D :=
  match conf !! idx with
  | Some p => Ok p
  | None => Raise (ValueError "Range Error")
  end.

(** ** scipy and numpy *)

(** The Euclidean metric of [pdist]: the squares of the differences are
    accumulated from left to right, then the root is taken. *)
Definition euclidean (u v : list float) : float :=
  PrimFloat.sqrt
    (fold_left (λ s ab, let d := PrimFloat.sub ab.1 ab.2 in
                        PrimFloat.add s (PrimFloat.mul d d))
               (zip u v) PrimFloat.zero).

(** The condensed distance vector: the pairs (0,1), (0,2), ..., (1,2), ... *)
Fixpoint condensed (X : list (list float)) : list float :=
  match X with
  | [] => []
  | u :: rest => map (euclidean u) rest ++ condensed rest
  end.

(** [pdist(X)]: [np.array([])] is one-dimensional and is refused. *)
Definition pdist (X : list (list float)) : result (list float) :=
  match X with
  | [] => Raise (ValueError "A 2-dimensional array must be passed.")
  | _ => Ok (condensed X)
  end.

(** Row [i] of the strict upper triangle of a [d]×[d] matrix, read off
    the condensed vector in order. *)
Fixpoint upper_rows (d : nat) (v : list float) : list (list float) :=
  match d with
  | O => []
  | S d' => take d' v :: upper_rows d' (drop d' v)
  end.

Definition matrix_entry (U : list (list float)) (i j : nat) : float :=
  if (i <? j)%nat then default PrimFloat.zero (U !! i ≫= (.!! (j - i - 1)%nat))
  else if (j <? i)%nat then default PrimFloat.zero (U !! j ≫= (.!! (i - j - 1)%nat))
  else PrimFloat.zero.

(** The [d]×[d] matrix whose strict upper triangle is [U], mirrored
    below the diagonal. *)
Definition square (U : list (list float)) (d : nat) : list (list float) :=
  map (λ i, map (matrix_entry U i) (seq 0 d)) (seq 0 d).

(** [squareform(v)] for a vector [v]: the symmetric matrix with zero
    diagonal; each entry of [v] is written at [(i,j)] and at [(j,i)]. *)
Definition squareform (v : list float) : result (list (list float)) :=
  match length v with
  | O => Ok [[PrimFloat.zero]]
  | S k =>
      let d := S (Nat.sqrt (2 * S k - 1)) in     (* ceil(sqrt(2 * len(v))) *)
      if (d * (d - 1) =? 2 * S k)%nat then
        Ok (square (upper_rows d v) d)
      else Raise (ValueError "Incompatible vector size.")
  end.

(** [np.fill_diagonal(M, val)]. *)
Definition fill_diagonal (Mx : list (list float)) (val : float) : list (list float) :=
  imap (λ i row, <[i := val]> row) Mx.

(** [np.where(M <= 4)]: the row and the column indices of the entries
    that satisfy the test, in row-major order. *)
Definition np_where (test : float → bool) (Mx : list (list float)) : list nat * list nat :=
  let hits :=
    flat_map (λ ir, flat_map (λ jx, if test jx.2 then [(ir.1, jx.1)] else [])
                             (enumerate ir.2))
             (enumerate Mx) in
  (hits.*1, hits.*2).

Definition le4 (x : float) : bool := PrimFloat.leb x 4%float.

(** ** [get_3dG_from_smi] *)

Record features := {
  atomids : list Z;
  is_ring : list Z;
  hyb : list Z;
  arom : list Z;
  edge_2d : list (list nat);
  edge_3d : list (list nat);
  crds_3d : list (list float);
  tokeep : list Z
}.

(** What one pass of the loop over the atoms appends to the six lists. *)
Record atom_row := {
  row_atomid : Z; row_ring : Z; row_hyb : Z; row_arom : Z;
  row_crds : list float; row_keep : Z
}.

(** The body of [for idx, i in enumerate(mol.GetAtoms())].  The four
    lookups of the [if] repeat the ones above them with the same keys. *)
Definition atom_body (mol : Mol) (ia : nat * Atom) : result atom_row :=
  let idx := ia.1 in
  let i := ia.2 in
  a ← getitem SiteFeatureTable ATOMTYPE_DICT (GetSymbol i);
  r ← getitem SiteFeatureTable IS_RING_DICT (str_bool (IsInRing i));
  h ← getitem SiteFeatureTable HYBRIDISATION_DICT (str_hybridization (GetHybridization i));
  ar ← getitem SiteFeatureTable AROMATOCITY_DICT (str_bool (GetIsAromatic i));
  conf ← GetConformer mol;
  p ← GetAtomPosition conf idx;
  Ok {| row_atomid := a; row_ring := r; row_hyb := h; row_arom := ar;
        row_crds := list_of_point p;
        row_keep := if ((a =? 1) && (r =? 0) && (ar =? 0) && (h =? 1))%Z then 1 else 0 |}.

Definition get_3dG_from_smi (smi : string) (randomSeed : Z) : M features :=
  λ w0,
  let w := {| fs := fs w0; rng := rng w0; calls := calls w0 ++ [(smi, randomSeed)] |} in
  (mol ← lift (Chem_AddHs (MolFromSmiles smi));
   (* AllChem.EmbedMolecule(mol, randomSeed): the second positional
      parameter of EmbedMolecule is maxAttempts *)
   '(mol, _) ← EmbedMolecule mol randomSeed default_randomSeed;
   mol ← lift (UFFOptimizeMolecule mol);
   rows ← lift (mapR (atom_body mol) (enumerate (GetAtoms mol)));
   let crds := row_crds <$> rows in
   let edge_dir1 := flat_map (λ bond, [GetBeginAtomIdx bond; GetEndAtomIdx bond]) (GetBonds mol) in
   let edge_dir2 := flat_map (λ bond, [GetEndAtomIdx bond; GetBeginAtomIdx bond]) (GetBonds mol) in
   v ← lift (pdist crds);
   distance_matrix ← lift (squareform v);
   let distance_matrix := fill_diagonal distance_matrix PrimFloat.infinity in
   let rc := np_where le4 distance_matrix in
   mret {| atomids := row_atomid <$> rows;
           is_ring := row_ring <$> rows;
           hyb := row_hyb <$> rows;
           arom := row_arom <$> rows;
           edge_2d := [edge_dir1; edge_dir2];
           edge_3d := [rc.1; rc.2];
           crds_3d := crds;
           tokeep := row_keep <$> rows |}) w.

(** [get_fp_from_smi]: the Morgan fingerprint as an array of 0 and 1. *)
Definition get_fp_from_smi (smi : string) : result (list Z) :=
  mol ← Chem_AddHs (MolFromSmiles smi);
  Ok ((λ b : bool, if b then 1 else 0) <$> morgan_bits mol 2 256).

(** Column [k] of a two-row index array is the edge [(a, b)]. *)
Definition has_edge (E : list (list nat)) (a b : nat) : Prop :=
  ∃ r0 r1 k, E = [r0; r1] ∧ r0 !! k = Some a ∧ r1 !! k = Some b.

(** The distance [pdist] computes for the atoms [i] and [j]: each pair is
    evaluated once, from the atom of smaller index to the other. *)
Definition pair_distance (X : list (list float)) (i j : nat) : option float :=
  xi ← X !! (i `min` j)%nat; xj ← X !! (i `max` j)%nat; Some (euclidean xi xj).

(** Lines 83-85 as one function of the coordinates, once the shape of
    the matrix is known. *)
Definition proximity_edges (crds : list (list float)) : list (list nat) :=
  let n := length crds in
  let rc := np_where le4
              (fill_diagonal (square (upper_rows n (condensed crds)) n) PrimFloat.infinity) in
  [rc.1; rc.2].

End Featurizer.

(** ** Python conversions on table cells *)

(** Printing and parsing of floats are Python's own ([repr], [float]). *)
Class Python := {
  str_float : float → string;
  float_str : string → option float
}.

(** The binary64 value nearest to an integer, ties to even: infinite when
    the integer is beyond the range of binary64. *)
Definition nearest_float (z : Z) : float :=
  SF2Prim (binary_normalize prec emax z 0 false).

(** [float(z)] for a Python int [z]: an int is unbounded, and one that
    rounds beyond the largest float is refused. *)
Definition float_of_int (z : Z) : result float :=
  let f := nearest_float z in
  if PrimFloat.is_infinity f then Raise OverflowError else Ok f.

Section Cells.
Context {py : Python}.

(** [str(x)]. *)
Definition py_str (x : cell) : string :=
  match x with
  | CStr s => s
  | CInt z => pretty z
  | CFloat f => str_float f
  end.

(** [float(x)]. *)
Definition py_float (x : cell) : result float :=
  match x with
  | CFloat f => Ok f
  | CInt z => float_of_int z
  | CStr s =>
      match float_str s with
      | Some f => Ok f
      | None => Raise (ValueError "could not convert string to float")
      end
  end.

(** [x + y] on the Python objects that [list(df[col])] yields: two ints
    add exactly, an int meets a float as [float(int)], two strings are
    concatenated. *)
Definition py_add (x y : cell) : result cell :=
  match x, y with
  | CInt a, CInt b => Ok (CInt (a + b))
  | CFloat a, CFloat b => Ok (CFloat (PrimFloat.add a b))
  | CInt a, CFloat b => fa ← float_of_int a; Ok (CFloat (PrimFloat.add fa b))
  | CFloat a, CInt b => fb ← float_of_int b; Ok (CFloat (PrimFloat.add a fb))
  | CStr a, CStr b => Ok (CStr (a +:+ b))
  | _, _ => Raise TypeError
  end.

End Cells.

(** ** HDF5 containers

    HDF5 resolves a name as a path from the container: the components are
    the pieces between slashes, a leading, doubled or trailing slash counts
    for nothing, and the component [.] is a no-op.  A container is
    modelled by its groups other than the root, each under its path, with
    the datasets directly in it; the script writes no dataset in the root. *)

Abbreviation h5_section := (gmap string dataset).
Abbreviation h5_groups := (gmap (list string) (gmap string dataset)).

(** [name.split("/")]: the pieces of a name between its slashes. *)
Fixpoint pieces (s : string) : list string :=
  match s with
  | EmptyString => [""]
  | String c s' =>
      if Ascii.eqb c "/"%char then "" :: pieces s'
      else match pieces s' with
           | p :: ps => String c p :: ps
           | [] => [String c ""]
           end
  end.

(** The components of a name: its pieces other than the empty ones. *)
Definition components (name : string) : list string :=
  filter (λ p, p ≠ "") (pieces name).

(** The path of the group that [name] resolves to. *)
Definition h5_path (name : string) : list string :=
  filter (λ p, p ≠ ".") (components name).

(** Whether the group at [parent] has a member called [c]: a group or a
    dataset. *)
Definition has_link (groups : h5_groups) (parent : list string) (c : string) : bool :=
  bool_decide (is_Some (groups !! (parent ++ [c])))
  || match groups !! parent with
     | Some sec => bool_decide (is_Some (sec !! c))
     | None => false
     end.

(** The text of these messages depends on the version of HDF5. *)
Definition name_exists (what : string) : error :=
  ValueError ("Unable to create " +:+ what +:+ " (name already exists)").

(** The traversal of [H5Gcreate] with intermediate groups, from the group
    at [cur] along the components left: a missing group on the way is
    created, the last component must be new, and a name that ends in [.]
    resolves to a group that exists.  The groups created on the way stay
    when the call fails. *)
Fixpoint h5_create (groups : h5_groups) (cur : list string) (comps : list string)
    : result unit * h5_groups :=
  match comps with
  | [] => (Raise (name_exists "group"), groups)
  | c :: rest =>
      if decide (c = ".") then h5_create groups cur rest
      else
        match rest with
        | [] =>
            if has_link groups cur c then (Raise (name_exists "group"), groups)
            else (Ok (), <[cur ++ [c] := ∅]> groups)
        | _ :: _ =>
            match groups !! (cur ++ [c]) with
            | Some _ => h5_create groups (cur ++ [c]) rest
            | None =>
                if has_link groups cur c
                then (Raise (H5Error "a component of the name is not a group"), groups)
                else h5_create (<[cur ++ [c] := ∅]> groups) (cur ++ [c]) rest
            end
        end
  end.

Definition set_fs (f : gmap string file → gmap string file) (w : world) : world :=
  {| fs := f (fs w); rng := rng w; calls := calls w |}.

(** [torch.save(obj, path)]. *)
Definition torch_save (content : file) (path : string) : M unit :=
  λ w, (Ok (), set_fs <[path := content]> w).

(** [h5py.File(path, "w")]: the file is created, or truncated, when it is
    opened. *)
Definition h5_open_w (path : string) : M unit :=
  λ w, (Ok (), set_fs <[path := H5File ∅]> w).

(** [container.create_group(name)]. *)
Definition create_group (path name : string) : M unit := λ w,
  match fs w !! path with
  | Some (H5File groups) =>
      let '(r, groups') := h5_create groups [] (components name) in
      (r, set_fs <[path := H5File groups']> w)
  | _ => (Raise (ValueError "Not a file"), w)
  end.

(** [container[group].create_dataset(name, data=data)], for a [name] of
    one component, as are the literal names of the script. *)
Definition create_dataset (path group : string) (item : string * dataset) : M unit := λ w,
  match fs w !! path with
  | Some (H5File groups) =>
      match groups !! h5_path group with
      | Some sec =>
          if has_link groups (h5_path group) item.1
          then (Raise (name_exists "dataset"), w)
          else
            (Ok (), set_fs <[path := H5File (<[h5_path group := <[item.1 := item.2]> sec]> groups)]> w)
      | None => (Raise (KeyError SiteH5 group), w)
      end
  | _ => (Raise (ValueError "Not a file"), w)
  end.

Definition index_array (m : list (list nat)) : dataset := DInt2 ((λ r : list nat, Z.of_nat <$> r) <$> m).

(** ** The script *)

(** The columns the script reads, after the [str] conversions. *)
Record table := {
  rxn_id : list cell;
  temperature_degC : list cell;
  time_h : list cell;
  atmosphere : list string;
  scale_mol : list cell;
  concentration_moll : list cell;
  startingmat_1_smiles : list string;
  startingmat_2_smiles : list string;
  startingmat_2_eq : list cell;
  reagent_1_smiles : list string;
  reagent_1_eq : list cell;
  catalyst_1_smiles : list string;
  catalyst_1_eq : list cell;
  additive_1_smiles : list string;
  additive_1_eq : list cell;
  solvent_1_smiles : list string;
  solvent_1_fraction : list cell;
  solvent_2_smiles : list string;
  solvent_2_fraction : list cell;
  product_mono : list cell;
  product_di : list cell;
  product_non : list cell;
  binary : list cell
}.

(** The six vocabularies, in the order of [cond_dicts]. *)
Record vocabularies := {
  rea_dict : gmap string Z;
  so1_dict : gmap string Z;
  so2_dict : gmap string Z;
  cat_dict : gmap string Z;
  add_dict : gmap string Z;
  atm_dict : gmap string Z
}.

(** The groups of datasets of a reaction section: the "Molecule ECFP"
    block, the conditions converted with [float], the conditions looked up
    in a vocabulary, and the "Traget" block. *)
Inductive field_class := Fingerprint | NumericCondition | CategoricalId | Target.

#[global] Instance field_class_eq_dec : EqDecision field_class.
Proof. solve_decision. Defined.

Definition count_class (c : field_class) (fields : list (field_class * (string * dataset))) : nat :=
  length (filter (λ f, f.1 = c) fields).

Section Script.
Context {tk : RDKit} {ut : Utils} {py : Python}.

(** [list(df[name])]. *)
Definition column (df : gmap string (list cell)) (name : string) : result (list cell) :=
  getitem SiteColumn df name.

(** Lines 103-134. *)
Definition read_table (df : gmap string (list cell)) : result table :=
  rxn_id ← column df "rxn_id";
  temperature_degC ← column df "temperature_deg_c";
  time_h ← column df "time_h";
  atmosphere ← column df "atmosphere";
  let atmosphere := py_str <$> atmosphere in
  scale_mol ← column df "scale_umol";
  concentration_moll ← column df "concentration_mmol_l";
  startingmat_1_smiles ← column df "startingmat_1_smiles";
  let startingmat_1_smiles := py_str <$> startingmat_1_smiles in
  startingmat_2_smiles ← column df "startingmat_2_smiles";
  let startingmat_2_smiles := py_str <$> startingmat_2_smiles in
  startingmat_2_eq ← column df "startingmat_2_eq";
  reagent_1_smiles ← column df "reagent_1_smiles";
  let reagent_1_smiles := py_str <$> reagent_1_smiles in
  reagent_1_eq ← column df "reagent_1_eq";
  catalyst_1_smiles ← column df "catalyst_1_smiles";
  let catalyst_1_smiles := py_str <$> catalyst_1_smiles in
  catalyst_1_eq ← column df "catalyst_1_eq";
  additive_1_smiles ← column df "additive_1_smiles";
  let additive_1_smiles := py_str <$> additive_1_smiles in
  additive_1_eq ← column df "additive_1_eq";
  solvent_1_smiles ← column df "solvent_1_smiles";
  let solvent_1_smiles := py_str <$> solvent_1_smiles in
  solvent_1_fraction ← column df "solvent_1_fraction";
  solvent_2_smiles ← column df "solvent_2_smiles";
  let solvent_2_smiles := py_str <$> solvent_2_smiles in
  solvent_2_fraction ← column df "solvent_2_fraction";
  product_mono ← column df "product_mono";
  product_di ← column df "product_di";
  product_non ← column df "product_non";
  binary ← column df "binary";
  Ok {| rxn_id := rxn_id; temperature_degC := temperature_degC; time_h := time_h;
        atmosphere := atmosphere; scale_mol := scale_mol;
        concentration_moll := concentration_moll;
        startingmat_1_smiles := startingmat_1_smiles;
        startingmat_2_smiles := startingmat_2_smiles;
        startingmat_2_eq := startingmat_2_eq;
        reagent_1_smiles := reagent_1_smiles; reagent_1_eq := reagent_1_eq;
        catalyst_1_smiles := catalyst_1_smiles; catalyst_1_eq := catalyst_1_eq;
        additive_1_smiles := additive_1_smiles; additive_1_eq := additive_1_eq;
        solvent_1_smiles := solvent_1_smiles; solvent_1_fraction := solvent_1_fraction;
        solvent_2_smiles := solvent_2_smiles; solvent_2_fraction := solvent_2_fraction;
        product_mono := product_mono; product_di := product_di;
        product_non := product_non; binary := binary |}.

(** Lines 138-143. *)
Definition build_vocabularies (t : table) : vocabularies :=
  {| rea_dict := get_dict_for_embedding (reagent_1_smiles t);
     so1_dict := get_dict_for_embedding (solvent_1_smiles t);
     so2_dict := get_dict_for_embedding (solvent_2_smiles t);
     cat_dict := get_dict_for_embedding (catalyst_1_smiles t);
     add_dict := get_dict_for_embedding (additive_1_smiles t);
     atm_dict := get_dict_for_embedding (atmosphere t) |}.

(** Line 164: [float(product_mono[i] + product_di[i])]. *)
Definition combined_target (t : table) (ix : nat * cell) : result float :=
  m ← list_getitem (product_mono t) ix.1;
  d ← list_getitem (product_di t) ix.1;
  s ← py_add m d;
  py_float s.

Definition compute_product_all (t : table) : result (list float) :=
  mapR (combined_target t) (enumerate (product_mono t)).

(** [list(set(l))]. *)
Definition unique (l : list string) : list string :=
  elements (list_to_set l : gset string).

(** Lines 177-179: the assignments [rxn_smi_dict[rxn] = [...]], in order;
    a later assignment to a key replaces an earlier one. *)
Definition rxn_smi_item (t : table) (ir : nat * cell) : result (cell * list string) :=
  s1 ← list_getitem (startingmat_1_smiles t) ir.1;
  s2 ← list_getitem (startingmat_2_smiles t) ir.1;
  Ok (ir.2, [s1; s2]).

Definition cond_dicts_path : string := "data/lsf_rxn_cond_dicts_" +:+ DATASET_NAME +:+ ".pt".
Definition rxn_smi_dict_path : string := "data/rxn_smi_dict_" +:+ DATASET_NAME +:+ ".pt".
Definition substrate_path : string := "data/lsf_rxn_substrate_" +:+ DATASET_NAME +:+ ".h5".
Definition carbacids_path : string := "data/lsf_rxn_carbacids_" +:+ DATASET_NAME +:+ ".h5".
Definition conditions_path : string := "data/lsf_rxn_conditions_" +:+ DATASET_NAME +:+ ".h5".

(** Lines 249-292. *)
Definition substrate_datasets (f_a f_b f_c f_d f_e : features) : list (string * dataset) :=
  [
    ("atom_id_1_a", DInt1 (atomids f_a));
    ("ring_id_1_a", DInt1 (is_ring f_a));
    ("hybr_id_1_a", DInt1 (hyb f_a));
    ("arom_id_1_a", DInt1 (arom f_a));
    ("edge_2d_1_a", index_array (edge_2d f_a));
    ("edge_3d_1_a", index_array (edge_3d f_a));
    ("crds_3d_1_a", DFloat2 (crds_3d f_a));
    ("to_keep_1_a", DInt1 (tokeep f_a));
    ("atom_id_1_b", DInt1 (atomids f_b));
    ("ring_id_1_b", DInt1 (is_ring f_b));
    ("hybr_id_1_b", DInt1 (hyb f_b));
    ("arom_id_1_b", DInt1 (arom f_b));
    ("edge_2d_1_b", index_array (edge_2d f_b));
    ("edge_3d_1_b", index_array (edge_3d f_b));
    ("crds_3d_1_b", DFloat2 (crds_3d f_b));
    ("to_keep_1_b", DInt1 (tokeep f_b));
    ("atom_id_1_c", DInt1 (atomids f_c));
    ("ring_id_1_c", DInt1 (is_ring f_c));
    ("hybr_id_1_c", DInt1 (hyb f_c));
    ("arom_id_1_c", DInt1 (arom f_c));
    ("edge_2d_1_c", index_array (edge_2d f_c));
    ("edge_3d_1_c", index_array (edge_3d f_c));
    ("crds_3d_1_c", DFloat2 (crds_3d f_c));
    ("to_keep_1_c", DInt1 (tokeep f_c));
    ("atom_id_1_d", DInt1 (atomids f_d));
    ("ring_id_1_d", DInt1 (is_ring f_d));
    ("hybr_id_1_d", DInt1 (hyb f_d));
    ("arom_id_1_d", DInt1 (arom f_d));
    ("edge_2d_1_d", index_array (edge_2d f_d));
    ("edge_3d_1_d", index_array (edge_3d f_d));
    ("crds_3d_1_d", DFloat2 (crds_3d f_d));
    ("to_keep_1_d", DInt1 (tokeep f_d));
    ("atom_id_1_e", DInt1 (atomids f_e));
    ("ring_id_1_e", DInt1 (is_ring f_e));
    ("hybr_id_1_e", DInt1 (hyb f_e));
    ("arom_id_1_e", DInt1 (arom f_e));
    ("edge_2d_1_e", index_array (edge_2d f_e));
    ("edge_3d_1_e", index_array (edge_3d f_e));
    ("crds_3d_1_e", DFloat2 (crds_3d f_e));
    ("to_keep_1_e", DInt1 (tokeep f_e))
  ].

(** Lines 363-401. *)
Definition carbacid_datasets (f_a f_b f_c f_d f_e : features) : list (string * dataset) :=
  [
    ("atom_id_2_a", DInt1 (atomids f_a));
    ("ring_id_2_a", DInt1 (is_ring f_a));
    ("hybr_id_2_a", DInt1 (hyb f_a));
    ("arom_id_2_a", DInt1 (arom f_a));
    ("edge_2d_2_a", index_array (edge_2d f_a));
    ("edge_3d_2_a", index_array (edge_3d f_a));
    ("crds_3d_2_a", DFloat2 (crds_3d f_a));
    ("atom_id_2_b", DInt1 (atomids f_b));
    ("ring_id_2_b", DInt1 (is_ring f_b));
    ("hybr_id_2_b", DInt1 (hyb f_b));
    ("arom_id_2_b", DInt1 (arom f_b));
    ("edge_2d_2_b", index_array (edge_2d f_b));
    ("edge_3d_2_b", index_array (edge_3d f_b));
    ("crds_3d_2_b", DFloat2 (crds_3d f_b));
    ("atom_id_2_c", DInt1 (atomids f_c));
    ("ring_id_2_c", DInt1 (is_ring f_c));
    ("hybr_id_2_c", DInt1 (hyb f_c));
    ("arom_id_2_c", DInt1 (arom f_c));
    ("edge_2d_2_c", index_array (edge_2d f_c));
    ("edge_3d_2_c", index_array (edge_3d f_c));
    ("crds_3d_2_c", DFloat2 (crds_3d f_c));
    ("atom_id_2_d", DInt1 (atomids f_d));
    ("ring_id_2_d", DInt1 (is_ring f_d));
    ("hybr_id_2_d", DInt1 (hyb f_d));
    ("arom_id_2_d", DInt1 (arom f_d));
    ("edge_2d_2_d", index_array (edge_2d f_d));
    ("edge_3d_2_d", index_array (edge_3d f_d));
    ("crds_3d_2_d", DFloat2 (crds_3d f_d));
    ("atom_id_2_e", DInt1 (atomids f_e));
    ("ring_id_2_e", DInt1 (is_ring f_e));
    ("hybr_id_2_e", DInt1 (hyb f_e));
    ("arom_id_2_e", DInt1 (arom f_e));
    ("edge_2d_2_e", index_array (edge_2d f_e));
    ("edge_3d_2_e", index_array (edge_3d f_e));
    ("crds_3d_2_e", DFloat2 (crds_3d f_e))
  ].

(** The body of [for smi in tqdm(startingmat_1_unique)]. *)
Definition substrate_body (smi : string) : M unit :=
  f_a ← get_3dG_from_smi smi 0xF00A;
  f_b ← get_3dG_from_smi smi 0xF00B;
  f_c ← get_3dG_from_smi smi 0xF00C;
  f_d ← get_3dG_from_smi smi 0xF00D;
  f_e ← get_3dG_from_smi smi 0xF00E;
  _ ← create_group substrate_path smi;
  for_each (create_dataset substrate_path smi) (substrate_datasets f_a f_b f_c f_d f_e).

(** The body of [for smi in tqdm(startingmat_2_unique)]. *)
Definition carbacid_body (smi : string) : M unit :=
  f_a ← get_3dG_from_smi smi 0xF00A;
  f_b ← get_3dG_from_smi smi 0xF00B;
  f_c ← get_3dG_from_smi smi 0xF00C;
  f_d ← get_3dG_from_smi smi 0xF00D;
  f_e ← get_3dG_from_smi smi 0xF00E;
  _ ← create_group carbacids_path smi;
  for_each (create_dataset carbacids_path smi) (carbacid_datasets f_a f_b f_c f_d f_e).

(** [float(col[idx])]. *)
Definition float_at (col : list cell) (idx : nat) : result float :=
  c ← list_getitem col idx; py_float c.

(** [int(d[col[idx]])]. *)
Definition id_at (d : gmap string Z) (col : list string) (idx : nat) : result Z :=
  v ← list_getitem col idx; getitem SiteVocabulary d v.

(** Lines 410-432: the values of one reaction row. *)
Record reaction_values := {
  ecfp4_2_1 : list Z; ecfp4_2_2 : list Z;
  rgt_eq : float; sm2_eq : float; conc_m : float; tmp_de : float; hours_ : float;
  scale_ : float; cat_eq : float; add_eq : float; sol_f1 : float; sol_f2 : float;
  rea_id : Z; so1_id : Z; so2_id : Z; cat_id : Z; add_id : Z; atm_id : Z
}.

Definition reaction_row (t : table) (v : vocabularies) (idx : nat) : result reaction_values :=
  smi1 ← list_getitem (startingmat_1_smiles t) idx;
  smi2 ← list_getitem (startingmat_2_smiles t) idx;
  rgt_eq ← float_at (reagent_1_eq t) idx;
  sm2_eq ← float_at (startingmat_2_eq t) idx;
  conc_m ← float_at (concentration_moll t) idx;
  tmp_de ← float_at (temperature_degC t) idx;
  hours_ ← float_at (time_h t) idx;
  scale_ ← float_at (scale_mol t) idx;
  cat_eq ← float_at (catalyst_1_eq t) idx;
  add_eq ← float_at (additive_1_eq t) idx;
  sol_f1 ← float_at (solvent_1_fraction t) idx;
  sol_f2 ← float_at (solvent_2_fraction t) idx;
  rea_id ← id_at (rea_dict v) (reagent_1_smiles t) idx;
  so1_id ← id_at (so1_dict v) (solvent_1_smiles t) idx;
  so2_id ← id_at (so2_dict v) (solvent_2_smiles t) idx;
  cat_id ← id_at (cat_dict v) (catalyst_1_smiles t) idx;
  add_id ← id_at (add_dict v) (additive_1_smiles t) idx;
  atm_id ← id_at (atm_dict v) (atmosphere t) idx;
  ecfp4_2_1 ← get_fp_from_smi smi1;
  ecfp4_2_2 ← get_fp_from_smi smi2;
  Ok {| ecfp4_2_1 := ecfp4_2_1; ecfp4_2_2 := ecfp4_2_2;
        rgt_eq := rgt_eq; sm2_eq := sm2_eq; conc_m := conc_m; tmp_de := tmp_de;
        hours_ := hours_; scale_ := scale_; cat_eq := cat_eq; add_eq := add_eq;
        sol_f1 := sol_f1; sol_f2 := sol_f2;
        rea_id := rea_id; so1_id := so1_id; so2_id := so2_id;
        cat_id := cat_id; add_id := add_id; atm_id := atm_id |}.

(** Lines 440-460, each dataset with the block it is written in. *)
Definition condition_fields (r : reaction_values) : list (field_class * (string * dataset)) :=
  [ (Fingerprint, ("ecfp4_2_1", DInt2 [ecfp4_2_1 r]));
    (Fingerprint, ("ecfp4_2_2", DInt2 [ecfp4_2_2 r]));
    (NumericCondition, ("rgt_eq", DFloat1 [rgt_eq r]));
    (NumericCondition, ("sm2_eq", DFloat1 [sm2_eq r]));
    (NumericCondition, ("conc_m", DFloat1 [conc_m r]));
    (NumericCondition, ("tmp_de", DFloat1 [tmp_de r]));
    (NumericCondition, ("hours_", DFloat1 [hours_ r]));
    (NumericCondition, ("scale_", DFloat1 [scale_ r]));
    (NumericCondition, ("cat_eq", DFloat1 [cat_eq r]));
    (NumericCondition, ("add_eq", DFloat1 [add_eq r]));
    (NumericCondition, ("sol_f1", DFloat1 [sol_f1 r]));
    (NumericCondition, ("sol_f2", DFloat1 [sol_f2 r]));
    (CategoricalId, ("rea_id", DInt1 [rea_id r]));
    (CategoricalId, ("so1_id", DInt1 [so1_id r]));
    (CategoricalId, ("so2_id", DInt1 [so2_id r]));
    (CategoricalId, ("cat_id", DInt1 [cat_id r]));
    (CategoricalId, ("add_id", DInt1 [add_id r]));
    (CategoricalId, ("atm_id", DInt1 [atm_id r])) ].

(** Lines 463-464. *)
Definition trg_yld_field (y : float) : field_class * (string * dataset) :=
  (Target, ("trg_yld", DFloat1 [y])).
Definition trg_bin_field (b : cell) : field_class * (string * dataset) :=
  (Target, ("trg_bin", DCell1 [b])).

(** All the datasets of a reaction section, in the order they are written. *)
Definition reaction_fields (r : reaction_values) (y : float) (b : cell)
    : list (field_class * (string * dataset)) :=
  condition_fields r ++ [trg_yld_field y; trg_bin_field b].

(** An HDF5 group name is a string. *)
Definition group_name (rxn_key : cell) : result string :=
  match rxn_key with
  | CStr s => Ok s
  | _ => Raise TypeError
  end.

(** The body of [for idx, rxn_key in enumerate(tqdm(rxn_id))]. *)
Definition reaction_body (t : table) (v : vocabularies) (product_all : list float)
    (ir : nat * cell) : M unit :=
  let idx := ir.1 in
  r ← lift (reaction_row t v idx);
  name ← lift (group_name ir.2);
  _ ← create_group conditions_path name;
  _ ← for_each (create_dataset conditions_path name) ((condition_fields r).*2);
  y ← lift (list_getitem product_all idx);
  _ ← create_dataset conditions_path name (trg_yld_field y).2;
  b ← lift (list_getitem (binary t) idx);
  create_dataset conditions_path name (trg_bin_field b).2.

(** The script under [if __name__ == "__main__"], from the table pandas
    read; the [print] calls and the read-only reopening of the three
    containers are left out. *)
Definition main (df : gmap string (list cell)) : M unit :=
  t ← lift (read_table df);
  let v := build_vocabularies t in
  product_all ← lift (compute_product_all t);
  let cond_dicts := [rea_dict v; so1_dict v; so2_dict v; cat_dict v; add_dict v; atm_dict v] in
  _ ← torch_save (TorchCondDicts cond_dicts) cond_dicts_path;
  let startingmat_1_unique := unique (startingmat_1_smiles t) in
  let startingmat_2_unique := unique (startingmat_2_smiles t) in
  rxn_smi_dict ← lift (mapR (rxn_smi_item t) (enumerate (rxn_id t)));
  _ ← torch_save (TorchRxnSmi rxn_smi_dict) rxn_smi_dict_path;
  _ ← h5_open_w substrate_path;
  _ ← for_each substrate_body startingmat_1_unique;
  _ ← h5_open_w carbacids_path;
  _ ← for_each carbacid_body startingmat_2_unique;
  _ ← h5_open_w conditions_path;
  for_each (reaction_body t v product_all) (enumerate (rxn_id t)).

End Script.

(** ** Vocabulary of the statements *)

(** What a computation leaves as it was, whatever its outcome. *)
Definition preserves {A} (R : world → world → Prop) (m : M A) : Prop :=
  ∀ w r w', m w = (r, w') → R w w'.

(** Every file but the one at [path] is as before. *)
Definition files_except (path : string) (w w' : world) : Prop :=
  ∀ p, p ≠ path → fs w' !! p = fs w !! p.

(** Only the file at [path] changes: the generator and the trace do not. *)
Definition touches_only (path : string) (w w' : world) : Prop :=
  rng w' = rng w ∧ calls w' = calls w ∧ files_except path w w'.

(** The section that a sequence of [create_dataset] calls builds. *)
Definition insert_item (sec : gmap string dataset) (it : string * dataset) : gmap string dataset :=
  <[it.1 := it.2]> sec.

Definition section_of (items : list (string * dataset)) : gmap string dataset :=
  fold_left insert_item items ∅.


(** The groups on the way to the group at [p], that group included. *)
Definition group_paths (p : list string) : gset (list string) :=
  list_to_set ((λ n, take n p) <$> seq 1 (length p)).

(** The groups that the names of a list resolve to, with the groups on the
    way to them. *)
Definition groups_of (names : list string) : gset (list string) :=
  ⋃ ((λ name, group_paths (h5_path name)) <$> names).

(** What a successful [create_group] followed by the writes to the new
    group does to a container: the group at [p] is new and holds [sec],
    the groups on the way to it exist, and every other group is as it was. *)
Definition adds_group (g g' : h5_groups) (p : list string) (sec : h5_section) : Prop :=
  p ≠ [] ∧ g !! p = None ∧ g' !! p = Some sec ∧
  (∀ k s, g !! k = Some s → g' !! k = Some s) ∧
  dom g' = dom g ∪ group_paths p.

(** The columns the script takes from the table, in the order of lines
    103-134. *)
Definition required_columns : list string :=
  [ "rxn_id"; "temperature_deg_c"; "time_h"; "atmosphere"; "scale_umol";
    "concentration_mmol_l"; "startingmat_1_smiles"; "startingmat_2_smiles";
    "startingmat_2_eq"; "reagent_1_smiles"; "reagent_1_eq"; "catalyst_1_smiles";
    "catalyst_1_eq"; "additive_1_smiles"; "additive_1_eq"; "solvent_1_smiles";
    "solvent_1_fraction"; "solvent_2_smiles"; "solvent_2_fraction";
    "product_mono"; "product_di"; "product_non"; "binary" ].

(** The names of the arrays of a molecule section: one per feature and
    seed suffix. *)
Definition feature_names : list string :=
  ["atom_id"; "ring_id"; "hybr_id"; "arom_id"; "edge_2d"; "edge_3d"; "crds_3d"; "to_keep"].

Definition feature_names_without_keep : list string :=
  ["atom_id"; "ring_id"; "hybr_id"; "arom_id"; "edge_2d"; "edge_3d"; "crds_3d"].

Definition seed_suffixes : list string := ["a"; "b"; "c"; "d"; "e"].

Definition array_names (role : string) (features : list string) : list string :=
  suffix ← seed_suffixes; feature ← features;
  [feature +:+ "_" +:+ role +:+ "_" +:+ suffix].

(** The five featurizer invocations for one descriptor. *)
Definition literal_seeds : list Z := [0xF00A; 0xF00B; 0xF00C; 0xF00D; 0xF00E].

Definition five_calls (smi : string) : list (string * Z) :=
  (λ seed, (smi, seed)) <$> literal_seeds.

(** Every value of a column has an id in the vocabulary built from it. *)
Definition covers (d : gmap string Z) (col : list string) : Prop :=
  Forall (λ x, is_Some (d !! x)) col.

Definition vocabularies_cover {ut : Utils} (t : table) : Prop :=
  let v := build_vocabularies t in
  covers (rea_dict v) (reagent_1_smiles t) ∧
  covers (so1_dict v) (solvent_1_smiles t) ∧
  covers (so2_dict v) (solvent_2_smiles t) ∧
  covers (cat_dict v) (catalyst_1_smiles t) ∧
  covers (add_dict v) (additive_1_smiles t) ∧
  covers (atm_dict v) (atmosphere t).

(** An outcome that is not the [KeyError] of a vocabulary lookup. *)
Definition no_vocabulary_miss {A} (r : result A) : Prop :=
  ∀ k, r ≠ Raise (KeyError SiteVocabulary k).

(** A computation that never ends in a vocabulary miss. *)
Definition never_misses {A} (m : M A) : Prop :=
  ∀ w, no_vocabulary_miss (m w).1.

(** ** A vocabulary builder *)

(** Modelled from the spec: [get_dict_for_embedding] of [minisci/utils.py],
    which is not in [preprocess.py].  It enumerates the distinct values of
    a column in first-seen order and gives them the ids 0, 1, 2, ... *)
Definition first_seen_ids (col : list string) : gmap string Z :=
  fold_left (λ d v, match d !! v with
                    | Some _ => d
                    | None => <[v := Z.of_nat (size d)]> d
                    end) col ∅.

(** ** A small instance to run the definitions on

    A toolkit that knows four one-atom descriptors, places the atoms on a
    line 1.5 apart starting where the generator says, and advances the
    generator like a linear congruential one. *)
Module Demo.

Definition float_of_Z (z : Z) : float := PrimFloat.of_uint63 (Uint63.of_Z z).

Definition hydrogens (sym : string) : nat :=
  if decide (sym = "C") then 4
  else if decide (sym = "N") then 3
  else if decide (sym = "O") then 2
  else if decide (sym = "S") then 2
  else 0.

Definition heavy_atom (sym : string) : Atom :=
  {| GetSymbol := sym; IsInRing := false; GetHybridization := SP3; GetIsAromatic := false |}.

Definition hydrogen : Atom :=
  {| GetSymbol := "H"; IsInRing := false; GetHybridization := HS; GetIsAromatic := false |}.

Definition parse (s : string) : option Mol :=
  if decide (s ∈ ["C"; "N"; "O"; "S"])
  then Some {| GetAtoms := [heavy_atom s]; GetBonds := []; GetConformers := [] |}
  else None.

Definition add_hydrogens (m : Mol) : Mol :=
  let n := length (GetAtoms m) in
  let k := match GetAtoms m with a :: _ => hydrogens (GetSymbol a) | [] => 0%nat end in
  {| GetAtoms := GetAtoms m ++ replicate k hydrogen;
     GetBonds := GetBonds m ++
       ((λ i, {| GetBeginAtomIdx := 0; GetEndAtomIdx := n + i |}) <$> seq 0 k);
     GetConformers := GetConformers m |}.

Definition place (m : Mol) (maxAttempts g : Z) : option (list Point3D) * Z :=
  (Some (imap (λ k _, {| px := PrimFloat.add (float_of_Z (g `mod` 8))
                                 (PrimFloat.mul 1.5%float (float_of_Z (Z.of_nat k)));
                         py := PrimFloat.zero; pz := PrimFloat.zero |}) (GetAtoms m)),
   (g * 1103515245 + 12345) `mod` 2147483648).

#[export] Instance toolkit : RDKit := {|
  MolFromSmiles := parse;
  AddHs := add_hydrogens;
  seed_generator s := s;
  embed_coords := place;
  uff_minimize _ c := c;
  morgan_bits m _ nBits := replicate (Z.to_nat nBits) false
|}.

(** Tables of the shape of those of [minisci.utils]; the ids are examples. *)
#[export] Instance utils : Utils := {|
  ATOMTYPE_DICT := list_to_map [("H", 0); ("C", 1); ("N", 2); ("O", 3); ("S", 6)];
  IS_RING_DICT := list_to_map [("True", 0); ("False", 1)];
  HYBRIDISATION_DICT := list_to_map [("SP3", 0); ("SP2", 1); ("SP", 2); ("S", 3)];
  AROMATOCITY_DICT := list_to_map [("True", 0); ("False", 1)];
  DATASET_NAME := "demo";
  get_dict_for_embedding := first_seen_ids
|}.

(** Only a missing value (NaN) ever reaches [str] in the tables below. *)
#[export] Instance python : Python := {|
  str_float _ := "nan";
  float_str _ := None
|}.

Definition w0 : world := {| fs := ∅; rng := 42; calls := [] |}.

Definition no_features : features :=
  {| atomids := []; is_ring := []; hyb := []; arom := []; edge_2d := [];
     edge_3d := []; crds_3d := []; tokeep := [] |}.

(** The featurizer on methane, and the world it leaves. *)
Definition methane_a : features * world :=
  Eval vm_compute in
    match get_3dG_from_smi "C" 0xF00A w0 with
    | (Ok out, w) => (out, w)
    | (Raise _, w) => (no_features, w)
    end.

Definition f (x : float) : cell := CFloat x.

(** Two reactions. *)
Definition df : gmap string (list cell) :=
  list_to_map [
    ("rxn_id", [CStr "rxn_1"; CStr "rxn_2"]);
    ("temperature_deg_c", [f 25; f 40]);
    ("time_h", [f 12; f 12]);
    ("atmosphere", [CStr "air"; CStr "N2"]);
    ("scale_umol", [f 100; f 100]);
    ("concentration_mmol_l", [f 50; f 50]);
    ("startingmat_1_smiles", [CStr "C"; CStr "N"]);
    ("startingmat_2_smiles", [CStr "O"; CStr "O"]);
    ("startingmat_2_eq", [f 2; f 2]);
    ("reagent_1_smiles", [CStr "S"; CStr "S"]);
    ("reagent_1_eq", [f 1; f 1]);
    ("catalyst_1_smiles", [CStr "N"; CStr "N"]);
    ("catalyst_1_eq", [f 0.5; f 0.5]);
    ("additive_1_smiles", [CStr "O"; CStr "C"]);
    ("additive_1_eq", [f 1; f 1]);
    ("solvent_1_smiles", [CStr "O"; CStr "O"]);
    ("solvent_1_fraction", [f 0.5; f 0.5]);
    ("solvent_2_smiles", [CStr "C"; CStr "C"]);
    ("solvent_2_fraction", [f 0.5; f 0.5]);
    ("product_mono", [f 0.5; f 0.25]);
    ("product_di", [f 0.25; f 0.5]);
    ("product_non", [f 0.25; f 0.25]);
    ("binary", [CInt 1; CInt 0])
  ].

End Demo.

(** ** Further vocabulary: where the datasets of a reaction come from *)

(** Lines 412-421 with 444-453: the column behind each numeric dataset. *)
Definition numeric_sources (t : table) : list (string * list cell) :=
  [ ("rgt_eq", reagent_1_eq t);
    ("sm2_eq", startingmat_2_eq t);
    ("conc_m", concentration_moll t);
    ("tmp_de", temperature_degC t);
    ("hours_", time_h t);
    ("scale_", scale_mol t);
    ("cat_eq", catalyst_1_eq t);
    ("add_eq", additive_1_eq t);
    ("sol_f1", solvent_1_fraction t);
    ("sol_f2", solvent_2_fraction t) ].

(** Lines 424-429 with 455-460: the vocabulary and the column behind each
    categorical dataset. *)
Definition categorical_sources (t : table) (v : vocabularies)
    : list (string * (gmap string Z * list string)) :=
  [ ("rea_id", (rea_dict v, reagent_1_smiles t));
    ("so1_id", (so1_dict v, solvent_1_smiles t));
    ("so2_id", (so2_dict v, solvent_2_smiles t));
    ("cat_id", (cat_dict v, catalyst_1_smiles t));
    ("add_id", (add_dict v, additive_1_smiles t));
    ("atm_id", (atm_dict v, atmosphere t)) ].

(** The five files the script writes. *)
Definition output_paths {ut : Utils} : list string :=
  [cond_dicts_path; rxn_smi_dict_path; substrate_path; carbacids_path; conditions_path].

(** The files that are not among the outputs are as before. *)
Definition others_kept {ut : Utils} (w w' : world) : Prop :=
  ∀ p, p ∉ output_paths → fs w' !! p = fs w !! p.

(** The string of a string cell, as [create_group] takes it. *)
Definition cell_name (c : cell) : string :=
  match c with
  | CStr s => s
  | _ => ""
  end.

(** Lines 188-247 and 303-362: five successive calls for one descriptor,
    each from the world the one before left. *)
Definition five_runs {tk : RDKit} {ut : Utils} (smi : string)
    (f_a f_b f_c f_d f_e : features) : Prop :=
  ∃ wa wb wc wd we wf,
    get_3dG_from_smi smi 0xF00A wa = (Ok f_a, wb) ∧
    get_3dG_from_smi smi 0xF00B wb = (Ok f_b, wc) ∧
    get_3dG_from_smi smi 0xF00C wc = (Ok f_c, wd) ∧
    get_3dG_from_smi smi 0xF00D wd = (Ok f_d, we) ∧
    get_3dG_from_smi smi 0xF00E we = (Ok f_e, wf).

(** The world after one more featurizer call that left the generator in
    state [g]. *)
Definition after_call (w : world) (smi : string) (seed g : Z) : world :=
  {| fs := fs w; rng := g; calls := calls w ++ [(smi, seed)] |}.

(** The toolkit of [Demo] with an embedding that never finds coordinates. *)
Module DemoFail.

(** As [MolFromSmiles] does, [parse] takes the empty descriptor for a
    molecule without atoms. *)
Definition parse (s : string) : option Mol :=
  if decide (s = "") then Some {| GetAtoms := []; GetBonds := []; GetConformers := [] |}
  else Demo.parse s.

Definition toolkit : RDKit := {|
  MolFromSmiles := parse;
  AddHs := Demo.add_hydrogens;
  seed_generator s := s;
  embed_coords m maxAttempts g := (None, (g + 1) `mod` 2147483648);
  uff_minimize _ c := c;
  morgan_bits m _ nBits := replicate (Z.to_nat nBits) false
|}.

End DemoFail.

(** * Properties *)

Set Warnings "-clear-no-such-hyp".

(** ** The monads *)
Lemma bindR_ok {A B} (m : result A) (f : A → result B) b :
  m ≫= f = Ok b → ∃ a, m = Ok a ∧ f a = Ok b.
Proof. destruct m as [a|e]; simpl; [eauto | discriminate]. Qed.

Lemma bindM_ok {A B} (m : M A) (f : A → M B) w b w' :
  (m ≫= f) w = (Ok b, w') → ∃ a w1, m w = (Ok a, w1) ∧ f a w1 = (Ok b, w').
Proof.
  unfold mbind, M_bind. destruct (m w) as [[a|e] w1]; [eauto | discriminate].
Qed.

Lemma lift_ok {A} (r : result A) w a w' :
  lift r w = (Ok a, w') → r = Ok a ∧ w' = w.
Proof. unfold lift. intros [= -> ->]. done. Qed.

Lemma mret_ok {A} (a b : A) (w w' : world) :
  (mret a : M A) w = (Ok b, w') → b = a ∧ w' = w.
Proof. unfold mret, M_ret. intros [= -> ->]. done. Qed.

Ltac inv_bind H :=
  repeat match type of H with
  | (_ ≫= _) _ = (Ok _, _) =>
      let a := fresh "a" in let w := fresh "w" in let H1 := fresh "Hstep" in
      apply bindM_ok in H as (a & w & H1 & H)
  | _ ≫= _ = Ok _ =>
      let a := fresh "a" in let H1 := fresh "Hstep" in
      apply bindR_ok in H as (a & H1 & H)
  end.

Lemma mapR_ok {A B} (f : A → result B) l ys :
  mapR f l = Ok ys → Forall2 (λ x y, f x = Ok y) l ys.
Proof.
  revert ys. induction l as [|x l IH]; intros ys Hm; simpl in Hm.
  - injection Hm as <-. constructor.
  - apply bindR_ok in Hm as (y & Hy & Hm).
    apply bindR_ok in Hm as (ys' & Hys & Hm).
    injection Hm as <-. constructor; auto.
Qed.

Lemma enumerate_lookup {A} (l : list A) i :
  enumerate l !! i = (λ x, (i, x)) <$> l !! i.
Proof. unfold enumerate. apply list_lookup_imap. Qed.

Lemma enumerate_length {A} (l : list A) : length (enumerate l) = length l.
Proof. unfold enumerate. apply length_imap. Qed.

Section DistanceMatrix.
Context {tk : RDKit} {ut : Utils}.

Lemma condensed_length X :
  (2 * length (condensed X) = length X * (length X - 1))%nat.
Proof.
  induction X as [|u X IH]; simpl; [done|].
  rewrite length_app, length_map. nia.
Qed.

Lemma upper_rows_condensed X i :
  upper_rows (length X) (condensed X) !! i
  = (λ u, euclidean u <$> drop (S i) X) <$> X !! i.
Proof.
  revert i. induction X as [|u X IH]; intros i; simpl; [done|].
  assert (Hlen : length (map (euclidean u) X) = length X) by apply length_map.
  destruct i as [|i]; simpl.
  - rewrite take_app_length'; [|done]. by rewrite drop_0.
  - rewrite drop_app_length'; [|done]. apply IH.
Qed.

Lemma squareform_condensed X :
  X ≠ [] →
  squareform (condensed X)
  = Ok (square (upper_rows (length X) (condensed X)) (length X)).
Proof.
  intros HX. unfold squareform, square.
  pose proof (condensed_length X) as Hc.
  assert (1 ≤ length X)%nat as Hn by (destruct X; [done | simpl; lia]).
  destruct (length (condensed X)) as [|k] eqn:Hk.
  - assert (length X = 1%nat) as Hone by nia.
    rewrite Hone. simpl. done.
  - assert (Nat.sqrt (2 * S k - 1) = (length X - 1)%nat) as Hs.
    { apply Nat.sqrt_unique. nia. }
    rewrite Hs.
    replace (S (length X - 1)) with (length X) by lia.
    replace (length X * (length X - 1) =? 2 * S k)%nat with true; [done|].
    symmetry. apply Nat.eqb_eq. lia.
Qed.

Lemma square_lookup U n i j row x :
  square U n !! i = Some row → row !! j = Some x →
  (i < n)%nat ∧ (j < n)%nat ∧ x = matrix_entry U i j.
Proof.
  unfold square. intros Hi Hj.
  rewrite list_lookup_fmap in Hi.
  destruct (seq 0 n !! i) as [i'|] eqn:Hsi; [|done].
  apply lookup_seq in Hsi as [-> Hlt]. simpl in Hi. injection Hi as <-.
  rewrite list_lookup_fmap in Hj.
  destruct (seq 0 n !! j) as [j'|] eqn:Hsj; [|done].
  apply lookup_seq in Hsj as [-> Hlt']. simpl in Hj. injection Hj as <-.
  done.
Qed.

Lemma square_lookup_2 U n i j :
  (i < n)%nat → (j < n)%nat →
  ∃ row, square U n !! i = Some row ∧ row !! j = Some (matrix_entry U i j)
         ∧ length row = n.
Proof.
  intros Hi Hj. exists (map (matrix_entry U i) (seq 0 n)). split_and!.
  - unfold square. rewrite list_lookup_fmap, lookup_seq_lt; done.
  - rewrite list_lookup_fmap, lookup_seq_lt; done.
  - by rewrite length_map, length_seq.
Qed.

Lemma matrix_entry_pair X i j xi xj :
  (i < j)%nat → X !! i = Some xi → X !! j = Some xj →
  let U := upper_rows (length X) (condensed X) in
  matrix_entry U i j = euclidean xi xj ∧ matrix_entry U j i = euclidean xi xj.
Proof.
  intros Hij Hi Hj U.
  assert (U !! i ≫= (.!! (j - i - 1)%nat) = Some (euclidean xi xj)) as HU.
  { unfold U. rewrite upper_rows_condensed, Hi. simpl.
    rewrite list_lookup_fmap, lookup_drop.
    replace (S i + (j - i - 1))%nat with j by lia. by rewrite Hj. }
  unfold matrix_entry.
  assert ((i <? j)%nat = true) as -> by (apply Nat.ltb_lt; lia).
  assert ((j <? i)%nat = false) as -> by (apply Nat.ltb_ge; lia).
  by rewrite HU.
Qed.

Lemma fill_diagonal_lookup Mx v i :
  fill_diagonal Mx v !! i = (λ row, <[i := v]> row) <$> Mx !! i.
Proof. unfold fill_diagonal. by rewrite list_lookup_imap. Qed.

Lemma np_where_hits test Mx a b :
  (a, b) ∈ zip (np_where test Mx).1 (np_where test Mx).2
  ↔ ∃ row x, Mx !! a = Some row ∧ row !! b = Some x ∧ test x = true.
Proof.
  unfold np_where. simpl. rewrite zip_fst_snd.
  rewrite list_elem_of_In, in_flat_map. split.
  - intros ([i row] & Hin & Hin'). simpl in Hin'.
    apply in_flat_map in Hin' as ([j x] & Hjx & Hhit). simpl in Hhit.
    destruct (test x) eqn:Ht; [|done].
    destruct Hhit as [[= <- <-]|[]].
    apply list_elem_of_In, list_elem_of_lookup in Hin as [i' Hin].
    apply list_elem_of_In, list_elem_of_lookup in Hjx as [j' Hjx].
    rewrite enumerate_lookup in Hin. rewrite enumerate_lookup in Hjx.
    destruct (Mx !! i') as [row'|] eqn:E1; [|done]. injection Hin as -> ->.
    destruct (row !! j') as [x'|] eqn:E2; [|done]. injection Hjx as -> ->.
    eauto.
  - intros (row & x & Hrow & Hx & Ht).
    exists (a, row). split.
    + apply list_elem_of_In, list_elem_of_lookup. exists a.
      by rewrite enumerate_lookup, Hrow.
    + simpl. apply in_flat_map. exists (b, x). split.
      * apply list_elem_of_In, list_elem_of_lookup. exists b.
        by rewrite enumerate_lookup, Hx.
      * simpl. rewrite Ht. by left.
Qed.

Lemma has_edge_zip r0 r1 a b :
  length r0 = length r1 →
  has_edge [r0; r1] a b ↔ (a, b) ∈ zip r0 r1.
Proof.
  intros Hlen. unfold has_edge. split.
  - intros (r0' & r1' & k & [= <- <-] & H0 & H1).
    apply list_elem_of_lookup. exists k.
    rewrite lookup_zip_with, H0. simpl. by rewrite H1.
  - intros [k Hk]%list_elem_of_lookup.
    apply lookup_zip_with_Some in Hk as (x & y & [= <- <-] & H0 & H1).
    eauto 10.
Qed.

Lemma np_where_lengths test Mx :
  length (np_where test Mx).1 = length (np_where test Mx).2.
Proof. unfold np_where. simpl. by rewrite !length_fmap. Qed.

End DistanceMatrix.

Section FeaturizerRuns.
Context {tk : RDKit} {ut : Utils}.

(** A call of [EmbedMolecule] that returns: the arguments fit their C++
    types, the molecule has an atom, and the embedding ran. *)
Lemma EmbedMolecule_ok mol a s w r w' :
  EmbedMolecule mol a s w = (Ok r, w') →
  fits_unsigned_int a = true ∧ fits_int s = true ∧ GetAtoms mol ≠ [] ∧
  ∃ found g',
    embed_coords mol a (if (-1 <? s)%Z then seed_generator s else rng w) = (found, g') ∧
    w' = (if (-1 <? s)%Z then w else {| fs := fs w; rng := g'; calls := calls w |}) ∧
    r = match found with
        | Some c => (set_conformers mol [c], 0)
        | None => (set_conformers mol [], -1)
        end.
Proof.
  unfold EmbedMolecule. intros Hrun.
  destruct (fits_unsigned_int a), (fits_int s); simpl in Hrun; try done.
  destruct (GetAtoms mol) as [|x atoms]; [done|].
  destruct (embed_coords _ _ _) as [[c|] g'] eqn:He;
    injection Hrun as <- <-; split_and!; try done; by eexists _, _.
Qed.

Lemma get_3dG_from_smi_ok smi seed w out w' :
  get_3dG_from_smi smi seed w = (Ok out, w') →
  ∃ m0 mol rows,
    MolFromSmiles smi = Some m0 ∧
    GetAtoms mol = GetAtoms (AddHs m0) ∧
    GetBonds mol = GetBonds (AddHs m0) ∧
    Forall2 (λ ia r, atom_body mol ia = Ok r) (enumerate (GetAtoms mol)) rows ∧
    rows ≠ [] ∧
    out = {| atomids := row_atomid <$> rows;
             is_ring := row_ring <$> rows;
             hyb := row_hyb <$> rows;
             arom := row_arom <$> rows;
             edge_2d := [flat_map (λ bond, [GetBeginAtomIdx bond; GetEndAtomIdx bond]) (GetBonds mol);
                         flat_map (λ bond, [GetEndAtomIdx bond; GetBeginAtomIdx bond]) (GetBonds mol)];
             edge_3d := proximity_edges (row_crds <$> rows);
             crds_3d := row_crds <$> rows;
             tokeep := row_keep <$> rows |}.
Proof.
  unfold get_3dG_from_smi. intros Hrun.
  apply bindM_ok in Hrun as (mol1 & w1 & Hparse & Hrun).
  apply lift_ok in Hparse as [Hparse ->].
  apply bindM_ok in Hrun as ([mol2 cid] & w2 & Hembed & Hrun).
  apply bindM_ok in Hrun as (mol3 & w3 & Huff & Hrun).
  apply lift_ok in Huff as [Huff ->].
  apply bindM_ok in Hrun as (rows & w4 & Hrows & Hrun).
  apply lift_ok in Hrows as [Hrows ->].
  apply bindM_ok in Hrun as (v & w5 & Hpd & Hrun).
  apply lift_ok in Hpd as [Hpd ->].
  apply bindM_ok in Hrun as (Mx & w6 & Hsq & Hrun).
  apply lift_ok in Hsq as [Hsq ->].
  apply mret_ok in Hrun as [-> ->].
  destruct (MolFromSmiles smi) as [m0|] eqn:Hm0; [|done].
  simpl in Hparse. injection Hparse as <-.
  assert (GetAtoms mol2 = GetAtoms (AddHs m0) ∧ GetBonds mol2 = GetBonds (AddHs m0))
    as [Ha2 Hb2].
  { apply EmbedMolecule_ok in Hembed as (_ & _ & _ & found & g' & _ & _ & Hr).
    destruct found; injection Hr as -> _; done. }
  assert (GetAtoms mol3 = GetAtoms mol2 ∧ GetBonds mol3 = GetBonds mol2) as [Ha3 Hb3].
  { unfold UFFOptimizeMolecule in Huff.
    destruct (GetConformers mol2); [done|]. injection Huff as <-. done. }
  assert (rows ≠ []) as Hne.
  { intros ->. simpl in Hpd. done. }
  unfold pdist in Hpd.
  destruct (row_crds <$> rows) as [|u X] eqn:HX; [done|].
  assert (v = condensed (u :: X)) as -> by congruence.
  rewrite squareform_condensed in Hsq; [|done]. injection Hsq as <-.
  exists m0, mol3, rows. rewrite Ha3, Hb3. split_and!; try done.
  - apply mapR_ok in Hrows. by rewrite Ha3 in Hrows.
  - unfold proximity_edges. by rewrite HX.
Qed.

Lemma Forall2_atom_rows mol (atoms : list Atom) rows :
  Forall2 (λ ia r, atom_body mol ia = Ok r) (enumerate atoms) rows →
  length rows = length atoms ∧ Forall (λ r, length (row_crds r) = 3%nat) rows.
Proof.
  intros HF. split.
  - apply Forall2_length in HF. by rewrite enumerate_length in HF.
  - eapply Forall2_Forall_r; [exact HF|].
    apply Forall_forall. intros ia _ r Hr. unfold atom_body in Hr.
    inv_bind Hr. injection Hr as <-. done.
Qed.

Lemma proximity_edges_spec crds a b :
  has_edge (proximity_edges crds) a b ↔
  (a < length crds)%nat ∧ (b < length crds)%nat ∧ a ≠ b ∧
  le4 (matrix_entry (upper_rows (length crds) (condensed crds)) a b) = true.
Proof.
  unfold proximity_edges. cbv zeta.
  rewrite has_edge_zip by apply np_where_lengths.
  rewrite np_where_hits. split.
  - intros (row & x & Hrow & Hx & Ht).
    rewrite fill_diagonal_lookup in Hrow.
    destruct (square _ _ !! a) as [row0|] eqn:Hrow0; [|done].
    injection Hrow as <-.
    destruct (decide (a = b)) as [->|Hne].
    + apply lookup_lt_Some in Hx as Hlt. rewrite length_insert in Hlt.
      rewrite list_lookup_insert_eq in Hx by done. injection Hx as <-.
      vm_compute in Ht. done.
    + rewrite list_lookup_insert_ne in Hx by done.
      destruct (square_lookup _ _ _ _ _ _ Hrow0 Hx) as (? & ? & ->). done.
  - intros (Ha & Hb & Hne & Ht).
    destruct (square_lookup_2 (upper_rows (length crds) (condensed crds)) _ _ _ Ha Hb)
      as (row & Hrow & Hx & _).
    exists (<[a := PrimFloat.infinity]> row), (matrix_entry (upper_rows (length crds) (condensed crds)) a b).
    split_and!; [|by rewrite list_lookup_insert_ne|done].
    by rewrite fill_diagonal_lookup, Hrow.
Qed.

Lemma bond_edges_lookup (bonds : list Bond) bond :
  bond ∈ bonds →
  ∃ k,
    flat_map (λ bond, [GetBeginAtomIdx bond; GetEndAtomIdx bond]) bonds !! k
      = Some (GetBeginAtomIdx bond) ∧
    flat_map (λ bond, [GetEndAtomIdx bond; GetBeginAtomIdx bond]) bonds !! k
      = Some (GetEndAtomIdx bond) ∧
    flat_map (λ bond, [GetBeginAtomIdx bond; GetEndAtomIdx bond]) bonds !! S k
      = Some (GetEndAtomIdx bond) ∧
    flat_map (λ bond, [GetEndAtomIdx bond; GetBeginAtomIdx bond]) bonds !! S k
      = Some (GetBeginAtomIdx bond).
Proof.
  induction bonds as [|b bs IH]; intros Hin.
  - by apply elem_of_nil in Hin.
  - apply elem_of_cons in Hin as [->|Hin].
    + exists 0%nat. done.
    + destruct (IH Hin) as (k & H1 & H2 & H3 & H4).
      exists (S (S k)). done.
Qed.

End FeaturizerRuns.

Section FeaturizerTheorems.
Context {tk : RDKit} {ut : Utils}.

(** Claim C1.  After a successful call of [get_3dG_from_smi], every two
    distinct atoms [i] and [j] whose Euclidean distance in the returned
    coordinates is at most 4 give both columns [(i, j)] and [(j, i)] of
    [edge_3d], and no [(i, i)] is a column of it.  The distance of a pair
    is the one [pdist] evaluates, from the atom of smaller index to the
    other. *)
Theorem proximity_edges_symmetric_without_loops smi seed w out w' :
  get_3dG_from_smi smi seed w = (Ok out, w') →
  (∀ i j d, i ≠ j → pair_distance (crds_3d out) i j = Some d → le4 d = true →
     has_edge (edge_3d out) i j ∧ has_edge (edge_3d out) j i)
  ∧ (∀ i, ¬ has_edge (edge_3d out) i i).
Proof.
  intros Hrun.
  apply get_3dG_from_smi_ok in Hrun as (m0 & mol & rows & _ & _ & _ & _ & _ & ->).
  simpl. set (crds := row_crds <$> rows). split.
  - intros i j d Hne Hd Hle. unfold pair_distance in Hd.
    destruct (crds !! (i `min` j)%nat) as [xi|] eqn:Hi; [|done].
    destruct (crds !! (i `max` j)%nat) as [xj|] eqn:Hj; [|done].
    simpl in Hd. injection Hd as <-.
    assert (i `min` j < i `max` j)%nat as Hlt by lia.
    destruct (matrix_entry_pair crds _ _ _ _ Hlt Hi Hj) as [E1 E2].
    apply lookup_lt_Some in Hi, Hj.
    rewrite !proximity_edges_spec.
    destruct (decide (i < j)%nat).
    + rewrite Nat.min_l, Nat.max_r in * by lia.
      rewrite E1, E2. split_and!; done || lia.
    + rewrite Nat.min_r, Nat.max_l in * by lia.
      rewrite E1, E2. split_and!; done || lia.
  - intros i Hii. apply proximity_edges_spec in Hii as (_ & _ & Hne & _). done.
Qed.

(** Claim C2.  After a successful call of [get_3dG_from_smi], every bond
    of the parsed molecule (with its hydrogens) gives both arcs in
    [edge_2d]: begin to end, and end to begin. *)
Theorem bond_edges_both_directions smi seed w out w' m bond :
  get_3dG_from_smi smi seed w = (Ok out, w') →
  MolFromSmiles smi = Some m →
  bond ∈ GetBonds (AddHs m) →
  has_edge (edge_2d out) (GetBeginAtomIdx bond) (GetEndAtomIdx bond)
  ∧ has_edge (edge_2d out) (GetEndAtomIdx bond) (GetBeginAtomIdx bond).
Proof.
  intros Hrun Hm Hbond.
  apply get_3dG_from_smi_ok in Hrun as (m0 & mol & rows & Hm0 & _ & Hb & _ & _ & ->).
  rewrite Hm in Hm0. injection Hm0 as <-. rewrite <- Hb in Hbond.
  destruct (bond_edges_lookup _ _ Hbond) as (k & H1 & H2 & H3 & H4).
  simpl. split.
  - unfold has_edge. eexists _, _, k. split_and!; [reflexivity | done | done].
  - unfold has_edge. eexists _, _, (S k). split_and!; [reflexivity | done | done].
Qed.

Lemma bond_edges_bound (f g : Bond → nat) (bonds : list Bond) (n : nat) :
  Forall (λ b, (f b < n)%nat ∧ (g b < n)%nat) bonds →
  Forall (λ a, (a < n)%nat) (flat_map (λ b, [f b; g b]) bonds).
Proof.
  induction 1 as [|b bs [Hf Hg] _ IH]; simpl; [constructor|].
  by repeat constructor.
Qed.

Lemma np_where_fst test Mx a :
  a ∈ (np_where test Mx).1 → ∃ b, (a, b) ∈ zip (np_where test Mx).1 (np_where test Mx).2.
Proof.
  unfold np_where. simpl. rewrite zip_fst_snd.
  intros [[a' b] [-> Hin]]%list_elem_of_fmap. eauto.
Qed.

Lemma np_where_snd test Mx b :
  b ∈ (np_where test Mx).2 → ∃ a, (a, b) ∈ zip (np_where test Mx).1 (np_where test Mx).2.
Proof.
  unfold np_where. simpl. rewrite zip_fst_snd.
  intros [[a b'] [-> Hin]]%list_elem_of_fmap. eauto.
Qed.

Lemma proximity_edges_bound crds :
  Forall (Forall (λ a, (a < length crds)%nat)) (proximity_edges crds).
Proof.
  assert (∀ a b, (a, b) ∈ zip (proximity_edges crds !!! 0%nat) (proximity_edges crds !!! 1%nat) →
                 (a < length crds)%nat ∧ (b < length crds)%nat) as Hz.
  { intros a b Hab. unfold proximity_edges in Hab. cbv zeta in Hab. simpl in Hab.
    rewrite <- has_edge_zip in Hab by apply np_where_lengths.
    apply (proximity_edges_spec crds) in Hab as (? & ? & _). done. }
  unfold proximity_edges in *. cbv zeta in *. simpl in Hz.
  repeat constructor; apply Forall_forall; intros a Ha.
  - apply np_where_fst in Ha as [b Hab]. by apply Hz in Hab as [? _].
  - apply np_where_snd in Ha as [b Hab]. by apply Hz in Hab as [_ ?].
Qed.

(** Claim C10.  After a successful call of [get_3dG_from_smi] on a
    molecule whose bonds join atoms of the molecule, the six per-atom
    outputs have one entry per atom, every coordinate row has three
    components, and every index in [edge_2d] and in [edge_3d] is below
    the number of atoms. *)
Theorem featurizer_output_shapes smi seed w out w' m :
  MolFromSmiles smi = Some m →
  valid_bond_indices (AddHs m) →
  get_3dG_from_smi smi seed w = (Ok out, w') →
  let n := length (GetAtoms (AddHs m)) in
  length (atomids out) = n ∧ length (is_ring out) = n ∧ length (hyb out) = n ∧
  length (arom out) = n ∧ length (crds_3d out) = n ∧ length (tokeep out) = n ∧
  Forall (λ p, length p = 3%nat) (crds_3d out) ∧
  Forall (Forall (λ a, a < n)%nat) (edge_2d out) ∧
  Forall (Forall (λ a, a < n)%nat) (edge_3d out).
Proof.
  intros Hm Hvalid Hrun.
  apply get_3dG_from_smi_ok in Hrun as (m' & mol & rows & Hm' & Ha & Hb & Hrows & _ & ->).
  rewrite Hm in Hm'. injection Hm' as <-. simpl.
  apply Forall2_atom_rows in Hrows as [Hlen H3]. rewrite Ha in Hlen.
  rewrite !length_fmap. split_and!; try done.
  - by apply Forall_fmap.
  - unfold valid_bond_indices in Hvalid.
    rewrite Hb. repeat constructor.
    + by apply bond_edges_bound.
    + apply bond_edges_bound. eapply Forall_impl; [exact Hvalid|]. intros b [? ?]. done.
  - rewrite <- Hlen, <- (length_fmap row_crds rows). apply proximity_edges_bound.
Qed.

End FeaturizerTheorems.

(** ** Frames *)

Section Frames.
Context {A B : Type} (R : world → world → Prop).
Hypothesis R_refl : ∀ w, R w w.
Hypothesis R_trans : ∀ w1 w2 w3, R w1 w2 → R w2 w3 → R w1 w3.

Lemma preserves_bind (m : M A) (f : A → M B) :
  preserves R m → (∀ a, preserves R (f a)) → preserves R (m ≫= f).
Proof.
  intros Hm Hf w r w' Hrun. unfold mbind, M_bind in Hrun.
  destruct (m w) as [[a|e] w1] eqn:Hmw.
  - eapply R_trans; [eapply Hm, Hmw | eapply Hf, Hrun].
  - injection Hrun as <- <-. eapply Hm, Hmw.
Qed.

Lemma preserves_lift (r : result A) : preserves R (lift r).
Proof. intros w r' w' [= <- <-]. apply R_refl. Qed.

Lemma preserves_mret (a : A) : preserves R (mret a).
Proof. intros w r' w' [= <- <-]. apply R_refl. Qed.

Lemma preserves_for_each (body : A → M unit) l :
  (∀ x, x ∈ l → preserves R (body x)) → preserves R (for_each body l).
Proof.
  induction l as [|x l IH]; intros Hbody; simpl.
  - intros w r' w' [= <- <-]. apply R_refl.
  - intros w r w' Hrun. unfold mbind, M_bind in Hrun.
    destruct (body x w) as [[[]|e] w1] eqn:Hx.
    + eapply R_trans; [eapply Hbody, Hx; left|].
      eapply IH; [|exact Hrun]. intros y Hy. apply Hbody. by right.
    + injection Hrun as <- <-. eapply Hbody, Hx. left.
Qed.

End Frames.

Lemma preserves_weaken {A} (R R' : world → world → Prop) (m : M A) :
  (∀ w w', R w w' → R' w w') → preserves R m → preserves R' m.
Proof. intros HR Hm w r w' Hrun. eapply HR, Hm, Hrun. Qed.

Lemma files_except_refl path w : files_except path w w.
Proof. done. Qed.

Lemma files_except_trans path w1 w2 w3 :
  files_except path w1 w2 → files_except path w2 w3 → files_except path w1 w3.
Proof. intros H12 H23 p Hp. by rewrite H23, H12. Qed.

Lemma touches_only_refl path w : touches_only path w w.
Proof. done. Qed.

Lemma touches_only_trans path w1 w2 w3 :
  touches_only path w1 w2 → touches_only path w2 w3 → touches_only path w1 w3.
Proof.
  intros (Hr & Hc & Hf) (Hr' & Hc' & Hf'). split_and!; [congruence..|].
  by eapply files_except_trans.
Qed.

Lemma for_each_invariant {A} (body : A → M unit) (I : list A → world → Prop) l w w' :
  for_each body l w = (Ok (), w') →
  I [] w →
  (∀ pre x w1 w2, x ∈ l → I pre w1 → body x w1 = (Ok (), w2) → I (pre ++ [x]) w2) →
  I l w'.
Proof.
  intros Hrun Hinit Hstep.
  assert (∀ rest pre w1, I pre w1 → (∀ x, x ∈ rest → x ∈ l) →
            for_each body rest w1 = (Ok (), w') → I (pre ++ rest) w') as Hgen.
  { induction rest as [|x rest IH]; intros pre w1 Hpre Hsub Hr; simpl in Hr.
    - apply mret_ok in Hr as [_ ->]. by rewrite app_nil_r.
    - apply bindM_ok in Hr as ([] & w2 & Hx & Hr).
      replace (pre ++ x :: rest) with ((pre ++ [x]) ++ rest) by by rewrite <- app_assoc.
      apply (IH _ w2).
      + eapply Hstep; [apply Hsub; left | exact Hpre | exact Hx].
      + intros y Hy. apply Hsub. by right.
      + exact Hr. }
  by apply (Hgen l [] w).
Qed.

(** ** Sections built by [create_dataset] *)

Lemma fold_insert_item_lookup_fresh items sec k :
  k ∉ items.*1 → fold_left insert_item items sec !! k = sec !! k.
Proof.
  revert sec. induction items as [|it items IH]; intros sec Hk; simpl; [done|].
  rewrite fmap_cons, not_elem_of_cons in Hk. destruct Hk as [Hne Hk].
  rewrite IH by done. unfold insert_item. by rewrite lookup_insert_ne.
Qed.

Lemma fold_insert_item_lookup items sec k v :
  NoDup items.*1 → (k, v) ∈ items → fold_left insert_item items sec !! k = Some v.
Proof.
  revert sec. induction items as [|it items IH]; intros sec Hnd Hin; simpl.
  - by apply elem_of_nil in Hin.
  - rewrite fmap_cons in Hnd. apply NoDup_cons in Hnd as [Hfresh Hnd].
    apply elem_of_cons in Hin as [<-|Hin].
    + rewrite fold_insert_item_lookup_fresh by done.
      unfold insert_item. simpl. by rewrite lookup_insert_eq.
    + by apply IH.
Qed.

Lemma fold_insert_item_dom items sec :
  dom (fold_left insert_item items sec) = dom sec ∪ list_to_set items.*1.
Proof.
  revert sec. induction items as [|it items IH]; intros sec; simpl.
  - set_solver.
  - rewrite IH. unfold insert_item. rewrite dom_insert_L. set_solver.
Qed.

Lemma fold_insert_item_size items sec :
  NoDup items.*1 → Forall (λ it, sec !! it.1 = None) items →
  size (fold_left insert_item items sec) = (size sec + length items)%nat.
Proof.
  revert sec. induction items as [|it items IH]; intros sec Hnd Hfresh; simpl.
  - lia.
  - rewrite fmap_cons in Hnd. apply NoDup_cons in Hnd as [Hit Hnd].
    apply Forall_cons in Hfresh as [Hnone Hfresh].
    rewrite IH; [|done|].
    + unfold insert_item. rewrite map_size_insert_None by done. lia.
    + apply Forall_forall. intros it' Hin. unfold insert_item.
      rewrite lookup_insert_ne.
      * rewrite Forall_forall in Hfresh. by apply Hfresh.
      * intros Heq. apply Hit. rewrite Heq. by apply list_elem_of_fmap_2.
Qed.

Lemma section_of_size items :
  NoDup items.*1 → size (section_of items) = length items.
Proof.
  intros Hnd. unfold section_of. rewrite fold_insert_item_size; [|done|].
  - by rewrite map_size_empty.
  - apply Forall_forall. intros. apply lookup_empty.
Qed.

Lemma section_of_dom items : dom (section_of items) = list_to_set items.*1.
Proof. unfold section_of. rewrite fold_insert_item_dom. set_solver. Qed.

(** ** The container operations *)

Lemma torch_save_touches content path : preserves (touches_only path) (torch_save content path).
Proof.
  intros w r w' [= <- <-]. split_and!; [done..|].
  intros p Hp. simpl. by rewrite lookup_insert_ne.
Qed.

Lemma h5_open_w_touches path : preserves (touches_only path) (h5_open_w path).
Proof.
  intros w r w' [= <- <-]. split_and!; [done..|].
  intros p Hp. simpl. by rewrite lookup_insert_ne.
Qed.

Lemma h5_open_w_ok path w r w' :
  h5_open_w path w = (r, w') → r = Ok () ∧ fs w' !! path = Some (H5File ∅).
Proof. intros [= <- <-]. simpl. by rewrite lookup_insert_eq. Qed.

Lemma elem_of_group_paths_iff k p :
  k ∈ group_paths p ↔ ∃ n, k = take n p ∧ (1 ≤ n ≤ length p)%nat.
Proof.
  unfold group_paths. rewrite elem_of_list_to_set, list_elem_of_fmap.
  setoid_rewrite elem_of_seq. split; intros (n & -> & Hn); exists n; (split; [done|lia]).
Qed.

Lemma elem_of_group_paths p : p ≠ [] → p ∈ group_paths p.
Proof.
  intros Hp. apply elem_of_group_paths_iff. exists (length p).
  split; [by rewrite firstn_all|]. destruct p; [done|]. simpl. lia.
Qed.

Lemma has_link_false g q c :
  has_link g q c = false →
  g !! (q ++ [c]) = None ∧ ∀ sec, g !! q = Some sec → sec !! c = None.
Proof.
  unfold has_link. intros [H1 H2]%orb_false_elim.
  apply bool_decide_eq_false in H1. split.
  - by apply eq_None_not_Some.
  - intros sec Hsec. rewrite Hsec in H2. apply bool_decide_eq_false in H2.
    by apply eq_None_not_Some.
Qed.

(** A successful traversal: the group at the end is new, the groups on the
    way to it exist afterwards, and nothing else has changed. *)
Lemma h5_create_ok comps g cur g' :
  h5_create g cur comps = (Ok (), g') →
  let p := filter (λ c, c ≠ ".") comps in
  p ≠ [] ∧ g !! (cur ++ p) = None ∧ g' !! (cur ++ p) = Some ∅ ∧
  (∀ k s, g !! k = Some s → g' !! k = Some s) ∧
  (∀ k, k ∈ dom g' ↔ k ∈ dom g ∨ ∃ q, k = cur ++ q ∧ q ∈ group_paths p).
Proof.
  revert g cur. induction comps as [|c rest IH]; intros g cur Hrun; simpl in Hrun; [done|].
  destruct (decide (c = ".")) as [->|Hc].
  - rewrite filter_cons_False by (intros H; by apply H). by apply IH.
  - rewrite filter_cons_True by done. cbv zeta.
    destruct rest as [|c' rest'].
    + destruct (has_link g cur c) eqn:Hl; [done|]. injection Hrun as <-.
      apply has_link_false in Hl as [Hnone _].
      rewrite filter_nil. split_and!.
      * done.
      * done.
      * by rewrite lookup_insert_eq.
      * intros k s Hk. rewrite lookup_insert_ne; [done|]. intros <-. congruence.
      * intros k. rewrite dom_insert_L, elem_of_union, elem_of_singleton.
        setoid_rewrite elem_of_group_paths_iff. simpl. split.
        -- intros [->|Hk]; [|by left]. right. exists [c]. split; [done|].
           exists 1%nat. split; [done|lia].
        -- intros [Hk|(q & -> & n & -> & Hn)]; [by right|]. left.
           assert (n = 1%nat) as -> by lia. done.
    + set (rest := c' :: rest') in *.
      assert (∀ g1, (∀ k s, g !! k = Some s → g1 !! k = Some s) →
                (∀ k, k ∈ dom g1 ↔ k ∈ dom g ∨ k = cur ++ [c]) →
                h5_create g1 (cur ++ [c]) rest = (Ok (), g') →
                let p := c :: filter (λ c, c ≠ ".") rest in
                p ≠ [] ∧ g !! (cur ++ p) = None ∧ g' !! (cur ++ p) = Some ∅ ∧
                (∀ k s, g !! k = Some s → g' !! k = Some s) ∧
                (∀ k, k ∈ dom g' ↔ k ∈ dom g ∨ ∃ q, k = cur ++ q ∧ q ∈ group_paths p))
        as Hstep.
      { intros g1 Hsub Hdom Hrec. cbv zeta.
        apply IH in Hrec as (Hne & Hfresh & Hnew & Hkeep & Hd).
        rewrite <- app_assoc in Hfresh, Hnew. simpl in Hfresh, Hnew.
        split_and!; [done | | done | by eauto |].
        - destruct (g !! (cur ++ c :: filter (λ c0, c0 ≠ ".") rest)) eqn:E; [|done].
          apply Hsub in E. congruence.
        - intros k. rewrite Hd, Hdom. setoid_rewrite elem_of_group_paths_iff.
          split.
          + intros [[Hk| ->]|(q & -> & n & -> & Hn)].
            * by left.
            * right. exists [c]. split; [done|]. exists 1%nat. split; [done|]. simpl. lia.
            * right. exists (c :: take n (filter (λ c0, c0 ≠ ".") rest)).
              split; [by rewrite <- app_assoc|]. exists (S n). split; [done|]. simpl. lia.
          + intros [Hk|(q & -> & n & -> & Hn)]; [by left; left|].
            destruct n as [|n]; [lia|]. simpl. destruct n as [|n].
            * left. right. by rewrite take_0.
            * right. exists (take (S n) (filter (λ c0, c0 ≠ ".") rest)).
              split; [by rewrite <- app_assoc|]. exists (S n). split; [done|].
              simpl in Hn. lia. }
      destruct (g !! (cur ++ [c])) as [sec|] eqn:Hg.
      * apply (Hstep g); [done | | done].
        intros k. split; [by left|]. intros [Hk| ->]; [done|]. by apply elem_of_dom_2 in Hg.
      * destruct (has_link g cur c) eqn:Hl; [done|].
        apply (Hstep (<[cur ++ [c] := ∅]> g)); [| | done].
        -- intros k s Hk. rewrite lookup_insert_ne; [done|]. intros <-. congruence.
        -- intros k. rewrite dom_insert_L, elem_of_union, elem_of_singleton. tauto.
Qed.

Lemma create_group_touches path name : preserves (touches_only path) (create_group path name).
Proof.
  intros w r w' Hrun. unfold create_group in Hrun.
  destruct (fs w !! path) as [[| |g]|]; try (injection Hrun as <- <-; done).
  destruct (h5_create g [] (components name)) as [r1 g1]. injection Hrun as <- <-.
  split_and!; [done..|]. intros p Hp. simpl. by rewrite lookup_insert_ne.
Qed.

Lemma create_group_ok path name w w' :
  create_group path name w = (Ok (), w') →
  ∃ g g', fs w !! path = Some (H5File g) ∧ fs w' !! path = Some (H5File g') ∧
          adds_group g g' (h5_path name) ∅.
Proof.
  unfold create_group. intros Hrun.
  destruct (fs w !! path) as [[| |g]|]; try done.
  destruct (h5_create g [] (components name)) as [r1 g1] eqn:Hc.
  injection Hrun as -> <-.
  apply h5_create_ok in Hc as (Hne & Hfresh & Hnew & Hkeep & Hdom).
  exists g, g1. simpl. rewrite lookup_insert_eq. split; [done|]. split; [done|].
  unfold adds_group, h5_path. split_and!; [done..|].
  apply set_eq. intros k. rewrite Hdom, elem_of_union.
  split; (intros [Hk|Hk]; [by left|right]); [by destruct Hk as (q & -> & Hq) | by exists k].
Qed.

Lemma create_dataset_touches path name it :
  preserves (touches_only path) (create_dataset path name it).
Proof.
  intros w r w' Hrun. unfold create_dataset in Hrun.
  destruct (fs w !! path) as [[| |g]|]; try (injection Hrun as <- <-; done).
  destruct (g !! h5_path name) as [sec|]; [|injection Hrun as <- <-; done].
  destruct (has_link g (h5_path name) it.1); injection Hrun as <- <-; [done|].
  split_and!; [done..|]. intros p Hp. simpl. by rewrite lookup_insert_ne.
Qed.

Lemma create_dataset_ok path name it w w' g sec :
  create_dataset path name it w = (Ok (), w') →
  fs w !! path = Some (H5File g) → g !! h5_path name = Some sec →
  sec !! it.1 = None
  ∧ fs w' !! path = Some (H5File (<[h5_path name := insert_item sec it]> g)).
Proof.
  unfold create_dataset. intros Hrun Hfs Hsec. rewrite Hfs, Hsec in Hrun.
  destruct (has_link g (h5_path name) it.1) eqn:Hl; [done|]. injection Hrun as <-.
  apply has_link_false in Hl as [_ Hl].
  simpl. rewrite lookup_insert_eq. split; [by apply Hl | done].
Qed.

Lemma write_datasets_ok path name items w w' g sec :
  for_each (create_dataset path name) items w = (Ok (), w') →
  fs w !! path = Some (H5File g) → g !! h5_path name = Some sec →
  fs w' !! path = Some (H5File (<[h5_path name := fold_left insert_item items sec]> g))
  ∧ NoDup items.*1 ∧ Forall (λ it, sec !! it.1 = None) items.
Proof.
  revert w g sec. induction items as [|it items IH]; intros w g sec Hrun Hfs Hsec; simpl in *.
  - apply mret_ok in Hrun as [_ ->]. split_and!; [|constructor..].
    by rewrite insert_id.
  - apply bindM_ok in Hrun as ([] & w1 & Hit & Hrun).
    destruct (create_dataset_ok _ _ _ _ _ _ _ Hit Hfs Hsec) as [Hfresh Hfs1].
    destruct (IH _ _ _ Hrun Hfs1 (lookup_insert_eq _ _ _)) as (Hfs' & Hnd & Hall).
    rewrite insert_insert_eq in Hfs'. split_and!; [done| |].
    + apply NoDup_cons. split; [|done].
      intros [it' [Heq Hin]]%list_elem_of_fmap.
      rewrite Forall_forall in Hall. specialize (Hall _ Hin).
      unfold insert_item in Hall. rewrite <- Heq, lookup_insert_eq in Hall. done.
    + constructor; [done|].
      apply Forall_forall. intros it' Hin.
      rewrite Forall_forall in Hall. specialize (Hall _ Hin).
      unfold insert_item in Hall.
      destruct (decide (it.1 = it'.1)) as [Heq|Hne].
      * rewrite Heq, lookup_insert_eq in Hall. done.
      * by rewrite lookup_insert_ne in Hall.
Qed.

(** Writing the datasets of a group that was just created. *)
Lemma adds_group_written g g' p sec :
  adds_group g g' p ∅ → adds_group g (<[p := sec]> g') p sec.
Proof.
  intros (Hne & Hfresh & Hnew & Hkeep & Hdom). split_and!; [done | done | | |].
  - by rewrite lookup_insert_eq.
  - intros k s Hk. rewrite lookup_insert_ne; [by apply Hkeep|]. intros <-. congruence.
  - rewrite dom_insert_L, Hdom. pose proof (elem_of_group_paths p Hne). set_solver.
Qed.

Lemma write_datasets_touches path name items :
  preserves (touches_only path) (for_each (create_dataset path name) items).
Proof.
  apply preserves_for_each.
  - apply touches_only_refl.
  - apply touches_only_trans.
  - intros. apply create_dataset_touches.
Qed.

Section ScriptFacts.
Context {tk : RDKit} {ut : Utils} {py : Python}.

Lemma substrate_not_carbacids : substrate_path ≠ carbacids_path.
Proof. unfold substrate_path, carbacids_path. simpl. discriminate. Qed.

Lemma substrate_not_conditions : substrate_path ≠ conditions_path.
Proof. unfold substrate_path, conditions_path. simpl. discriminate. Qed.

Lemma carbacids_not_conditions : carbacids_path ≠ conditions_path.
Proof. unfold carbacids_path, conditions_path. simpl. discriminate. Qed.

Lemma EmbedMolecule_frame mol a s :
  preserves (λ w w', fs w' = fs w ∧ calls w' = calls w) (EmbedMolecule mol a s).
Proof.
  intros w r w' Hrun. unfold EmbedMolecule in Hrun.
  destruct (negb _); [by injection Hrun as <- <-|].
  destruct (GetAtoms mol); [by injection Hrun as <- <-|].
  destruct (embed_coords _ _ _) as [[c|] g'], (-1 <? s)%Z;
    injection Hrun as <- <-; done.
Qed.

Lemma get_3dG_from_smi_world smi seed w r w' :
  get_3dG_from_smi smi seed w = (r, w') →
  fs w' = fs w ∧ calls w' = calls w ++ [(smi, seed)].
Proof.
  unfold get_3dG_from_smi. intros Hrun.
  set (R := λ w w' : world, fs w' = fs w ∧ calls w' = calls w).
  assert (∀ w0, R w0 w0) as Hrefl by done.
  assert (∀ w1 w2 w3, R w1 w2 → R w2 w3 → R w1 w3) as Htrans.
  { unfold R. intros ??? [-> ->] [-> ->]. done. }
  match type of Hrun with ?m ?w1 = _ => assert (preserves R m) as Hp end.
  { repeat first
      [ apply (preserves_bind R Htrans); [|intros ?]
      | apply (preserves_lift R Hrefl)
      | apply (preserves_mret R Hrefl)
      | apply EmbedMolecule_frame
      | match goal with |- preserves _ (let '(_, _) := ?p in _) => destruct p end ]. }
  apply Hp in Hrun. unfold R in Hrun. simpl in Hrun. done.
Qed.

(** The body of the two loops over the unique descriptors. *)
Lemma molecule_body_ok path (datasets : features → features → features → features → features → list (string * dataset)) smi w w' :
  (f_a ← get_3dG_from_smi smi 0xF00A;
   f_b ← get_3dG_from_smi smi 0xF00B;
   f_c ← get_3dG_from_smi smi 0xF00C;
   f_d ← get_3dG_from_smi smi 0xF00D;
   f_e ← get_3dG_from_smi smi 0xF00E;
   _ ← create_group path smi;
   for_each (create_dataset path smi) (datasets f_a f_b f_c f_d f_e)) w = (Ok (), w') →
  ∃ g g' f_a f_b f_c f_d f_e,
    fs w !! path = Some (H5File g) ∧ fs w' !! path = Some (H5File g') ∧
    adds_group g g' (h5_path smi) (section_of (datasets f_a f_b f_c f_d f_e)) ∧
    NoDup (datasets f_a f_b f_c f_d f_e).*1 ∧
    calls w' = calls w ++ five_calls smi ∧
    files_except path w w'.
Proof.
  intros Hrun.
  apply bindM_ok in Hrun as (f_a & w1 & Ha & Hrun).
  apply bindM_ok in Hrun as (f_b & w2 & Hb & Hrun).
  apply bindM_ok in Hrun as (f_c & w3 & Hc & Hrun).
  apply bindM_ok in Hrun as (f_d & w4 & Hd & Hrun).
  apply bindM_ok in Hrun as (f_e & w5 & He & Hrun).
  apply bindM_ok in Hrun as ([] & w6 & Hg & Hrun).
  apply get_3dG_from_smi_world in Ha as [Hfa Hca].
  apply get_3dG_from_smi_world in Hb as [Hfb Hcb].
  apply get_3dG_from_smi_world in Hc as [Hfc Hcc].
  apply get_3dG_from_smi_world in Hd as [Hfd Hcd].
  apply get_3dG_from_smi_world in He as [Hfe Hce].
  assert (fs w5 = fs w) as Hfs5 by congruence.
  pose proof (create_group_touches _ _ _ _ _ Hg) as (_ & Hc6 & Hf6).
  apply create_group_ok in Hg as (g & g1 & Hfs & Hfs6 & Hadd).
  pose proof (write_datasets_touches _ _ _ _ _ _ Hrun) as (_ & Hc7 & Hf7).
  destruct (write_datasets_ok _ _ _ _ _ _ _ Hrun Hfs6 (proj1 (proj2 (proj2 Hadd))))
    as (Hfs' & Hnd & _).
  exists g, (<[h5_path smi := section_of (datasets f_a f_b f_c f_d f_e)]> g1),
    f_a, f_b, f_c, f_d, f_e.
  split_and!; [by rewrite <- Hfs5 | exact Hfs' | by apply adds_group_written | done | |].
  - rewrite Hc7, Hc6, Hce, Hcd, Hcc, Hcb, Hca. unfold five_calls. simpl.
    by rewrite <- !app_assoc.
  - intros p Hp. rewrite Hf7, Hf6 by done. by rewrite Hfs5.
Qed.

Lemma molecule_body_frame path
    (datasets : features → features → features → features → features → list (string * dataset)) smi :
  preserves (files_except path)
    (f_a ← get_3dG_from_smi smi 0xF00A;
     f_b ← get_3dG_from_smi smi 0xF00B;
     f_c ← get_3dG_from_smi smi 0xF00C;
     f_d ← get_3dG_from_smi smi 0xF00D;
     f_e ← get_3dG_from_smi smi 0xF00E;
     _ ← create_group path smi;
     for_each (create_dataset path smi) (datasets f_a f_b f_c f_d f_e)).
Proof.
  assert (∀ s seed, preserves (files_except path) (get_3dG_from_smi s seed)) as Hf.
  { intros s seed w r w' [Hfs _]%get_3dG_from_smi_world p _. by rewrite Hfs. }
  repeat (apply (preserves_bind _ (files_except_trans path)); [apply Hf | intros ?]).
  apply (preserves_bind _ (files_except_trans path)).
  - eapply preserves_weaken; [|apply create_group_touches]. by intros ?? (_ & _ & ?).
  - intros _. eapply preserves_weaken; [|apply write_datasets_touches]. by intros ?? (_ & _ & ?).
Qed.

(** A loop whose every pass adds one section to the container at [path]. *)
Lemma sections_loop_ok {A} path (body : A → M unit)
    (Q : A → string → gmap string dataset → Prop) l w w' g0 :
  (∀ x w1 w2, body x w1 = (Ok (), w2) →
     ∃ g g' name sec, fs w1 !! path = Some (H5File g) ∧
       fs w2 !! path = Some (H5File g') ∧
       adds_group g g' (h5_path name) sec ∧ Q x name sec) →
  for_each body l w = (Ok (), w') →
  fs w !! path = Some (H5File g0) →
  ∃ g', fs w' !! path = Some (H5File g') ∧
    ∀ x, x ∈ l → ∃ name sec, g' !! h5_path name = Some sec ∧ Q x name sec.
Proof.
  intros Hbody Hrun Hinit.
  apply (for_each_invariant body (λ pre w1,
    ∃ g, fs w1 !! path = Some (H5File g) ∧
      ∀ x, x ∈ pre → ∃ name sec, g !! h5_path name = Some sec ∧ Q x name sec) l w w' Hrun).
  - exists g0. split; [done|]. intros x Hin. by apply elem_of_nil in Hin.
  - intros pre x w1 w2 _ (g & Hg & Hsecs) Hstep.
    apply Hbody in Hstep as (g1 & g2 & name & sec & Hg1 & Hg2 & Hadd & HQ).
    rewrite Hg in Hg1. injection Hg1 as <-.
    destruct Hadd as (_ & _ & Hnew & Hkeep & _).
    exists g2. split; [done|].
    intros x' [Hin|Hin]%elem_of_app; [|apply list_elem_of_singleton in Hin as ->].
    + destruct (Hsecs _ Hin) as (name' & sec' & Hsec' & HQ').
      exists name', sec'. split; [by apply Hkeep | done].
    + by exists name, sec.
Qed.

(** A loop whose every pass calls the featurizer with the five seeds. *)
Lemma calls_loop_ok (body : string → M unit) l w w' :
  (∀ smi w1 w2, body smi w1 = (Ok (), w2) → calls w2 = calls w1 ++ five_calls smi) →
  for_each body l w = (Ok (), w') →
  calls w' = calls w ++ (l ≫= five_calls).
Proof.
  intros Hbody Hrun.
  apply (for_each_invariant body (λ pre w1, calls w1 = calls w ++ (pre ≫= five_calls))
           l w w' Hrun).
  - by rewrite app_nil_r.
  - intros pre smi w1 w2 _ Hpre Hstep.
    by rewrite (Hbody _ _ _ Hstep), Hpre, bind_app, bind_singleton, <- app_assoc.
Qed.

Lemma unique_NoDup l : NoDup (unique l).
Proof. unfold unique. apply NoDup_elements. Qed.

Lemma elem_of_unique l x : x ∈ unique l ↔ x ∈ l.
Proof. unfold unique. by rewrite elem_of_elements, elem_of_list_to_set. Qed.

End ScriptFacts.

Section ScriptRuns.
Context {tk : RDKit} {ut : Utils} {py : Python}.

Lemma column_ok (df : gmap string (list cell)) name c :
  column df name = Ok c → df !! name = Some c.
Proof. unfold column, getitem. destruct (df !! name); [congruence | done]. Qed.

Lemma list_getitem_ok {A} (l : list A) i x : list_getitem l i = Ok x → l !! i = Some x.
Proof. unfold list_getitem. destruct (l !! i); [congruence | done]. Qed.

Lemma read_table_ok df t :
  read_table df = Ok t →
  df !! "rxn_id" = Some (rxn_id t) ∧
  df !! "product_mono" = Some (product_mono t) ∧
  df !! "product_di" = Some (product_di t) ∧
  (∃ c, df !! "startingmat_1_smiles" = Some c ∧ startingmat_1_smiles t = py_str <$> c) ∧
  (∃ c, df !! "startingmat_2_smiles" = Some c ∧ startingmat_2_smiles t = py_str <$> c).
Proof.
  unfold read_table. intros Hread.
  do 23 (let c := fresh "c" in let Hc := fresh "Hc" in
         apply bindR_ok in Hread as (c & Hc & Hread); apply column_ok in Hc).
  injection Hread as <-. simpl. split_and!; [done..| |]; eexists; split; done.
Qed.

Lemma reaction_fields_names r y b :
  (reaction_fields r y b).*2.*1 =
  [ "ecfp4_2_1"; "ecfp4_2_2"; "rgt_eq"; "sm2_eq"; "conc_m"; "tmp_de"; "hours_";
    "scale_"; "cat_eq"; "add_eq"; "sol_f1"; "sol_f2"; "rea_id"; "so1_id";
    "so2_id"; "cat_id"; "add_id"; "atm_id"; "trg_yld"; "trg_bin" ].
Proof. reflexivity. Qed.

Lemma reaction_fields_NoDup r y b : NoDup (reaction_fields r y b).*2.*1.
Proof. rewrite reaction_fields_names. apply (bool_decide_unpack _). vm_compute. exact I. Qed.

Lemma reaction_body_ok t v pa ir w w' :
  reaction_body t v pa ir w = (Ok (), w') →
  ∃ g g' name r y b,
    ir.2 = CStr name ∧ reaction_row t v ir.1 = Ok r ∧
    pa !! ir.1 = Some y ∧ binary t !! ir.1 = Some b ∧
    fs w !! conditions_path = Some (H5File g) ∧
    fs w' !! conditions_path = Some (H5File g') ∧
    adds_group g g' (h5_path name) (section_of (reaction_fields r y b).*2).
Proof.
  unfold reaction_body. intros Hrun.
  apply bindM_ok in Hrun as (r & w1 & Hr & Hrun). apply lift_ok in Hr as [Hr ->].
  apply bindM_ok in Hrun as (name & w1 & Hn & Hrun). apply lift_ok in Hn as [Hn ->].
  apply bindM_ok in Hrun as ([] & w1 & Hg & Hrun).
  apply bindM_ok in Hrun as ([] & w2 & Hc & Hrun).
  apply bindM_ok in Hrun as (y & w3 & Hy & Hrun). apply lift_ok in Hy as [Hy ->].
  apply bindM_ok in Hrun as ([] & w3 & Hyld & Hrun).
  apply bindM_ok in Hrun as (b & w4 & Hb & Hrun). apply lift_ok in Hb as [Hb ->].
  apply create_group_ok in Hg as (g & g1 & Hfs & Hfs1 & Hadd).
  destruct (write_datasets_ok _ _ _ _ _ _ _ Hc Hfs1 (proj1 (proj2 (proj2 Hadd))))
    as (Hfs2 & _ & _).
  destruct (create_dataset_ok _ _ _ _ _ _ _ Hyld Hfs2 (lookup_insert_eq _ _ _))
    as (_ & Hfs3).
  rewrite insert_insert_eq in Hfs3.
  destruct (create_dataset_ok _ _ _ _ _ _ _ Hrun Hfs3 (lookup_insert_eq _ _ _))
    as (_ & Hfs4).
  rewrite insert_insert_eq in Hfs4.
  exists g, (<[h5_path name := section_of (reaction_fields r y b).*2]> g1), name, r, y, b.
  split_and!.
  - unfold group_name in Hn. destruct (ir.2); congruence.
  - exact Hr.
  - by apply list_getitem_ok.
  - by apply list_getitem_ok.
  - exact Hfs.
  - exact Hfs4.
  - by apply adds_group_written.
Qed.

Lemma reaction_body_frame t v pa ir :
  preserves (touches_only conditions_path) (reaction_body t v pa ir).
Proof.
  unfold reaction_body.
  repeat first
    [ apply (preserves_bind _ (touches_only_trans conditions_path)); [|intros ?]
    | apply (preserves_lift _ (touches_only_refl conditions_path))
    | apply create_group_touches
    | apply create_dataset_touches
    | apply write_datasets_touches ].
Qed.

Lemma substrate_body_ok smi w w' :
  substrate_body smi w = (Ok (), w') →
  ∃ g g' f_a f_b f_c f_d f_e,
    fs w !! substrate_path = Some (H5File g) ∧
    fs w' !! substrate_path = Some (H5File g') ∧
    adds_group g g' (h5_path smi) (section_of (substrate_datasets f_a f_b f_c f_d f_e)) ∧
    NoDup (substrate_datasets f_a f_b f_c f_d f_e).*1 ∧
    calls w' = calls w ++ five_calls smi ∧
    files_except substrate_path w w'.
Proof. apply molecule_body_ok. Qed.

Lemma carbacid_body_ok smi w w' :
  carbacid_body smi w = (Ok (), w') →
  ∃ g g' f_a f_b f_c f_d f_e,
    fs w !! carbacids_path = Some (H5File g) ∧
    fs w' !! carbacids_path = Some (H5File g') ∧
    adds_group g g' (h5_path smi) (section_of (carbacid_datasets f_a f_b f_c f_d f_e)) ∧
    NoDup (carbacid_datasets f_a f_b f_c f_d f_e).*1 ∧
    calls w' = calls w ++ five_calls smi ∧
    files_except carbacids_path w w'.
Proof. apply molecule_body_ok. Qed.

(** The successful runs of the script, phase by phase. *)
Lemma main_ok df w w' :
  main df w = (Ok (), w') →
  ∃ t pa w1 w2 w3 w4 w5,
    read_table df = Ok t ∧
    compute_product_all t = Ok pa ∧
    calls w1 = calls w ∧ fs w1 !! substrate_path = Some (H5File ∅) ∧
    for_each substrate_body (unique (startingmat_1_smiles t)) w1 = (Ok (), w2) ∧
    touches_only carbacids_path w2 w3 ∧ fs w3 !! carbacids_path = Some (H5File ∅) ∧
    for_each carbacid_body (unique (startingmat_2_smiles t)) w3 = (Ok (), w4) ∧
    touches_only conditions_path w4 w5 ∧ fs w5 !! conditions_path = Some (H5File ∅) ∧
    for_each (reaction_body t (build_vocabularies t) pa) (enumerate (rxn_id t)) w5
      = (Ok (), w').
Proof.
  unfold main. intros Hrun.
  apply bindM_ok in Hrun as (t & wa & Ht & Hrun). apply lift_ok in Ht as [Ht ->].
  apply bindM_ok in Hrun as (pa & wa & Hpa & Hrun). apply lift_ok in Hpa as [Hpa ->].
  apply bindM_ok in Hrun as ([] & wa & Hs1 & Hrun).
  apply bindM_ok in Hrun as (items & wb & Hit & Hrun). apply lift_ok in Hit as [Hit ->].
  apply bindM_ok in Hrun as ([] & wb & Hs2 & Hrun).
  apply bindM_ok in Hrun as ([] & w1 & Ho1 & Hrun).
  apply bindM_ok in Hrun as ([] & w2 & Hl1 & Hrun).
  apply bindM_ok in Hrun as ([] & w3 & Ho2 & Hrun).
  apply bindM_ok in Hrun as ([] & w4 & Hl2 & Hrun).
  apply bindM_ok in Hrun as ([] & w5 & Ho3 & Hrun).
  exists t, pa, w1, w2, w3, w4, w5.
  pose proof (torch_save_touches _ _ _ _ _ Hs1) as (_ & Hca & _).
  pose proof (torch_save_touches _ _ _ _ _ Hs2) as (_ & Hcb & _).
  pose proof (h5_open_w_touches _ _ _ _ Ho1) as (_ & Hc1 & _).
  pose proof (h5_open_w_touches _ _ _ _ Ho2) as Ht2.
  pose proof (h5_open_w_touches _ _ _ _ Ho3) as Ht3.
  apply h5_open_w_ok in Ho1 as [_ Ho1].
  apply h5_open_w_ok in Ho2 as [_ Ho2].
  apply h5_open_w_ok in Ho3 as [_ Ho3].
  split_and!; try done. congruence.
Qed.

End ScriptRuns.

Section ScriptTheorems.
Context {tk : RDKit} {ut : Utils} {py : Python}.

Lemma substrate_datasets_names f_a f_b f_c f_d f_e :
  (substrate_datasets f_a f_b f_c f_d f_e).*1 = array_names "1" feature_names.
Proof. reflexivity. Qed.

Lemma carbacid_datasets_names f_a f_b f_c f_d f_e :
  (carbacid_datasets f_a f_b f_c f_d f_e).*1 = array_names "2" feature_names_without_keep.
Proof. reflexivity. Qed.

Lemma molecule_loop_frame path
    (datasets : features → features → features → features → features → list (string * dataset))
    (body : string → M unit) l :
  (∀ smi, body smi =
     (f_a ← get_3dG_from_smi smi 0xF00A;
      f_b ← get_3dG_from_smi smi 0xF00B;
      f_c ← get_3dG_from_smi smi 0xF00C;
      f_d ← get_3dG_from_smi smi 0xF00D;
      f_e ← get_3dG_from_smi smi 0xF00E;
      _ ← create_group path smi;
      for_each (create_dataset path smi) (datasets f_a f_b f_c f_d f_e))) →
  preserves (files_except path) (for_each body l).
Proof.
  intros Hbody. apply preserves_for_each.
  - apply files_except_refl.
  - apply files_except_trans.
  - intros smi _. rewrite Hbody. apply molecule_body_frame.
Qed.

Lemma reaction_loop_frame t v pa l :
  preserves (touches_only conditions_path) (for_each (reaction_body t v pa) l).
Proof.
  apply preserves_for_each.
  - apply touches_only_refl.
  - apply touches_only_trans.
  - intros. apply reaction_body_frame.
Qed.

(** The three containers at the end of a successful run. *)
Lemma main_containers df w w' :
  main df w = (Ok (), w') →
  ∃ t pa g1 g2 g3,
    read_table df = Ok t ∧ compute_product_all t = Ok pa ∧
    fs w' !! substrate_path = Some (H5File g1) ∧
    (∀ smi, smi ∈ unique (startingmat_1_smiles t) →
       ∃ f_a f_b f_c f_d f_e,
         g1 !! h5_path smi = Some (section_of (substrate_datasets f_a f_b f_c f_d f_e))) ∧
    fs w' !! carbacids_path = Some (H5File g2) ∧
    (∀ smi, smi ∈ unique (startingmat_2_smiles t) →
       ∃ f_a f_b f_c f_d f_e,
         g2 !! h5_path smi = Some (section_of (carbacid_datasets f_a f_b f_c f_d f_e))) ∧
    fs w' !! conditions_path = Some (H5File g3) ∧
    (∀ idx key, rxn_id t !! idx = Some key →
       ∃ name r y b,
         key = CStr name ∧ reaction_row t (build_vocabularies t) idx = Ok r ∧
         pa !! idx = Some y ∧ binary t !! idx = Some b ∧
         g3 !! h5_path name = Some (section_of (reaction_fields r y b).*2)).
Proof.
  intros Hrun.
  apply main_ok in Hrun as (t & pa & w1 & w2 & w3 & w4 & w5 & Ht & Hpa & _ & Hf1 & Hl1
                            & Ht3 & Hf3 & Hl2 & Ht5 & Hf5 & Hl3).
  pose proof (molecule_loop_frame carbacids_path carbacid_datasets carbacid_body _
                (λ _, eq_refl) _ _ _ Hl2) as Hfr2.
  pose proof (reaction_loop_frame _ _ _ _ _ _ _ Hl3) as (_ & _ & Hfr3).
  destruct Ht3 as (_ & _ & Ht3). destruct Ht5 as (_ & _ & Ht5).
  destruct (sections_loop_ok substrate_path substrate_body
           (λ smi name sec, name = smi ∧ ∃ f_a f_b f_c f_d f_e,
              sec = section_of (substrate_datasets f_a f_b f_c f_d f_e))
           (unique (startingmat_1_smiles t)) w1 w2 ∅) as (g1 & Hg1 & Hs1);
    [|exact Hl1|exact Hf1|].
  { intros smi wa wb Hb.
    apply substrate_body_ok in Hb as (g & g' & f_a & f_b & f_c & f_d & f_e & ? & ? & ? & _).
    exists g, g', smi, (section_of (substrate_datasets f_a f_b f_c f_d f_e)). eauto 12. }
  destruct (sections_loop_ok carbacids_path carbacid_body
           (λ smi name sec, name = smi ∧ ∃ f_a f_b f_c f_d f_e,
              sec = section_of (carbacid_datasets f_a f_b f_c f_d f_e))
           (unique (startingmat_2_smiles t)) w3 w4 ∅) as (g2 & Hg2 & Hs2);
    [|exact Hl2|exact Hf3|].
  { intros smi wa wb Hb.
    apply carbacid_body_ok in Hb as (g & g' & f_a & f_b & f_c & f_d & f_e & ? & ? & ? & _).
    exists g, g', smi, (section_of (carbacid_datasets f_a f_b f_c f_d f_e)). eauto 12. }
  destruct (sections_loop_ok conditions_path (reaction_body t (build_vocabularies t) pa)
           (λ ir name sec, ir.2 = CStr name ∧ ∃ r y b,
              reaction_row t (build_vocabularies t) ir.1 = Ok r ∧
              pa !! ir.1 = Some y ∧ binary t !! ir.1 = Some b ∧
              sec = section_of (reaction_fields r y b).*2)
           (enumerate (rxn_id t)) w5 w' ∅) as (g3 & Hg3 & Hs3);
    [|exact Hl3|exact Hf5|].
  { intros ir wa wb Hb.
    apply reaction_body_ok in Hb as (g & g' & name & r & y & b & ? & ? & ? & ? & ? & ? & ?).
    exists g, g', name, (section_of (reaction_fields r y b).*2). eauto 12. }
  exists t, pa, g1, g2, g3. split_and!; try done.
  - rewrite Hfr3, Ht5, Hfr2, Ht3; [done|..].
    + apply substrate_not_carbacids.
    + apply substrate_not_carbacids.
    + apply substrate_not_conditions.
    + apply substrate_not_conditions.
  - intros smi Hin. destruct (Hs1 _ Hin) as (name & sec & Hsec & -> & fa & fb & fc & fd & fe & ->).
    eauto 10.
  - rewrite Hfr3, Ht5; [done|..]; apply carbacids_not_conditions.
  - intros smi Hin. destruct (Hs2 _ Hin) as (name & sec & Hsec & -> & fa & fb & fc & fd & fe & ->).
    eauto 10.
  - intros idx key Hkey.
    assert ((idx, key) ∈ enumerate (rxn_id t)) as Hin.
    { apply list_elem_of_lookup. exists idx. by rewrite enumerate_lookup, Hkey. }
    destruct (Hs3 _ Hin) as (name & sec & Hsec & Hname & r & y & b & ? & ? & ? & ->).
    exists name, r, y, b. done.
Qed.





End ScriptTheorems.

Section ScriptClaims.
Context {tk : RDKit} {ut : Utils} {py : Python}.


(** Claim C4, amended.  After a successful run, for every row of the
    table the section of the reaction container under the row's [rxn_id]
    holds exactly 20 named datasets: 2 fingerprints, 10 numeric condition
    values, 6 categorical ids and 2 targets. *)
Theorem reaction_section_fields df w w' rx idx key :
  main df w = (Ok (), w') →
  df !! "rxn_id" = Some rx → rx !! idx = Some key →
  ∃ name g sec r y b,
    key = CStr name ∧
    fs w' !! conditions_path = Some (H5File g) ∧ g !! h5_path name = Some sec ∧
    sec = section_of (reaction_fields r y b).*2 ∧
    size sec = 20%nat ∧
    dom sec = list_to_set (reaction_fields r y b).*2.*1 ∧
    count_class Fingerprint (reaction_fields r y b) = 2%nat ∧
    count_class NumericCondition (reaction_fields r y b) = 10%nat ∧
    count_class CategoricalId (reaction_fields r y b) = 6%nat ∧
    count_class Target (reaction_fields r y b) = 2%nat.
Proof.
  intros Hrun Hrx Hkey.
  apply main_containers in Hrun
    as (t & pa & g1 & g2 & g3 & Ht & Hpa & _ & _ & _ & _ & Hg3 & Hrows).
  apply read_table_ok in Ht as (Hrx' & _).
  rewrite Hrx in Hrx'. injection Hrx' as ->.
  destruct (Hrows _ _ Hkey) as (name & r & y & b & -> & _ & _ & _ & Hsec).
  exists name, g3, (section_of (reaction_fields r y b).*2), r, y, b.
  split_and!; try done.
Qed.

(** Claim C5.  After a successful run, the substrate container has for
    every unique first-reactant descriptor a section of exactly 40 arrays,
    named by the 8 features and the 5 seed suffixes, and the acid
    container has for every unique second-reactant descriptor a section
    of exactly 35 arrays, named by the 7 features other than [to_keep]
    and the 5 seed suffixes. *)
Theorem molecule_sections_hold_40_and_35_arrays df w w' c1 c2 :
  main df w = (Ok (), w') →
  df !! "startingmat_1_smiles" = Some c1 →
  df !! "startingmat_2_smiles" = Some c2 →
  (∃ g, fs w' !! substrate_path = Some (H5File g) ∧
     ∀ smi, smi ∈ unique (py_str <$> c1) →
       ∃ sec, g !! h5_path smi = Some sec ∧ size sec = 40%nat ∧
              dom sec = list_to_set (array_names "1" feature_names)) ∧
  (∃ g, fs w' !! carbacids_path = Some (H5File g) ∧
     ∀ smi, smi ∈ unique (py_str <$> c2) →
       ∃ sec, g !! h5_path smi = Some sec ∧ size sec = 35%nat ∧
              dom sec = list_to_set (array_names "2" feature_names_without_keep)).
Proof.
  intros Hrun Hc1 Hc2.
  apply main_containers in Hrun
    as (t & pa & g1 & g2 & g3 & Ht & _ & Hg1 & Hs1 & Hg2 & Hs2 & _).
  apply read_table_ok in Ht as (_ & _ & _ & (c1' & Hc1' & Hsm1) & (c2' & Hc2' & Hsm2)).
  rewrite Hc1 in Hc1'. injection Hc1' as <-.
  rewrite Hc2 in Hc2'. injection Hc2' as <-.
  rewrite Hsm1 in Hs1. rewrite Hsm2 in Hs2.
  split.
  - exists g1. split; [done|]. intros smi Hin.
    destruct (Hs1 _ Hin) as (f_a & f_b & f_c & f_d & f_e & Hsec).
    eexists. split; [exact Hsec|]. split.
    + rewrite section_of_size; [done|]. rewrite substrate_datasets_names.
      apply (bool_decide_unpack _). vm_compute. exact I.
    + by rewrite section_of_dom, substrate_datasets_names.
  - exists g2. split; [done|]. intros smi Hin.
    destruct (Hs2 _ Hin) as (f_a & f_b & f_c & f_d & f_e & Hsec).
    eexists. split; [exact Hsec|]. split.
    + rewrite section_of_size; [done|]. rewrite carbacid_datasets_names.
      apply (bool_decide_unpack _). vm_compute. exact I.
    + by rewrite section_of_dom, carbacid_datasets_names.
Qed.

(** Claim C6.  In a successful run the featurizer is invoked, for every
    unique descriptor of the first role and then for every unique
    descriptor of the second role, exactly five times, with the seeds
    0xF00A, 0xF00B, 0xF00C, 0xF00D and 0xF00E in this order, and not
    otherwise. *)
Theorem featurizer_called_with_five_literal_seeds df w w' c1 c2 :
  main df w = (Ok (), w') →
  df !! "startingmat_1_smiles" = Some c1 →
  df !! "startingmat_2_smiles" = Some c2 →
  ∃ u1 u2,
    NoDup u1 ∧ (∀ s, s ∈ u1 ↔ s ∈ py_str <$> c1) ∧
    NoDup u2 ∧ (∀ s, s ∈ u2 ↔ s ∈ py_str <$> c2) ∧
    calls w' = calls w ++ (u1 ≫= five_calls) ++ (u2 ≫= five_calls).
Proof.
  intros Hrun Hc1 Hc2.
  apply main_ok in Hrun as (t & pa & w1 & w2 & w3 & w4 & w5 & Ht & _ & Hcw1 & _ & Hl1
                            & Ht3 & _ & Hl2 & Ht5 & _ & Hl3).
  apply read_table_ok in Ht as (_ & _ & _ & (c1' & Hc1' & Hsm1) & (c2' & Hc2' & Hsm2)).
  rewrite Hc1 in Hc1'. injection Hc1' as <-.
  rewrite Hc2 in Hc2'. injection Hc2' as <-.
  rewrite Hsm1 in Hl1. rewrite Hsm2 in Hl2.
  exists (unique (py_str <$> c1)), (unique (py_str <$> c2)).
  split_and!; [apply unique_NoDup | apply elem_of_unique
              | apply unique_NoDup | apply elem_of_unique |].
  apply calls_loop_ok in Hl1;
    [|intros smi wa wb Hb; apply substrate_body_ok in Hb;
      destruct Hb as (? & ? & ? & ? & ? & ? & ? & _ & _ & _ & _ & Hc & _); exact Hc].
  apply calls_loop_ok in Hl2;
    [|intros smi wa wb Hb; apply carbacid_body_ok in Hb;
      destruct Hb as (? & ? & ? & ? & ? & ? & ? & _ & _ & _ & _ & Hc & _); exact Hc].
  pose proof (reaction_loop_frame _ _ _ _ _ _ _ Hl3) as (_ & Hc' & _).
  destruct Ht3 as (_ & Hc3 & _). destruct Ht5 as (_ & Hc5 & _).
  rewrite Hc', Hc5, Hl2, Hc3, Hl1, Hcw1. by rewrite <- app_assoc.
Qed.

End ScriptClaims.

(** ** Vocabulary lookups *)

Lemma quiet_Ok {A} (a : A) : no_vocabulary_miss (Ok a).
Proof. intros k. discriminate. Qed.

Lemma quiet_Raise {A B} (e : error) :
  no_vocabulary_miss (Raise e : result A) → no_vocabulary_miss (Raise e : result B).
Proof. intros He k [= ->]. by apply (He k). Qed.

Lemma quiet_bind {A B} (r : result A) (f : A → result B) :
  no_vocabulary_miss r → (∀ a, r = Ok a → no_vocabulary_miss (f a)) →
  no_vocabulary_miss (r ≫= f).
Proof.
  intros Hr Hf. destruct r as [a|e]; simpl; [by apply Hf | by eapply quiet_Raise].
Qed.

Lemma quiet_getitem {V} site (d : gmap string V) k :
  site ≠ SiteVocabulary → no_vocabulary_miss (getitem site d k).
Proof. intros Hs k'. unfold getitem. destruct (d !! k); congruence. Qed.

Lemma quiet_list_getitem {A} (l : list A) i : no_vocabulary_miss (list_getitem l i).
Proof. intros k. unfold list_getitem. destruct (l !! i); discriminate. Qed.

Lemma quiet_mapR {A B} (f : A → result B) l :
  (∀ x, no_vocabulary_miss (f x)) → no_vocabulary_miss (mapR f l).
Proof.
  intros Hf. induction l as [|x l IH]; simpl; [apply quiet_Ok|].
  apply quiet_bind; [apply Hf|]. intros y _.
  apply quiet_bind; [apply IH|]. intros ys _. apply quiet_Ok.
Qed.

Create HintDb quiet.
#[local] Hint Resolve quiet_Ok quiet_list_getitem : quiet.
#[local] Hint Extern 1 (no_vocabulary_miss (getitem _ _ _)) =>
  apply quiet_getitem; discriminate : quiet.

(** Walks down a chain of binds, closing each step with the hints. *)
Ltac quiet_steps :=
  repeat first
    [ apply quiet_bind; [solve [auto with quiet] | intros ? ?]
    | solve [auto with quiet] ].

Section Quiet.
Context {tk : RDKit} {ut : Utils} {py : Python}.

Lemma quiet_float_of_int z : no_vocabulary_miss (float_of_int z).
Proof. intros k. unfold float_of_int. case_match; discriminate. Qed.

Lemma quiet_py_float c : no_vocabulary_miss (py_float c).
Proof.
  destruct c; simpl; [|apply quiet_float_of_int|]; intros k; repeat case_match; discriminate.
Qed.

Lemma quiet_py_add x y : no_vocabulary_miss (py_add x y).
Proof.
  destruct x, y; simpl; try (intros k; discriminate);
    (apply quiet_bind; [apply quiet_float_of_int|]; intros ? _ k; discriminate).
Qed.

Lemma quiet_Chem_AddHs o : no_vocabulary_miss (Chem_AddHs o).
Proof. intros k. unfold Chem_AddHs. case_match; discriminate. Qed.

Lemma quiet_UFFOptimizeMolecule m : no_vocabulary_miss (UFFOptimizeMolecule m).
Proof. intros k. unfold UFFOptimizeMolecule. case_match; discriminate. Qed.

Lemma quiet_GetConformer m : no_vocabulary_miss (GetConformer m).
Proof. intros k. unfold GetConformer. case_match; discriminate. Qed.

Lemma quiet_GetAtomPosition c i : no_vocabulary_miss (GetAtomPosition c i).
Proof. intros k. unfold GetAtomPosition. case_match; discriminate. Qed.

Lemma quiet_pdist X : no_vocabulary_miss (pdist X).
Proof. intros k. unfold pdist. case_match; discriminate. Qed.

Lemma quiet_squareform v : no_vocabulary_miss (squareform v).
Proof. intros k. unfold squareform. repeat case_match; discriminate. Qed.

Lemma quiet_group_name c : no_vocabulary_miss (group_name c).
Proof. intros k. unfold group_name. case_match; discriminate. Qed.

Hint Resolve quiet_py_float quiet_py_add quiet_Chem_AddHs quiet_UFFOptimizeMolecule
  quiet_GetConformer quiet_GetAtomPosition quiet_pdist quiet_squareform
  quiet_group_name : quiet.

Lemma quiet_atom_body mol ia : no_vocabulary_miss (atom_body mol ia).
Proof. unfold atom_body. quiet_steps. Qed.

Lemma quiet_get_fp_from_smi smi : no_vocabulary_miss (get_fp_from_smi smi).
Proof. unfold get_fp_from_smi. quiet_steps. Qed.

Lemma quiet_float_at col idx : no_vocabulary_miss (float_at col idx).
Proof. unfold float_at. quiet_steps. Qed.

Lemma quiet_combined_target t ix : no_vocabulary_miss (combined_target t ix).
Proof. unfold combined_target. quiet_steps. Qed.

Lemma quiet_rxn_smi_item t ir : no_vocabulary_miss (rxn_smi_item t ir).
Proof. unfold rxn_smi_item. quiet_steps. Qed.

Lemma quiet_read_table df : no_vocabulary_miss (read_table df).
Proof. unfold read_table, column. quiet_steps. Qed.

(** The one place a vocabulary is indexed. *)
Lemma id_at_covered d col idx :
  covers d col → (idx < length col)%nat → ∃ id, id_at d col idx = Ok id.
Proof.
  intros Hcov Hlt. unfold id_at, list_getitem.
  destruct (lookup_lt_is_Some_2 col idx Hlt) as [x Hx]. rewrite Hx. simpl.
  unfold covers in Hcov. rewrite Forall_forall in Hcov.
  destruct (Hcov x) as [id Hid]; [by eapply list_elem_of_lookup_2|].
  exists id. unfold getitem. by rewrite Hid.
Qed.

Lemma quiet_id_at d col idx : covers d col → no_vocabulary_miss (id_at d col idx).
Proof.
  intros Hcov k. unfold id_at, list_getitem.
  destruct (col !! idx) as [x|] eqn:Hx; simpl; [|discriminate].
  unfold covers in Hcov. rewrite Forall_forall in Hcov.
  destruct (Hcov x) as [id Hid]; [by eapply list_elem_of_lookup_2|].
  unfold getitem. rewrite Hid. discriminate.
Qed.

Hint Resolve quiet_atom_body quiet_get_fp_from_smi quiet_float_at
  quiet_combined_target quiet_rxn_smi_item quiet_read_table : quiet.

Lemma quiet_reaction_row t idx :
  vocabularies_cover t → no_vocabulary_miss (reaction_row t (build_vocabularies t) idx).
Proof.
  intros (? & ? & ? & ? & ? & ?). unfold reaction_row.
  repeat first
    [ apply quiet_bind; [solve [auto with quiet | by apply quiet_id_at] | intros ? ?]
    | solve [auto with quiet] ].
Qed.

(** The same for the computations on the world. *)
Lemma never_misses_bind {A B} (m : M A) (f : A → M B) :
  never_misses m → (∀ a, never_misses (f a)) → never_misses (m ≫= f).
Proof.
  intros Hm Hf w. unfold mbind, M_bind.
  specialize (Hm w). destruct (m w) as [[a|e] w1]; simpl in *;
    [apply Hf | by eapply quiet_Raise].
Qed.

Lemma never_misses_lift_bind {A B} (r : result A) (f : A → M B) :
  no_vocabulary_miss r → (∀ a, r = Ok a → never_misses (f a)) →
  never_misses (lift r ≫= f).
Proof.
  intros Hr Hf w. unfold mbind, M_bind, lift.
  destruct r as [a|e]; simpl; [by apply Hf | by eapply quiet_Raise].
Qed.

Lemma never_misses_lift {A} (r : result A) : no_vocabulary_miss r → never_misses (lift r).
Proof. intros Hr w. exact Hr. Qed.

Lemma never_misses_mret {A} (a : A) : never_misses (mret a).
Proof. intros w k. discriminate. Qed.

Lemma never_misses_for_each {A} (body : A → M unit) l :
  (∀ x, never_misses (body x)) → never_misses (for_each body l).
Proof.
  intros Hb. induction l as [|x l IH]; simpl; [apply never_misses_mret|].
  apply never_misses_bind; [apply Hb | intros _; apply IH].
Qed.

Lemma never_misses_torch_save c p : never_misses (torch_save c p).
Proof. intros w k. discriminate. Qed.

Lemma never_misses_h5_open_w p : never_misses (h5_open_w p).
Proof. intros w k. discriminate. Qed.

Lemma quiet_h5_create comps g cur : no_vocabulary_miss (h5_create g cur comps).1.
Proof.
  revert g cur. induction comps as [|c rest IH]; intros g cur k; simpl; [discriminate|].
  destruct (decide (c = ".")); [apply IH|].
  destruct rest as [|c' rest']; [case_match; discriminate|].
  destruct (g !! (cur ++ [c])); [apply IH|].
  destruct (has_link g cur c); [discriminate | apply IH].
Qed.

Lemma never_misses_create_group p n : never_misses (create_group p n).
Proof.
  intros w k. unfold create_group.
  destruct (fs w !! p) as [[| |g]|]; try discriminate.
  pose proof (quiet_h5_create (components n) g [] k) as Hq.
  by destruct (h5_create g [] (components n)).
Qed.

Lemma never_misses_create_dataset p n it : never_misses (create_dataset p n it).
Proof. intros w k. unfold create_dataset. repeat case_match; discriminate. Qed.

Lemma never_misses_EmbedMolecule m a s : never_misses (EmbedMolecule m a s).
Proof. intros w k. unfold EmbedMolecule. repeat case_match; discriminate. Qed.

Hint Resolve never_misses_mret never_misses_torch_save never_misses_h5_open_w
  never_misses_create_group never_misses_create_dataset never_misses_EmbedMolecule : quiet.

Ltac never_steps :=
  repeat match goal with
  | |- never_misses (_ ≫= _) => apply never_misses_bind; [|intros ?]
  | |- never_misses (lift _) =>
      apply never_misses_lift;
      solve [auto with quiet | apply quiet_mapR; auto with quiet]
  | |- never_misses (for_each _ _) => apply never_misses_for_each; intros ?
  | |- never_misses (let '(_, _) := ?p in _) => destruct p
  | |- never_misses _ => solve [auto with quiet]
  end.

Lemma never_misses_get_3dG_from_smi smi seed : never_misses (get_3dG_from_smi smi seed).
Proof.
  intros w. unfold get_3dG_from_smi.
  match goal with |- no_vocabulary_miss (?m ?w1).1 =>
    assert (never_misses m) as Hm; [|apply Hm] end.
  never_steps.
Qed.

Hint Resolve never_misses_get_3dG_from_smi : quiet.

Lemma never_misses_substrate_body smi : never_misses (substrate_body smi).
Proof. unfold substrate_body. never_steps. Qed.

Lemma never_misses_carbacid_body smi : never_misses (carbacid_body smi).
Proof. unfold carbacid_body. never_steps. Qed.

Lemma never_misses_reaction_body t pa ir :
  vocabularies_cover t → never_misses (reaction_body t (build_vocabularies t) pa ir).
Proof.
  intros Hcov. unfold reaction_body.
  apply never_misses_bind; [apply never_misses_lift; by apply quiet_reaction_row | intros ?].
  never_steps.
Qed.

(** Claim C7.  If each of the six vocabularies has an id for every value
    of the column it was built from, the run never ends in the [KeyError]
    of a vocabulary lookup, and for every row each of the six lookups
    returns an id. *)
Theorem vocabulary_lookups_never_miss df :
  (∀ t, read_table df = Ok t → vocabularies_cover t) →
  (∀ w, no_vocabulary_miss (main df w).1) ∧
  (∀ t idx, read_table df = Ok t → (idx < length (rxn_id t))%nat →
     let v := build_vocabularies t in
     (idx < length (reagent_1_smiles t) →
        ∃ id, id_at (rea_dict v) (reagent_1_smiles t) idx = Ok id)%nat ∧
     (idx < length (solvent_1_smiles t) →
        ∃ id, id_at (so1_dict v) (solvent_1_smiles t) idx = Ok id)%nat ∧
     (idx < length (solvent_2_smiles t) →
        ∃ id, id_at (so2_dict v) (solvent_2_smiles t) idx = Ok id)%nat ∧
     (idx < length (catalyst_1_smiles t) →
        ∃ id, id_at (cat_dict v) (catalyst_1_smiles t) idx = Ok id)%nat ∧
     (idx < length (additive_1_smiles t) →
        ∃ id, id_at (add_dict v) (additive_1_smiles t) idx = Ok id)%nat ∧
     (idx < length (atmosphere t) →
        ∃ id, id_at (atm_dict v) (atmosphere t) idx = Ok id)%nat).
Proof.
  intros Hcov. split.
  - assert (never_misses (main df)) as Hm; [|exact Hm].
    unfold main.
    apply never_misses_lift_bind; [apply quiet_read_table|]. intros t Ht.
    specialize (Hcov t Ht).
    apply never_misses_bind;
      [apply never_misses_lift, quiet_mapR; intros; apply quiet_combined_target | intros ?].
    apply never_misses_bind; [apply never_misses_torch_save | intros ?].
    apply never_misses_bind;
      [apply never_misses_lift, quiet_mapR; intros; apply quiet_rxn_smi_item | intros ?].
    apply never_misses_bind; [apply never_misses_torch_save | intros ?].
    apply never_misses_bind; [apply never_misses_h5_open_w | intros ?].
    apply never_misses_bind;
      [apply never_misses_for_each, never_misses_substrate_body | intros ?].
    apply never_misses_bind; [apply never_misses_h5_open_w | intros ?].
    apply never_misses_bind;
      [apply never_misses_for_each, never_misses_carbacid_body | intros ?].
    apply never_misses_bind; [apply never_misses_h5_open_w | intros ?].
    apply never_misses_for_each. intros ir. by apply never_misses_reaction_body.
  - intros t idx Ht _ v. destruct (Hcov t Ht) as (? & ? & ? & ? & ? & ?).
    split_and!; intros; by apply id_at_covered.
Qed.

(** ** Missing columns *)

Lemma read_table_missing df col :
  col ∈ required_columns → df !! col = None →
  ∃ c, c ∈ required_columns ∧ df !! c = None
       ∧ read_table df = Raise (KeyError SiteColumn c).
Proof.
  intros Hin Hnone. unfold read_table, column, getitem.
  repeat match goal with
  | |- ∃ c, _ ∧ _ ∧ (match ?d !! ?n with _ => _ end ≫= _) = _ =>
      let E := fresh "E" in
      destruct (d !! n) eqn:E; simpl;
      [| exists n; split_and!;
           [apply (bool_decide_unpack _); vm_compute; exact I | exact E | reflexivity]]
  end.
  exfalso. unfold required_columns in Hin.
  repeat (apply elem_of_cons in Hin as [->|Hin]; [congruence|]).
  by apply elem_of_nil in Hin.
Qed.

(** Claim C8.  If a required column is missing from the table, the run
    ends with the [KeyError] of a column access, and the world, in
    particular the set of files, is as it was before the run. *)
Theorem missing_column_fails_before_any_output df w col :
  col ∈ required_columns → df !! col = None →
  ∃ c, c ∈ required_columns ∧ df !! c = None ∧
       main df w = (Raise (KeyError SiteColumn c), w).
Proof.
  intros Hin Hnone.
  destruct (read_table_missing df col Hin Hnone) as (c & Hc & Hdf & Hread).
  exists c. split_and!; [done..|].
  unfold main, mbind, M_bind, lift. by rewrite Hread.
Qed.

End Quiet.

Section Seeding.
Context {tk : RDKit} {ut : Utils}.

(** A call that names the seed runs on a generator of its own: the world
    is untouched and the outcome does not depend on it. *)
Lemma EmbedMolecule_seeded mol maxAttempts seed w1 w2 :
  (-1 < seed)%Z →
  (EmbedMolecule mol maxAttempts seed w1).2 = w1 ∧
  (EmbedMolecule mol maxAttempts seed w1).1 = (EmbedMolecule mol maxAttempts seed w2).1.
Proof.
  intros Hs. unfold EmbedMolecule.
  assert ((-1 <? seed)%Z = true) as -> by (apply Z.ltb_lt; lia).
  destruct (negb _); [done|]. destruct (GetAtoms mol); [done|].
  destruct (embed_coords _ _ _) as [[c|] g']; done.
Qed.

(** The featurizer's call leaves the seed parameter at its default and
    draws from the process-global generator, whenever the embedding runs. *)
Lemma get_3dG_from_smi_generator smi seed w :
  rng (get_3dG_from_smi smi seed w).2 =
  match MolFromSmiles smi with
  | Some m =>
      if fits_unsigned_int seed && bool_decide (GetAtoms (AddHs m) ≠ [])
      then (embed_coords (AddHs m) seed (rng w)).2
      else rng w
  | None => rng w
  end.
Proof.
  unfold get_3dG_from_smi.
  set (R := λ w w' : world, rng w' = rng w).
  assert (∀ w0, R w0 w0) as Hrefl by done.
  assert (∀ w1 w2 w3, R w1 w2 → R w2 w3 → R w1 w3) as Htrans.
  { unfold R. intros ??? -> ->. done. }
  destruct (MolFromSmiles smi) as [m|]; [|done].
  unfold Chem_AddHs.
  match goal with |- rng ((lift (Ok ?a) ≫= ?f) ?w1).2 = _ =>
    change ((lift (Ok a) ≫= f) w1) with (f a w1); cbv beta end.
  match goal with |- rng ((?e ≫= ?k0) ?w1).2 = _ =>
    set (k := k0); assert (∀ a, preserves R (k a)) as Hk end.
  { intros [mol cid]. unfold k.
    repeat first
      [ apply (preserves_bind R Htrans); [|intros ?]
      | apply (preserves_lift R Hrefl)
      | apply (preserves_mret R Hrefl) ]. }
  assert (∀ a w1, rng (k a w1).2 = rng w1) as Hk'.
  { intros a w1. destruct (k a w1) as [r w2] eqn:Hrun. by apply Hk in Hrun. }
  unfold mbind at 1, M_bind at 1.
  destruct (EmbedMolecule (AddHs m) seed default_randomSeed _) as [[a|e] w1] eqn:HE.
  - fold k. rewrite Hk'.
    apply EmbedMolecule_ok in HE as (-> & _ & Hat & found & g' & He & -> & _).
    rewrite bool_decide_eq_true_2 by done. simpl in *. by rewrite He.
  - unfold EmbedMolecule, default_randomSeed in HE.
    replace (fits_int (-1)) with true in HE by reflexivity. rewrite andb_true_r in HE.
    destruct (fits_unsigned_int seed); simpl in *; [|by injection HE as _ <-].
    destruct (GetAtoms (AddHs m)); simpl; [by injection HE as _ <-|].
    destruct (embed_coords _ _ _) as [[c|] g']; discriminate.
Qed.

End Seeding.

(** * Further properties of the featurizer *)

Section FeaturizerMore.
Context {tk : RDKit} {ut : Utils}.

(** A successful call, step by step: the descriptor parsed, the embedding
    found coordinates on the process-global generator, and the loop over
    the atoms ran on the relaxed conformer. *)
Lemma get_3dG_from_smi_steps smi seed w out w' :
  get_3dG_from_smi smi seed w = (Ok out, w') →
  ∃ m c g' rows,
    MolFromSmiles smi = Some m ∧
    embed_coords (AddHs m) seed (rng w) = (Some c, g') ∧
    w' = after_call w smi seed g' ∧
    let relaxed := uff_minimize (set_conformers (AddHs m) [c]) c in
    mapR (atom_body (set_conformers (AddHs m) [relaxed]))
         (enumerate (GetAtoms (AddHs m))) = Ok rows ∧
    atomids out = row_atomid <$> rows ∧ is_ring out = row_ring <$> rows ∧
    hyb out = row_hyb <$> rows ∧ arom out = row_arom <$> rows ∧
    crds_3d out = row_crds <$> rows ∧ tokeep out = row_keep <$> rows.
Proof.
  unfold get_3dG_from_smi. intros Hrun.
  apply bindM_ok in Hrun as (mol1 & w1 & Hparse & Hrun).
  apply lift_ok in Hparse as [Hparse ->].
  apply bindM_ok in Hrun as ([mol2 cid] & w2 & Hembed & Hrun).
  apply bindM_ok in Hrun as (mol3 & w3 & Huff & Hrun).
  apply lift_ok in Huff as [Huff ->].
  apply bindM_ok in Hrun as (rows & w4 & Hrows & Hrun).
  apply lift_ok in Hrows as [Hrows ->].
  apply bindM_ok in Hrun as (v & w5 & Hpd & Hrun).
  apply lift_ok in Hpd as [_ ->].
  apply bindM_ok in Hrun as (Mx & w6 & Hsq & Hrun).
  apply lift_ok in Hsq as [_ ->].
  apply mret_ok in Hrun as [-> ->].
  destruct (MolFromSmiles smi) as [m|] eqn:Hm; [|done].
  simpl in Hparse. injection Hparse as <-.
  apply EmbedMolecule_ok in Hembed as (_ & _ & _ & found & g' & He & -> & Hr).
  unfold default_randomSeed in He. simpl in He.
  destruct found as [c|]; injection Hr as -> ->.
  - unfold UFFOptimizeMolecule in Huff. simpl in Huff. injection Huff as <-.
    exists m, c, g', rows. split_and!; try done.
  - unfold UFFOptimizeMolecule in Huff. simpl in Huff. discriminate.
Qed.

Lemma mapR_lookup {A B} (f : A → result B) l ys i x :
  mapR f l = Ok ys → l !! i = Some x → ∃ y, ys !! i = Some y ∧ f x = Ok y.
Proof.
  intros HF%mapR_ok Hx.
  destruct (Forall2_lookup_l _ _ _ _ _ HF Hx) as (y & Hy & Hf). eauto.
Qed.

Lemma mapR_lookup_r {A B} (f : A → result B) l ys i y :
  mapR f l = Ok ys → ys !! i = Some y → ∃ x, l !! i = Some x ∧ f x = Ok y.
Proof.
  intros HF%mapR_ok Hy.
  destruct (Forall2_lookup_r _ _ _ _ _ HF Hy) as (x & Hx & Hf). eauto.
Qed.

Lemma getitem_ok {V} site (d : gmap string V) k v : getitem site d k = Ok v → d !! k = Some v.
Proof. unfold getitem. destruct (d !! k); [congruence | done]. Qed.

(** What one pass of the loop over the atoms computes. *)
Lemma atom_body_ok mol idx a r :
  atom_body mol (idx, a) = Ok r →
  ATOMTYPE_DICT !! GetSymbol a = Some (row_atomid r) ∧
  IS_RING_DICT !! str_bool (IsInRing a) = Some (row_ring r) ∧
  HYBRIDISATION_DICT !! str_hybridization (GetHybridization a) = Some (row_hyb r) ∧
  AROMATOCITY_DICT !! str_bool (GetIsAromatic a) = Some (row_arom r) ∧
  (∃ conf p, GetConformer mol = Ok conf ∧ conf !! idx = Some p
             ∧ row_crds r = list_of_point p) ∧
  row_keep r = (if ((row_atomid r =? 1) && (row_ring r =? 0) && (row_arom r =? 0)
                    && (row_hyb r =? 1))%Z then 1 else 0).
Proof.
  unfold atom_body. simpl. intros Hr.
  apply bindR_ok in Hr as (x1 & H1%getitem_ok & Hr).
  apply bindR_ok in Hr as (x2 & H2%getitem_ok & Hr).
  apply bindR_ok in Hr as (x3 & H3%getitem_ok & Hr).
  apply bindR_ok in Hr as (x4 & H4%getitem_ok & Hr).
  apply bindR_ok in Hr as (conf & Hconf & Hr).
  apply bindR_ok in Hr as (p & Hp & Hr).
  injection Hr as <-. simpl. split_and!; try done.
  exists conf, p. split_and!; try done.
  unfold GetAtomPosition in Hp. destruct (conf !! idx); [congruence | done].
Qed.

(** Property X1.  After a successful call of [get_3dG_from_smi] the
    descriptor was parsed and the embedding gave a conformer, and for every
    atom [i] of the molecule with hydrogens the four feature arrays hold at
    [i] the entries of [ATOMTYPE_DICT], [IS_RING_DICT], [HYBRIDISATION_DICT]
    and [AROMATOCITY_DICT] under that atom's symbol, ring flag,
    hybridization and aromaticity (each of them present), and the
    coordinate array holds at [i] the position of atom [i] in the
    force-field-relaxed conformer. *)
Theorem per_atom_features_follow_the_atoms smi seed w out w' :
  get_3dG_from_smi smi seed w = (Ok out, w') →
  ∃ m c g',
    MolFromSmiles smi = Some m ∧
    embed_coords (AddHs m) seed (rng w) = (Some c, g') ∧
    ∀ i a, GetAtoms (AddHs m) !! i = Some a →
      is_Some (atomids out !! i) ∧
      atomids out !! i = ATOMTYPE_DICT !! GetSymbol a ∧
      is_ring out !! i = IS_RING_DICT !! str_bool (IsInRing a) ∧
      hyb out !! i = HYBRIDISATION_DICT !! str_hybridization (GetHybridization a) ∧
      arom out !! i = AROMATOCITY_DICT !! str_bool (GetIsAromatic a) ∧
      crds_3d out !! i
        = list_of_point <$> uff_minimize (set_conformers (AddHs m) [c]) c !! i.
Proof.
  intros Hrun.
  apply get_3dG_from_smi_steps in Hrun
    as (m & c & g' & rows & Hm & He & _ & Hrows & -> & -> & -> & -> & -> & _).
  exists m, c, g'. split_and!; try done.
  intros i a Ha.
  assert (enumerate (GetAtoms (AddHs m)) !! i = Some (i, a)) as Hia
    by (by rewrite enumerate_lookup, Ha).
  destruct (mapR_lookup _ _ _ _ _ Hrows Hia) as (r & Hr & Hbody).
  apply atom_body_ok in Hbody
    as (H1 & H2 & H3 & H4 & (conf & p & Hconf & Hp & Hcrds) & _).
  unfold GetConformer in Hconf. simpl in Hconf. injection Hconf as <-.
  rewrite !list_lookup_fmap, Hr, Hp. simpl.
  rewrite H1, H2, H3, H4, Hcrds. split_and!; done.
Qed.

(** Property X2.  After a successful call, every entry of the keep-flag
    array is 0 or 1, and it is 1 exactly when the entries of the same atom
    are 1 in the atom-type array, 0 in the ring array, 0 in the aromaticity
    array and 1 in the hybridization array. *)
Theorem keep_flag_marks_the_atom_class smi seed w out w' i k :
  get_3dG_from_smi smi seed w = (Ok out, w') →
  tokeep out !! i = Some k →
  ∃ a r h ar,
    atomids out !! i = Some a ∧ is_ring out !! i = Some r ∧
    hyb out !! i = Some h ∧ arom out !! i = Some ar ∧
    (k = 0 ∨ k = 1) ∧
    (k = 1 ↔ a = 1 ∧ r = 0 ∧ ar = 0 ∧ h = 1).
Proof.
  intros Hrun Hk.
  apply get_3dG_from_smi_steps in Hrun
    as (m & c & g' & rows & _ & _ & _ & Hrows & -> & -> & -> & -> & _ & Hkeep).
  rewrite Hkeep, list_lookup_fmap in Hk.
  destruct (rows !! i) as [r|] eqn:Hr; [|done]. injection Hk as <-.
  destruct (mapR_lookup_r _ _ _ _ _ Hrows Hr) as ([idx a] & _ & Hbody).
  apply atom_body_ok in Hbody as (_ & _ & _ & _ & _ & Hflag).
  exists (row_atomid r), (row_ring r), (row_hyb r), (row_arom r).
  rewrite !list_lookup_fmap, Hr. simpl. split_and!; try done.
  - rewrite Hflag. case_match; auto.
  - rewrite Hflag.
    destruct (row_atomid r =? 1)%Z eqn:E1, (row_ring r =? 0)%Z eqn:E2,
             (row_arom r =? 0)%Z eqn:E3, (row_hyb r =? 1)%Z eqn:E4; simpl;
      rewrite ?Z.eqb_eq, ?Z.eqb_neq in *; split; intros; try lia; done.
Qed.

(** Property X3.  After a successful call, every column [(i, j)] of the
    proximity edges joins two different atoms whose distance, as [pdist]
    computes it from the returned coordinates, exists and is at most 4:
    the converse of claim C1. *)
Theorem proximity_edges_only_within_threshold smi seed w out w' i j :
  get_3dG_from_smi smi seed w = (Ok out, w') →
  has_edge (edge_3d out) i j →
  i ≠ j ∧ ∃ d, pair_distance (crds_3d out) i j = Some d ∧ le4 d = true.
Proof.
  intros Hrun Hedge.
  apply get_3dG_from_smi_ok in Hrun as (m0 & mol & rows & _ & _ & _ & _ & _ & ->).
  simpl in *. set (crds := row_crds <$> rows) in *.
  apply proximity_edges_spec in Hedge as (Hi & Hj & Hne & Hle).
  split; [done|].
  destruct (lookup_lt_is_Some_2 crds (i `min` j) ltac:(lia)) as [xi Hxi].
  destruct (lookup_lt_is_Some_2 crds (i `max` j) ltac:(lia)) as [xj Hxj].
  assert (i `min` j < i `max` j)%nat as Hlt by lia.
  destruct (matrix_entry_pair crds _ _ _ _ Hlt Hxi Hxj) as [E1 E2].
  exists (euclidean xi xj). unfold pair_distance. rewrite Hxi, Hxj. split; [done|].
  destruct (decide (i < j)%nat).
  - rewrite Nat.min_l, Nat.max_r in E1 by lia. by rewrite <- E1.
  - rewrite Nat.min_r, Nat.max_l in E2 by lia. by rewrite <- E2.
Qed.

Lemma enumerate_NoDup {A} (l : list A) : NoDup (enumerate l).
Proof.
  apply NoDup_alt. intros i j [k x] Hi Hj.
  rewrite enumerate_lookup in Hi, Hj.
  destruct (l !! i); [|done]. destruct (l !! j); [|done].
  simpl in *. congruence.
Qed.

Lemma flat_map_NoDup {A B} (f : A → list B) (l : list A) :
  NoDup l →
  (∀ x, x ∈ l → NoDup (f x)) →
  (∀ x1 x2 y, x1 ∈ l → x2 ∈ l → y ∈ f x1 → y ∈ f x2 → x1 = x2) →
  NoDup (flat_map f l).
Proof.
  induction 1 as [|x l Hx Hnd IH]; intros Hf Hinj; simpl; [constructor|].
  apply NoDup_app. split_and!.
  - apply Hf. left.
  - intros y Hy [x' [Hx' Hy']]%list_elem_of_In%in_flat_map.
    apply list_elem_of_In in Hx', Hy'.
    assert (x = x') as <-; [|done].
    eapply Hinj; [left | by right | exact Hy | exact Hy'].
  - apply IH.
    + intros x' Hx'. apply Hf. by right.
    + intros x1 x2 y H1 H2. apply Hinj; by right.
Qed.

Lemma np_where_NoDup test Mx :
  NoDup (zip (np_where test Mx).1 (np_where test Mx).2).
Proof.
  unfold np_where. simpl. rewrite zip_fst_snd.
  assert (∀ (i : nat) (row : list float) y,
            y ∈ flat_map (λ jx : nat * float, if test jx.2 then [(i, jx.1)] else [])
                  (enumerate row) →
            y.1 = i ∧ ∃ x, row !! y.2 = Some x) as Hrow.
  { intros i row y [[j x] [Hjx Hy]]%list_elem_of_In%in_flat_map.
    apply list_elem_of_In, list_elem_of_lookup in Hjx as [j' Hjx].
    rewrite enumerate_lookup in Hjx.
    destruct (row !! j') as [x'|] eqn:Hx'; [|done]. injection Hjx as <- <-.
    simpl in Hy. destruct (test x'); [|done].
    destruct Hy as [<-|[]]. simpl. eauto. }
  apply flat_map_NoDup.
  - apply enumerate_NoDup.
  - intros [i row] _. simpl. apply flat_map_NoDup.
    + apply enumerate_NoDup.
    + intros [j x] _. simpl. destruct (test x); [apply NoDup_singleton | constructor].
    + intros [j1 x1] [j2 x2] y H1 H2 Hy1 Hy2. simpl in *.
      destruct (test x1); [|by apply elem_of_nil in Hy1].
      destruct (test x2); [|by apply elem_of_nil in Hy2].
      apply list_elem_of_singleton in Hy1, Hy2. subst y. injection Hy2 as <-.
      apply list_elem_of_lookup in H1 as [k1 H1], H2 as [k2 H2].
      rewrite enumerate_lookup in H1, H2.
      destruct (row !! k1) eqn:E1; [|done]. destruct (row !! k2) eqn:E2; [|done].
      simpl in *. simplify_eq. done.
  - intros [i1 row1] [i2 row2] y H1 H2 Hy1 Hy2. simpl in *.
    apply Hrow in Hy1 as [<- _], Hy2 as [<- _].
    apply list_elem_of_lookup in H1 as [k1 H1], H2 as [k2 H2].
    rewrite enumerate_lookup in H1, H2.
    destruct (Mx !! k1) eqn:E1; [|done]. destruct (Mx !! k2) eqn:E2; [|done].
    simpl in *. simplify_eq. done.
Qed.

(** Property X4.  After a successful call the proximity edges are two rows
    of equal length, and no column [(i, j)] occurs twice. *)
Theorem proximity_edges_have_no_repeated_column smi seed w out w' :
  get_3dG_from_smi smi seed w = (Ok out, w') →
  ∃ r0 r1, edge_3d out = [r0; r1] ∧ length r0 = length r1 ∧ NoDup (zip r0 r1).
Proof.
  intros Hrun.
  apply get_3dG_from_smi_ok in Hrun as (m0 & mol & rows & _ & _ & _ & _ & _ & ->).
  simpl. unfold proximity_edges. cbv zeta. eexists _, _. split_and!; [reflexivity | |].
  - apply np_where_lengths.
  - apply np_where_NoDup.
Qed.

Lemma bond_edges_length (f g : Bond → nat) (bonds : list Bond) :
  length (flat_map (λ b, [f b; g b]) bonds) = (2 * length bonds)%nat.
Proof. induction bonds as [|b bs IH]; simpl; [done | rewrite IH; lia]. Qed.

Lemma bond_edges_inv (bonds : list Bond) k a b :
  flat_map (λ bond, [GetBeginAtomIdx bond; GetEndAtomIdx bond]) bonds !! k = Some a →
  flat_map (λ bond, [GetEndAtomIdx bond; GetBeginAtomIdx bond]) bonds !! k = Some b →
  ∃ bond, bond ∈ bonds ∧
    ((a = GetBeginAtomIdx bond ∧ b = GetEndAtomIdx bond) ∨
     (a = GetEndAtomIdx bond ∧ b = GetBeginAtomIdx bond)).
Proof.
  revert k. induction bonds as [|b0 bs IH]; intros k Ha Hb; simpl in *; [done|].
  destruct k as [|[|k]]; simpl in *.
  - injection Ha as <-. injection Hb as <-. exists b0. split; [left | by left].
  - injection Ha as <-. injection Hb as <-. exists b0. split; [left | by right].
  - destruct (IH k Ha Hb) as (bond & Hin & Hab). exists bond. split; [by right | done].
Qed.

(** Property X5.  After a successful call the bond edges are two rows of
    length twice the number of bonds of the molecule with hydrogens, and
    every column is a bond of that molecule in one of its two directions:
    the converse of claim C2. *)
Theorem bond_edges_are_the_bonds_twice smi seed w out w' m :
  get_3dG_from_smi smi seed w = (Ok out, w') →
  MolFromSmiles smi = Some m →
  ∃ r0 r1,
    edge_2d out = [r0; r1] ∧
    length r0 = (2 * length (GetBonds (AddHs m)))%nat ∧
    length r1 = (2 * length (GetBonds (AddHs m)))%nat ∧
    ∀ a b, has_edge (edge_2d out) a b →
      ∃ bond, bond ∈ GetBonds (AddHs m) ∧
        ((a = GetBeginAtomIdx bond ∧ b = GetEndAtomIdx bond) ∨
         (a = GetEndAtomIdx bond ∧ b = GetBeginAtomIdx bond)).
Proof.
  intros Hrun Hm.
  apply get_3dG_from_smi_ok in Hrun as (m0 & mol & rows & Hm0 & _ & Hb & _ & _ & ->).
  rewrite Hm in Hm0. injection Hm0 as <-. simpl. rewrite Hb.
  eexists _, _. split_and!; [reflexivity | apply bond_edges_length.. |].
  intros a b (r0 & r1 & k & [= <- <-] & Ha & Hb'). by eapply bond_edges_inv.
Qed.

(** Property X6.  On a descriptor that [Chem.MolFromSmiles] does not parse,
    [get_3dG_from_smi] raises the [ArgumentError] of [Chem.AddHs(None)]
    before any embedding: the generator is as it was. *)
Theorem unparsable_descriptor_raises smi seed w :
  MolFromSmiles smi = None →
  get_3dG_from_smi smi seed w = (Raise ArgumentError, after_call w smi seed (rng w)).
Proof.
  intros Hm. unfold get_3dG_from_smi, mbind, M_bind, lift. by rewrite Hm.
Qed.

(** Property X7.  When the descriptor parses to a molecule that has an
    atom, the seed fits the [unsigned int] it is passed as, and the
    embedding finds no coordinates, [get_3dG_from_smi] raises the
    [ValueError] "Bad Conformer Id": the result of [EmbedMolecule] is not
    checked, and the first access to the conformer fails.  The generator
    has advanced. *)
Theorem failed_embedding_raises smi seed w m g' :
  MolFromSmiles smi = Some m →
  GetAtoms (AddHs m) ≠ [] →
  (0 ≤ seed < 2 ^ 32)%Z →
  embed_coords (AddHs m) seed (rng w) = (None, g') →
  get_3dG_from_smi smi seed w
  = (Raise (ValueError "Bad Conformer Id"), after_call w smi seed g').
Proof.
  intros Hm Hat Hseed He.
  unfold get_3dG_from_smi, mbind, M_bind, lift, EmbedMolecule, default_randomSeed.
  rewrite Hm. cbn [Chem_AddHs].
  assert (fits_unsigned_int seed = true) as ->.
  { unfold fits_unsigned_int. apply andb_true_intro.
    split; [apply Z.leb_le | apply Z.ltb_lt]; lia. }
  replace (fits_int (-1)) with true by reflexivity.
  destruct (GetAtoms (AddHs m)) as [|x atoms] eqn:Ha; [done|].
  simpl. by rewrite He.
Qed.

(** Property X20.  When the descriptor parses to a molecule without atoms
    (as the empty descriptor does) and the seed fits the [unsigned int] it
    is passed as, [get_3dG_from_smi] raises the [ValueError] of
    [EmbedMolecule], "molecule has no atoms", before any embedding: the
    generator is as it was. *)
Theorem molecule_without_atoms_raises smi seed w m :
  MolFromSmiles smi = Some m →
  GetAtoms (AddHs m) = [] →
  (0 ≤ seed < 2 ^ 32)%Z →
  get_3dG_from_smi smi seed w
  = (Raise (ValueError "molecule has no atoms"), after_call w smi seed (rng w)).
Proof.
  intros Hm Hat Hseed.
  unfold get_3dG_from_smi, mbind, M_bind, lift, EmbedMolecule, default_randomSeed.
  rewrite Hm. cbn [Chem_AddHs].
  assert (fits_unsigned_int seed = true) as ->.
  { unfold fits_unsigned_int. apply andb_true_intro.
    split; [apply Z.leb_le | apply Z.ltb_lt]; lia. }
  replace (fits_int (-1)) with true by reflexivity.
  rewrite Hat. reflexivity.
Qed.

(** Property X8.  A successful call means a molecule of at least one atom
    ([EmbedMolecule] refuses a molecule without atoms); with exactly one
    atom the proximity edges are two empty rows. *)
Theorem featurizer_needs_an_atom smi seed w out w' m :
  get_3dG_from_smi smi seed w = (Ok out, w') →
  MolFromSmiles smi = Some m →
  (1 ≤ length (GetAtoms (AddHs m)))%nat ∧
  (length (GetAtoms (AddHs m)) = 1%nat → edge_3d out = [[]; []]).
Proof.
  intros Hrun Hm.
  apply get_3dG_from_smi_ok in Hrun as (m0 & mol & rows & Hm0 & Ha & _ & Hrows & Hne & ->).
  rewrite Hm in Hm0. injection Hm0 as <-.
  apply Forall2_atom_rows in Hrows as [Hlen _]. rewrite Ha in Hlen. rewrite <- Hlen.
  split.
  - destruct rows; [done | simpl; lia].
  - intros H1. destruct rows as [|r [|r' rows]]; done.
Qed.

End FeaturizerMore.

(** * Further properties of the script *)

Section ScriptMore.
Context {tk : RDKit} {ut : Utils} {py : Python}.

Lemma output_paths_distinct : NoDup output_paths.
Proof.
  unfold output_paths, cond_dicts_path, rxn_smi_dict_path, substrate_path,
    carbacids_path, conditions_path.
  repeat (apply NoDup_cons; split;
          [rewrite ?not_elem_of_cons; split_and?;
           try (simpl; discriminate); apply not_elem_of_nil|]).
  apply NoDup_nil_2.
Qed.

Lemma torch_save_ok content path w r w' :
  torch_save content path w = (r, w') → r = Ok () ∧ fs w' !! path = Some content.
Proof. intros [= <- <-]. simpl. by rewrite lookup_insert_eq. Qed.

(** Every step of a successful run. *)
Lemma main_steps df w w' :
  main df w = (Ok (), w') →
  ∃ t pa items wa wb w1 w2 w3 w4 w5,
    read_table df = Ok t ∧
    compute_product_all t = Ok pa ∧
    let v := build_vocabularies t in
    torch_save (TorchCondDicts [rea_dict v; so1_dict v; so2_dict v; cat_dict v;
                                add_dict v; atm_dict v]) cond_dicts_path w = (Ok (), wa) ∧
    mapR (rxn_smi_item t) (enumerate (rxn_id t)) = Ok items ∧
    torch_save (TorchRxnSmi items) rxn_smi_dict_path wa = (Ok (), wb) ∧
    h5_open_w substrate_path wb = (Ok (), w1) ∧
    for_each substrate_body (unique (startingmat_1_smiles t)) w1 = (Ok (), w2) ∧
    h5_open_w carbacids_path w2 = (Ok (), w3) ∧
    for_each carbacid_body (unique (startingmat_2_smiles t)) w3 = (Ok (), w4) ∧
    h5_open_w conditions_path w4 = (Ok (), w5) ∧
    for_each (reaction_body t v pa) (enumerate (rxn_id t)) w5 = (Ok (), w').
Proof.
  unfold main. intros Hrun.
  apply bindM_ok in Hrun as (t & w0 & Ht & Hrun). apply lift_ok in Ht as [Ht ->].
  apply bindM_ok in Hrun as (pa & w0 & Hpa & Hrun). apply lift_ok in Hpa as [Hpa ->].
  apply bindM_ok in Hrun as ([] & wa & Hs1 & Hrun).
  apply bindM_ok in Hrun as (items & w0 & Hit & Hrun). apply lift_ok in Hit as [Hit ->].
  apply bindM_ok in Hrun as ([] & wb & Hs2 & Hrun).
  apply bindM_ok in Hrun as ([] & w1 & Ho1 & Hrun).
  apply bindM_ok in Hrun as ([] & w2 & Hl1 & Hrun).
  apply bindM_ok in Hrun as ([] & w3 & Ho2 & Hrun).
  apply bindM_ok in Hrun as ([] & w4 & Hl2 & Hrun).
  apply bindM_ok in Hrun as ([] & w5 & Ho3 & Hrun).
  exists t, pa, items, wa, wb, w1, w2, w3, w4, w5. split_and!; done.
Qed.

Lemma substrate_loop_frame l : preserves (files_except substrate_path) (for_each substrate_body l).
Proof. apply (molecule_loop_frame substrate_path substrate_datasets). done. Qed.

Lemma carbacid_loop_frame l : preserves (files_except carbacids_path) (for_each carbacid_body l).
Proof. apply (molecule_loop_frame carbacids_path carbacid_datasets). done. Qed.

Lemma others_kept_refl w : others_kept w w.
Proof. done. Qed.

Lemma others_kept_trans w1 w2 w3 : others_kept w1 w2 → others_kept w2 w3 → others_kept w1 w3.
Proof. intros H12 H23 p Hp. by rewrite H23, H12. Qed.

Lemma files_except_others_kept path w w' :
  path ∈ output_paths → files_except path w w' → others_kept w w'.
Proof. intros Hin Hf p Hp. apply Hf. intros ->. done. Qed.

Lemma in_output_paths :
  cond_dicts_path ∈ output_paths ∧ rxn_smi_dict_path ∈ output_paths ∧
  substrate_path ∈ output_paths ∧ carbacids_path ∈ output_paths ∧
  conditions_path ∈ output_paths.
Proof. unfold output_paths. split_and!; repeat constructor. Qed.

(** Property X9.  Whatever the outcome of a run, every file other than the
    five output files (the two [torch.save] artifacts and the three HDF5
    containers) is as it was before. *)
Theorem main_writes_only_its_five_files df w r w' p :
  main df w = (r, w') → p ∉ output_paths → fs w' !! p = fs w !! p.
Proof.
  intros Hrun. revert p. change (others_kept w w').
  assert (preserves others_kept (main df)) as Hp; [|by eapply Hp].
  destruct in_output_paths as (P1 & P2 & P3 & P4 & P5).
  assert (∀ path c, path ∈ output_paths → preserves others_kept (torch_save c path)) as Hsave.
  { intros path c Hin. eapply preserves_weaken; [|apply torch_save_touches].
    intros ?? (_ & _ & ?). by eapply files_except_others_kept. }
  assert (∀ path, path ∈ output_paths → preserves others_kept (h5_open_w path)) as Hopen.
  { intros path Hin. eapply preserves_weaken; [|apply h5_open_w_touches].
    intros ?? (_ & _ & ?). by eapply files_except_others_kept. }
  unfold main.
  apply (preserves_bind _ others_kept_trans); [apply (preserves_lift _ others_kept_refl)|].
  intros t.
  apply (preserves_bind _ others_kept_trans); [apply (preserves_lift _ others_kept_refl)|].
  intros pa.
  apply (preserves_bind _ others_kept_trans); [by apply Hsave|]. intros _.
  apply (preserves_bind _ others_kept_trans); [apply (preserves_lift _ others_kept_refl)|].
  intros items.
  apply (preserves_bind _ others_kept_trans); [by apply Hsave|]. intros _.
  apply (preserves_bind _ others_kept_trans); [by apply Hopen|]. intros _.
  apply (preserves_bind _ others_kept_trans).
  { eapply preserves_weaken; [|apply substrate_loop_frame].
    intros ??. by apply files_except_others_kept. }
  intros _.
  apply (preserves_bind _ others_kept_trans); [by apply Hopen|]. intros _.
  apply (preserves_bind _ others_kept_trans).
  { eapply preserves_weaken; [|apply carbacid_loop_frame].
    intros ??. by apply files_except_others_kept. }
  intros _.
  apply (preserves_bind _ others_kept_trans); [by apply Hopen|]. intros _.
  eapply preserves_weaken; [|apply reaction_loop_frame].
  intros ?? (_ & _ & ?). by eapply files_except_others_kept.
Qed.

(** The two artifacts at the end of a successful run. *)
Lemma main_artifacts df w w' t :
  main df w = (Ok (), w') → read_table df = Ok t →
  let v := build_vocabularies t in
  fs w' !! cond_dicts_path
    = Some (TorchCondDicts [rea_dict v; so1_dict v; so2_dict v; cat_dict v;
                            add_dict v; atm_dict v]) ∧
  ∃ items, mapR (rxn_smi_item t) (enumerate (rxn_id t)) = Ok items ∧
           fs w' !! rxn_smi_dict_path = Some (TorchRxnSmi items).
Proof.
  intros Hrun Ht.
  apply main_steps in Hrun
    as (t' & pa & items & wa & wb & w1 & w2 & w3 & w4 & w5 & Ht' & _ & Hs1 & Hit & Hs2
        & Ho1 & Hl1 & Ho2 & Hl2 & Ho3 & Hl3).
  rewrite Ht in Ht'. injection Ht' as <-.
  pose proof output_paths_distinct as Hnd. unfold output_paths in Hnd.
  apply NoDup_cons in Hnd as [N1 Hnd]. apply NoDup_cons in Hnd as [N2 _].
  rewrite !not_elem_of_cons in N1. rewrite !not_elem_of_cons in N2.
  destruct N1 as (N12 & N13 & N14 & N15 & _). destruct N2 as (N23 & N24 & N25 & _).
  pose proof (torch_save_touches _ _ _ _ _ Hs2) as (_ & _ & F2).
  pose proof (h5_open_w_touches _ _ _ _ Ho1) as (_ & _ & F3).
  pose proof (substrate_loop_frame _ _ _ _ Hl1) as F4.
  pose proof (h5_open_w_touches _ _ _ _ Ho2) as (_ & _ & F5).
  pose proof (carbacid_loop_frame _ _ _ _ Hl2) as F6.
  pose proof (h5_open_w_touches _ _ _ _ Ho3) as (_ & _ & F7).
  pose proof (reaction_loop_frame _ _ _ _ _ _ _ Hl3) as (_ & _ & F8).
  apply torch_save_ok in Hs1 as [_ Hs1]. apply torch_save_ok in Hs2 as [_ Hs2].
  split.
  - rewrite F8, F7, F6, F5, F4, F3, F2 by done. exact Hs1.
  - exists items. split; [done|].
    rewrite F8, F7, F6, F5, F4, F3 by done. exact Hs2.
Qed.

Lemma bindM_lift_Ok {A B} (r : result A) (k : A → M B) a w :
  r = Ok a → (lift r ≫= k) w = k a w.
Proof. by intros ->. Qed.

(** Property X10.  Once the columns are read and the combined targets
    computed, the vocabulary artifact holds the six vocabularies built from
    the reagent, solvent-1, solvent-2, catalyst, additive and atmosphere
    columns, in that order, at the end of the run, whether the run succeeds
    or a later step raises: a failure after line 167 leaves partial output
    behind. *)
Theorem vocabulary_artifact_written_whatever_follows df w r w' t pa :
  main df w = (r, w') → read_table df = Ok t → compute_product_all t = Ok pa →
  fs w' !! cond_dicts_path
  = Some (TorchCondDicts
            [ get_dict_for_embedding (reagent_1_smiles t);
              get_dict_for_embedding (solvent_1_smiles t);
              get_dict_for_embedding (solvent_2_smiles t);
              get_dict_for_embedding (catalyst_1_smiles t);
              get_dict_for_embedding (additive_1_smiles t);
              get_dict_for_embedding (atmosphere t) ]).
Proof.
  intros Hrun Ht Hpa. unfold main in Hrun.
  rewrite (bindM_lift_Ok _ _ _ _ Ht) in Hrun. cbv zeta in Hrun.
  rewrite (bindM_lift_Ok _ _ _ _ Hpa) in Hrun.
  match type of Hrun with
  | (torch_save ?c ?p ≫= ?k) w = _ =>
      change (k () (set_fs <[p := c]> w) = (r, w')) in Hrun
  end.
  cbv beta in Hrun.
  pose proof output_paths_distinct as Hnd. unfold output_paths in Hnd.
  apply NoDup_cons in Hnd as [N1 _]. rewrite !not_elem_of_cons in N1.
  destruct N1 as (N12 & N13 & N14 & N15 & _).
  set (R := λ w1 w2 : world, fs w2 !! cond_dicts_path = fs w1 !! cond_dicts_path).
  assert (∀ w1, R w1 w1) as Rrefl by done.
  assert (∀ w1 w2 w3, R w1 w2 → R w2 w3 → R w1 w3) as Rtrans.
  { unfold R. intros ??? H12 H23. by rewrite H23. }
  assert (∀ path w1 w2, cond_dicts_path ≠ path → files_except path w1 w2 → R w1 w2) as Rfr.
  { intros path w1 w2 Hne Hf. by apply Hf. }
  match type of Hrun with ?m ?w1 = _ => assert (preserves R m) as Hp end.
  { apply (preserves_bind R Rtrans); [apply (preserves_lift R Rrefl)|]. intros items.
    apply (preserves_bind R Rtrans).
    { eapply preserves_weaken; [|apply torch_save_touches]. intros ?? (_ & _ & ?). eauto. }
    intros _. apply (preserves_bind R Rtrans).
    { eapply preserves_weaken; [|apply h5_open_w_touches]. intros ?? (_ & _ & ?). eauto. }
    intros _. apply (preserves_bind R Rtrans).
    { eapply preserves_weaken; [|apply substrate_loop_frame]. intros ?? ?. eauto. }
    intros _. apply (preserves_bind R Rtrans).
    { eapply preserves_weaken; [|apply h5_open_w_touches]. intros ?? (_ & _ & ?). eauto. }
    intros _. apply (preserves_bind R Rtrans).
    { eapply preserves_weaken; [|apply carbacid_loop_frame]. intros ?? ?. eauto. }
    intros _. apply (preserves_bind R Rtrans).
    { eapply preserves_weaken; [|apply h5_open_w_touches]. intros ?? (_ & _ & ?). eauto. }
    intros _. eapply preserves_weaken; [|apply reaction_loop_frame].
    intros ?? (_ & _ & ?). eauto. }
  apply Hp in Hrun. unfold R in Hrun. rewrite Hrun. simpl. by rewrite lookup_insert_eq.
Qed.

End ScriptMore.

(** * The keys and the contents of the containers *)

Lemma enumerate_names (l : list cell) :
  (λ ir : nat * cell, cell_name ir.2) <$> enumerate l = cell_name <$> l.
Proof.
  apply list_eq. intros i. rewrite !list_lookup_fmap, enumerate_lookup.
  by destruct (l !! i).
Qed.

Lemma cell_name_inv (l : list cell) :
  Forall (λ c, ∃ name, c = CStr name) l → l = CStr <$> (cell_name <$> l).
Proof.
  induction 1 as [|c l [name ->] _ IH]; [done|]. rewrite !fmap_cons. simpl. by f_equal.
Qed.

Lemma elem_of_groups_of k names :
  k ∈ groups_of names ↔ ∃ name, name ∈ names ∧ k ∈ group_paths (h5_path name).
Proof.
  unfold groups_of. rewrite elem_of_union_list. split.
  - intros (X & (name & -> & Hin)%list_elem_of_fmap & Hk). eauto.
  - intros (name & Hin & Hk). eexists. split; [|exact Hk].
    apply list_elem_of_fmap. eauto.
Qed.

Lemma groups_of_one_component names :
  Forall (λ name, h5_path name = [name]) names →
  groups_of names = list_to_set ((λ name, [name]) <$> names).
Proof.
  intros Hone. rewrite Forall_forall in Hone. apply set_eq. intros k.
  rewrite elem_of_groups_of, elem_of_list_to_set, list_elem_of_fmap.
  split.
  - intros (name & Hin & Hk). exists name. split; [|done].
    rewrite (Hone _ Hin) in Hk. apply elem_of_group_paths_iff in Hk as (n & -> & Hn).
    simpl in Hn. assert (n = 1%nat) as -> by lia. done.
  - intros (name & -> & Hin). exists name. split; [done|].
    rewrite (Hone _ Hin). by apply elem_of_group_paths.
Qed.

(** A loop whose every pass adds the group of its own key to a container
    that was empty at the start. *)
Lemma sections_loop_keys {A} path (body : A → M unit) (key : A → string) l w w' :
  (∀ x w1 w2, body x w1 = (Ok (), w2) →
     ∃ g g' sec, fs w1 !! path = Some (H5File g) ∧
       fs w2 !! path = Some (H5File g') ∧ adds_group g g' (h5_path (key x)) sec) →
  for_each body l w = (Ok (), w') →
  fs w !! path = Some (H5File ∅) →
  ∃ g', fs w' !! path = Some (H5File g') ∧
        dom g' = groups_of (key <$> l) ∧
        NoDup (h5_path <$> (key <$> l)) ∧
        Forall (λ name, h5_path name ≠ []) (key <$> l).
Proof.
  intros Hbody Hrun Hinit.
  apply (for_each_invariant body (λ pre w1,
    ∃ g, fs w1 !! path = Some (H5File g) ∧
         dom g = groups_of (key <$> pre) ∧
         NoDup (h5_path <$> (key <$> pre)) ∧
         Forall (λ name, h5_path name ≠ []) (key <$> pre))
    l w w' Hrun).
  - exists ∅. split_and!; [done | by rewrite dom_empty_L | constructor | constructor].
  - intros pre x w1 w2 _ (g & Hg & Hdom & Hnd & Hne) Hstep.
    apply Hbody in Hstep as (g1 & g2 & sec & Hg1 & Hg2 & Hp & Hfresh & _ & _ & Hdom2).
    rewrite Hg in Hg1. injection Hg1 as <-.
    apply not_elem_of_dom in Hfresh. rewrite Hdom in Hfresh.
    exists g2. split_and!; [done | | |].
    + rewrite Hdom2, Hdom, fmap_app. unfold groups_of.
      rewrite fmap_app, union_list_app_L. simpl. by rewrite union_empty_r_L.
    + rewrite !fmap_app. apply NoDup_app. split_and!; [done | | apply NoDup_singleton].
      intros q (name & -> & Hin)%list_elem_of_fmap Heq%list_elem_of_singleton.
      apply Hfresh, elem_of_groups_of. exists name. split; [done|].
      rewrite <- Heq. apply elem_of_group_paths. by rewrite Heq.
    + rewrite fmap_app. apply Forall_app. split; [done|]. by repeat constructor.
Qed.

Section Containers.
Context {tk : RDKit} {ut : Utils} {py : Python}.

(** The substrate and the acid container are not touched after their loop. *)
Lemma main_molecule_containers df w w' :
  main df w = (Ok (), w') →
  ∃ t pa w1 w2 w3 w4 w5,
    read_table df = Ok t ∧ compute_product_all t = Ok pa ∧
    fs w1 !! substrate_path = Some (H5File ∅) ∧
    for_each substrate_body (unique (startingmat_1_smiles t)) w1 = (Ok (), w2) ∧
    fs w' !! substrate_path = fs w2 !! substrate_path ∧
    fs w3 !! carbacids_path = Some (H5File ∅) ∧
    for_each carbacid_body (unique (startingmat_2_smiles t)) w3 = (Ok (), w4) ∧
    fs w' !! carbacids_path = fs w4 !! carbacids_path ∧
    fs w5 !! conditions_path = Some (H5File ∅) ∧
    for_each (reaction_body t (build_vocabularies t) pa) (enumerate (rxn_id t)) w5
      = (Ok (), w').
Proof.
  intros Hrun.
  apply main_steps in Hrun
    as (t & pa & items & wa & wb & w1 & w2 & w3 & w4 & w5 & Ht & Hpa & _ & _ & _
        & Ho1 & Hl1 & Ho2 & Hl2 & Ho3 & Hl3).
  pose proof (h5_open_w_touches _ _ _ _ Ho2) as (_ & _ & F5).
  pose proof (carbacid_loop_frame _ _ _ _ Hl2) as F6.
  pose proof (h5_open_w_touches _ _ _ _ Ho3) as (_ & _ & F7).
  pose proof (reaction_loop_frame _ _ _ _ _ _ _ Hl3) as (_ & _ & F8).
  apply h5_open_w_ok in Ho1 as [_ Ho1].
  apply h5_open_w_ok in Ho2 as [_ Ho2].
  apply h5_open_w_ok in Ho3 as [_ Ho3].
  exists t, pa, w1, w2, w3, w4, w5. split_and!; try done.
  - rewrite F8, F7, F6, F5;
      eauto using substrate_not_carbacids, substrate_not_conditions.
  - rewrite F8, F7; eauto using carbacids_not_conditions.
Qed.

(** The groups of the reaction container after a successful run. *)
Lemma reaction_groups df w w' t :
  main df w = (Ok (), w') → read_table df = Ok t →
  ∃ g3,
    rxn_id t = CStr <$> (cell_name <$> rxn_id t) ∧
    fs w' !! conditions_path = Some (H5File g3) ∧
    dom g3 = groups_of (cell_name <$> rxn_id t) ∧
    NoDup (h5_path <$> (cell_name <$> rxn_id t)) ∧
    Forall (λ name, h5_path name ≠ []) (cell_name <$> rxn_id t).
Proof.
  intros Hrun Ht.
  pose proof (main_containers _ _ _ Hrun)
    as (t' & pa' & _ & _ & g3' & Ht' & _ & _ & _ & _ & _ & _ & Hrows).
  rewrite Ht in Ht'. injection Ht' as <-.
  apply main_molecule_containers in Hrun
    as (t' & pa & w1 & w2 & w3 & w4 & w5 & Ht' & _ & _ & _ & _ & _ & _ & _ & Hf5 & Hl3).
  rewrite Ht in Ht'. injection Ht' as <-.
  destruct (sections_loop_keys conditions_path _ (λ ir : nat * cell, cell_name ir.2)
              _ _ _ (λ ir w1 w2 Hb, ltac:(
                apply reaction_body_ok in Hb
                  as (g & g' & name & r & y & b & Hn & _ & _ & _ & Hg & Hg' & Hadd);
                exists g, g', (section_of (reaction_fields r y b).*2);
                rewrite Hn; simpl; done)) Hl3 Hf5)
    as (g3 & Hg3 & Hdom & Hnd & Hne).
  rewrite enumerate_names in Hdom. rewrite enumerate_names in Hnd.
  rewrite enumerate_names in Hne.
  exists g3. split_and!; [|done..].
  apply cell_name_inv. apply Forall_lookup. intros idx key Hkey.
  destruct (Hrows _ _ Hkey) as (name & _ & _ & _ & -> & _). eauto.
Qed.

(** Property X11.  A run succeeds only if the reaction ids are strings that
    resolve to pairwise distinct groups other than the root
    ([create_group] refuses a name that exists); the groups of the
    reaction container are then exactly those the ids resolve to and the
    groups on the way to them.  When every id is a single component (no
    slash), these are the ids themselves: one group per row. *)
Theorem reaction_ids_are_distinct_group_names df w w' t :
  main df w = (Ok (), w') → read_table df = Ok t →
  ∃ names g3,
    rxn_id t = CStr <$> names ∧
    NoDup (h5_path <$> names) ∧ Forall (λ name, h5_path name ≠ []) names ∧
    fs w' !! conditions_path = Some (H5File g3) ∧
    dom g3 = groups_of names ∧
    (Forall (λ name, h5_path name = [name]) names →
     dom g3 = list_to_set ((λ name, [name]) <$> names) ∧
     size g3 = length (rxn_id t)).
Proof.
  intros Hrun Ht.
  destruct (reaction_groups _ _ _ _ Hrun Ht) as (g3 & Hid & Hg3 & Hdom & Hnd & Hne).
  exists (cell_name <$> rxn_id t), g3. split_and!; [done..|].
  intros Hone.
  assert (dom g3 = list_to_set ((λ name, [name]) <$> (cell_name <$> rxn_id t))) as Hd
    by (by rewrite Hdom, groups_of_one_component).
  split; [done|].
  rewrite <- size_dom, Hd, size_list_to_set, !length_fmap; [done|].
  rewrite <- (list_fmap_ext h5_path (λ name, [name]) (cell_name <$> rxn_id t)); [done|].
  intros i name Hi. rewrite Forall_forall in Hone. apply Hone.
  by eapply list_elem_of_lookup_2.
Qed.

(** Property X12.  After a successful run the groups of the substrate
    container are exactly those the descriptors of the first-reactant
    column resolve to and the groups on the way to them (a descriptor with
    a slash, as in a double-bond configuration, is a path), and likewise
    the groups of the acid container for the second-reactant column:
    there is no other group. *)
Theorem molecule_containers_are_keyed_by_the_descriptors df w w' t :
  main df w = (Ok (), w') → read_table df = Ok t →
  ∃ g1 g2,
    fs w' !! substrate_path = Some (H5File g1) ∧
    dom g1 = groups_of (startingmat_1_smiles t) ∧
    fs w' !! carbacids_path = Some (H5File g2) ∧
    dom g2 = groups_of (startingmat_2_smiles t).
Proof.
  intros Hrun Ht.
  apply main_molecule_containers in Hrun
    as (t' & pa & w1 & w2 & w3 & w4 & w5 & Ht' & _ & Hf1 & Hl1 & Hk1 & Hf3 & Hl2 & Hk2 & _).
  rewrite Ht in Ht'. injection Ht' as <-.
  destruct (sections_loop_keys substrate_path _ id
              _ _ _ (λ smi w1 w2 Hb, ltac:(
                apply substrate_body_ok in Hb
                  as (g & g' & f_a & f_b & f_c & f_d & f_e & ? & ? & ? & _);
                by eexists g, g', _)) Hl1 Hf1)
    as (g1 & Hg1 & Hdom1 & _).
  destruct (sections_loop_keys carbacids_path _ id
              _ _ _ (λ smi w1 w2 Hb, ltac:(
                apply carbacid_body_ok in Hb
                  as (g & g' & f_a & f_b & f_c & f_d & f_e & ? & ? & ? & _);
                by eexists g, g', _)) Hl2 Hf3)
    as (g2 & Hg2 & Hdom2 & _).
  rewrite list_fmap_id in Hdom1, Hdom2.
  assert (∀ l, groups_of (unique l) = groups_of l) as Hu.
  { intros l. apply set_eq. intros k. rewrite !elem_of_groups_of.
    by setoid_rewrite elem_of_unique. }
  rewrite Hu in Hdom1, Hdom2.
  exists g1, g2. split_and!; [congruence | done | congruence | done].
Qed.

Lemma reaction_ids_distinct df w w' t :
  main df w = (Ok (), w') → read_table df = Ok t → NoDup (rxn_id t).
Proof.
  intros Hrun Ht.
  destruct (reaction_groups _ _ _ _ Hrun Ht) as (g3 & Hid & _ & _ & Hnd & _).
  rewrite Hid. apply NoDup_fmap_2; [by intros ?? [= ->]|]. by apply NoDup_fmap_1 in Hnd.
Qed.

(** Property X13.  After a successful run the lookup artifact holds one
    assignment per row, in the order of the rows, from the reaction id of
    the row to the list of its two reactant descriptors; the keys are the
    reaction ids and pairwise distinct, so no assignment replaced another. *)
Theorem lookup_artifact_pairs_each_reaction_with_its_descriptors df w w' t :
  main df w = (Ok (), w') → read_table df = Ok t →
  ∃ items,
    fs w' !! rxn_smi_dict_path = Some (TorchRxnSmi items) ∧
    items.*1 = rxn_id t ∧ NoDup items.*1 ∧
    ∀ idx key, rxn_id t !! idx = Some key →
      ∃ s1 s2, startingmat_1_smiles t !! idx = Some s1 ∧
               startingmat_2_smiles t !! idx = Some s2 ∧
               items !! idx = Some (key, [s1; s2]).
Proof.
  intros Hrun Ht.
  pose proof (reaction_ids_distinct _ _ _ _ Hrun Ht) as Hnd.
  destruct (main_artifacts _ _ _ _ Hrun Ht) as [_ (items & Hit & Hfs)].
  assert (∀ idx key, rxn_id t !! idx = Some key →
      ∃ s1 s2, startingmat_1_smiles t !! idx = Some s1 ∧
               startingmat_2_smiles t !! idx = Some s2 ∧
               items !! idx = Some (key, [s1; s2])) as Hrows.
  { intros idx key Hkey.
    assert (enumerate (rxn_id t) !! idx = Some (idx, key)) as Hik
      by (by rewrite enumerate_lookup, Hkey).
    destruct (mapR_lookup _ _ _ _ _ Hit Hik) as (y & Hy & Hitem).
    unfold rxn_smi_item in Hitem. simpl in Hitem.
    apply bindR_ok in Hitem as (s1 & H1%list_getitem_ok & Hitem).
    apply bindR_ok in Hitem as (s2 & H2%list_getitem_ok & Hitem).
    injection Hitem as <-. eauto. }
  assert (items.*1 = rxn_id t) as Hkeys.
  { apply list_eq. intros idx. rewrite list_lookup_fmap.
    destruct (rxn_id t !! idx) as [key|] eqn:Hkey.
    - destruct (Hrows _ _ Hkey) as (s1 & s2 & _ & _ & ->). done.
    - apply mapR_ok, Forall2_length in Hit. rewrite enumerate_length in Hit.
      apply lookup_ge_None in Hkey.
      rewrite (proj2 (lookup_ge_None items idx)) by lia. done. }
  exists items. split_and!; [done | done | by rewrite Hkeys | done].
Qed.

End Containers.

(** * Where the datasets of a section come from *)

Lemma section_of_lookup items name d :
  NoDup items.*1 → (name, d) ∈ items → section_of items !! name = Some d.
Proof. apply fold_insert_item_lookup. Qed.

Ltac field_in_section :=
  unfold reaction_fields, condition_fields, trg_yld_field, trg_bin_field;
  rewrite fmap_app, ?fmap_cons; cbn [snd app fmap list_fmap];
  repeat first [apply list_elem_of_here | apply list_elem_of_further].

Section Datasets.
Context {tk : RDKit} {ut : Utils} {py : Python}.

Lemma float_at_ok col idx f :
  float_at col idx = Ok f → ∃ c, col !! idx = Some c ∧ py_float c = Ok f.
Proof.
  unfold float_at. intros (c & Hc%list_getitem_ok & Hf)%bindR_ok. eauto.
Qed.

Lemma id_at_ok d col idx id :
  id_at d col idx = Ok id → ∃ x, col !! idx = Some x ∧ d !! x = Some id.
Proof.
  unfold id_at. intros (x & Hx%list_getitem_ok & Hid%getitem_ok)%bindR_ok. eauto.
Qed.

Lemma get_fp_from_smi_ok smi fp :
  get_fp_from_smi smi = Ok fp →
  ∃ m, MolFromSmiles smi = Some m ∧
       fp = (λ b : bool, if b then 1 else 0) <$> morgan_bits (AddHs m) 2 256.
Proof.
  unfold get_fp_from_smi, Chem_AddHs. destruct (MolFromSmiles smi) as [m|]; [|done].
  simpl. intros [= <-]. eauto.
Qed.

(** The values of one reaction row, read back. *)
Lemma reaction_row_ok t v idx r :
  reaction_row t v idx = Ok r →
  (∃ smi1 smi2,
     startingmat_1_smiles t !! idx = Some smi1 ∧
     startingmat_2_smiles t !! idx = Some smi2 ∧
     get_fp_from_smi smi1 = Ok (ecfp4_2_1 r) ∧
     get_fp_from_smi smi2 = Ok (ecfp4_2_2 r)) ∧
  float_at (reagent_1_eq t) idx = Ok (rgt_eq r) ∧
  float_at (startingmat_2_eq t) idx = Ok (sm2_eq r) ∧
  float_at (concentration_moll t) idx = Ok (conc_m r) ∧
  float_at (temperature_degC t) idx = Ok (tmp_de r) ∧
  float_at (time_h t) idx = Ok (hours_ r) ∧
  float_at (scale_mol t) idx = Ok (scale_ r) ∧
  float_at (catalyst_1_eq t) idx = Ok (cat_eq r) ∧
  float_at (additive_1_eq t) idx = Ok (add_eq r) ∧
  float_at (solvent_1_fraction t) idx = Ok (sol_f1 r) ∧
  float_at (solvent_2_fraction t) idx = Ok (sol_f2 r) ∧
  id_at (rea_dict v) (reagent_1_smiles t) idx = Ok (rea_id r) ∧
  id_at (so1_dict v) (solvent_1_smiles t) idx = Ok (so1_id r) ∧
  id_at (so2_dict v) (solvent_2_smiles t) idx = Ok (so2_id r) ∧
  id_at (cat_dict v) (catalyst_1_smiles t) idx = Ok (cat_id r) ∧
  id_at (add_dict v) (additive_1_smiles t) idx = Ok (add_id r) ∧
  id_at (atm_dict v) (atmosphere t) idx = Ok (atm_id r).
Proof.
  unfold reaction_row. intros Hrow.
  apply bindR_ok in Hrow as (smi1 & Hs1%list_getitem_ok & Hrow).
  apply bindR_ok in Hrow as (smi2 & Hs2%list_getitem_ok & Hrow).
  do 10 (let x := fresh "x" in let Hx := fresh "Hx" in
         apply bindR_ok in Hrow as (x & Hx & Hrow)).
  do 6 (let i := fresh "i" in let Hi := fresh "Hi" in
        apply bindR_ok in Hrow as (i & Hi & Hrow)).
  apply bindR_ok in Hrow as (fp1 & Hfp1 & Hrow).
  apply bindR_ok in Hrow as (fp2 & Hfp2 & Hrow).
  injection Hrow as <-. simpl.
  split; [exists smi1, smi2; by split_and! |].
  repeat split; assumption.
Qed.

(** The section of a row, with the values it was built from. *)
Lemma reaction_section_of_row df w w' t idx key :
  main df w = (Ok (), w') → read_table df = Ok t → rxn_id t !! idx = Some key →
  ∃ name g3 r y b,
    key = CStr name ∧ fs w' !! conditions_path = Some (H5File g3) ∧
    reaction_row t (build_vocabularies t) idx = Ok r ∧
    binary t !! idx = Some b ∧
    g3 !! h5_path name = Some (section_of (reaction_fields r y b).*2) ∧
    ∀ fname d, (fname, d) ∈ (reaction_fields r y b).*2 →
      section_of (reaction_fields r y b).*2 !! fname = Some d.
Proof.
  intros Hrun Ht Hkey.
  apply main_containers in Hrun
    as (t' & pa & _ & _ & g3 & Ht' & _ & _ & _ & _ & _ & Hg3 & Hrows).
  rewrite Ht in Ht'. injection Ht' as <-.
  destruct (Hrows _ _ Hkey) as (name & r & y & b & -> & Hr & _ & Hb & Hsec).
  exists name, g3, r, y, b. split_and!; try done.
  intros fname d. apply section_of_lookup, reaction_fields_NoDup.
Qed.

(** Property X14.  After a successful run, in the section of every row
    each of the ten numeric datasets ([rgt_eq], [sm2_eq], [conc_m],
    [tmp_de], [hours_], [scale_], [cat_eq], [add_eq], [sol_f1], [sol_f2])
    is the one-element array of [float] of that row's cell of the column
    [numeric_sources] gives for it. *)
Theorem numeric_conditions_are_the_floats_of_the_row df w w' t idx key :
  main df w = (Ok (), w') → read_table df = Ok t → rxn_id t !! idx = Some key →
  ∃ name g3 sec,
    key = CStr name ∧ fs w' !! conditions_path = Some (H5File g3) ∧
    g3 !! h5_path name = Some sec ∧
    Forall (λ nc : string * list cell,
              ∃ c f, nc.2 !! idx = Some c ∧ py_float c = Ok f ∧
                     sec !! nc.1 = Some (DFloat1 [f]))
           (numeric_sources t).
Proof.
  intros Hrun Ht Hkey.
  destruct (reaction_section_of_row _ _ _ _ _ _ Hrun Ht Hkey)
    as (name & g3 & r & y & b & -> & Hg3 & Hr & _ & Hsec & Hget).
  apply reaction_row_ok in Hr
    as (_ & F1 & F2 & F3 & F4 & F5 & F6 & F7 & F8 & F9 & F10 & _).
  exists name, g3, (section_of (reaction_fields r y b).*2). split_and!; [done..|].
  unfold numeric_sources.
  repeat (apply Forall_cons_2); [..|apply Forall_nil_2]; cbn [fst snd];
    match goal with
    | |- ∃ c f, ?col !! idx = _ ∧ _ =>
        match goal with
        | H : float_at col idx = Ok ?f |- _ =>
            apply float_at_ok in H as (c & Hc & Hf); exists c, f;
            split_and!; [exact Hc | exact Hf |];
            apply Hget; field_in_section
        end
    end.
Qed.

(** Property X15.  After a successful run, in the section of every row
    each of the six categorical datasets ([rea_id], [so1_id], [so2_id],
    [cat_id], [add_id], [atm_id]) is the one-element array of the id that
    the vocabulary of its column gives to that row's value of the column. *)
Theorem categorical_conditions_are_the_vocabulary_ids_of_the_row df w w' t idx key :
  main df w = (Ok (), w') → read_table df = Ok t → rxn_id t !! idx = Some key →
  ∃ name g3 sec,
    key = CStr name ∧ fs w' !! conditions_path = Some (H5File g3) ∧
    g3 !! h5_path name = Some sec ∧
    Forall (λ s : string * (gmap string Z * list string),
              ∃ x id, s.2.2 !! idx = Some x ∧ s.2.1 !! x = Some id ∧
                      sec !! s.1 = Some (DInt1 [id]))
           (categorical_sources t (build_vocabularies t)).
Proof.
  intros Hrun Ht Hkey.
  destruct (reaction_section_of_row _ _ _ _ _ _ Hrun Ht Hkey)
    as (name & g3 & r & y & b & -> & Hg3 & Hr & _ & Hsec & Hget).
  apply reaction_row_ok in Hr
    as (_ & _ & _ & _ & _ & _ & _ & _ & _ & _ & _ & I1 & I2 & I3 & I4 & I5 & I6).
  exists name, g3, (section_of (reaction_fields r y b).*2). split_and!; [done..|].
  unfold categorical_sources.
  repeat (apply Forall_cons_2); [..|apply Forall_nil_2]; cbn [fst snd];
    match goal with
    | |- ∃ x id, ?col !! idx = _ ∧ ?d !! _ = _ ∧ _ =>
        match goal with
        | H : id_at d col idx = Ok ?id |- _ =>
            apply id_at_ok in H as (x & Hx & Hid); exists x, id;
            split_and!; [exact Hx | exact Hid |];
            apply Hget; field_in_section
        end
    end.
Qed.

(** Property X16.  After a successful run, both reactant descriptors of
    every row parse, and the section of the row holds under [ecfp4_2_1] and
    [ecfp4_2_2] the Morgan bits (radius 2, 256 bits) of the two molecules
    with hydrogens, as arrays of 0 and 1, and under [trg_bin] that row's
    cell of the [binary] column. *)
Theorem fingerprints_and_binary_target_of_the_row df w w' t idx key :
  main df w = (Ok (), w') → read_table df = Ok t → rxn_id t !! idx = Some key →
  ∃ name g3 sec smi1 smi2 m1 m2 b,
    key = CStr name ∧ fs w' !! conditions_path = Some (H5File g3) ∧
    g3 !! h5_path name = Some sec ∧
    startingmat_1_smiles t !! idx = Some smi1 ∧ MolFromSmiles smi1 = Some m1 ∧
    startingmat_2_smiles t !! idx = Some smi2 ∧ MolFromSmiles smi2 = Some m2 ∧
    sec !! "ecfp4_2_1"
      = Some (DInt2 [(λ x : bool, if x then 1 else 0) <$> morgan_bits (AddHs m1) 2 256]) ∧
    sec !! "ecfp4_2_2"
      = Some (DInt2 [(λ x : bool, if x then 1 else 0) <$> morgan_bits (AddHs m2) 2 256]) ∧
    binary t !! idx = Some b ∧ sec !! "trg_bin" = Some (DCell1 [b]).
Proof.
  intros Hrun Ht Hkey.
  destruct (reaction_section_of_row _ _ _ _ _ _ Hrun Ht Hkey)
    as (name & g3 & r & y & b & -> & Hg3 & Hr & Hb & Hsec & Hget).
  apply reaction_row_ok in Hr as ((smi1 & smi2 & Hs1 & Hs2 & Hfp1 & Hfp2) & _).
  apply get_fp_from_smi_ok in Hfp1 as (m1 & Hm1 & Hfp1).
  apply get_fp_from_smi_ok in Hfp2 as (m2 & Hm2 & Hfp2).
  exists name, g3, (section_of (reaction_fields r y b).*2), smi1, smi2, m1, m2, b.
  split_and!; [done | done | done | done | done | done | done | | | done | ].
  - rewrite <- Hfp1. apply Hget. field_in_section.
  - rewrite <- Hfp2. apply Hget. field_in_section.
  - apply Hget. field_in_section.
Qed.

End Datasets.

(** * The molecule sections and the calls behind them *)

Section MoleculeSections.
Context {tk : RDKit} {ut : Utils} {py : Python}.

(** One pass of a molecule loop, with the five calls it makes. *)
Lemma molecule_body_runs path
    (datasets : features → features → features → features → features → list (string * dataset))
    smi w w' :
  (f_a ← get_3dG_from_smi smi 0xF00A;
   f_b ← get_3dG_from_smi smi 0xF00B;
   f_c ← get_3dG_from_smi smi 0xF00C;
   f_d ← get_3dG_from_smi smi 0xF00D;
   f_e ← get_3dG_from_smi smi 0xF00E;
   _ ← create_group path smi;
   for_each (create_dataset path smi) (datasets f_a f_b f_c f_d f_e)) w = (Ok (), w') →
  ∃ g g' f_a f_b f_c f_d f_e,
    five_runs smi f_a f_b f_c f_d f_e ∧
    fs w !! path = Some (H5File g) ∧ fs w' !! path = Some (H5File g') ∧
    adds_group g g' (h5_path smi) (section_of (datasets f_a f_b f_c f_d f_e)) ∧
    NoDup (datasets f_a f_b f_c f_d f_e).*1.
Proof.
  intros Hrun.
  pose proof (molecule_body_ok _ _ _ _ _ Hrun) as (g & _ & _ & _ & _ & _ & _ & Hg & _).
  apply bindM_ok in Hrun as (f_a & w1 & Ha & Hrun).
  apply bindM_ok in Hrun as (f_b & w2 & Hb & Hrun).
  apply bindM_ok in Hrun as (f_c & w3 & Hc & Hrun).
  apply bindM_ok in Hrun as (f_d & w4 & Hd & Hrun).
  apply bindM_ok in Hrun as (f_e & w5 & He & Hrun).
  apply bindM_ok in Hrun as ([] & w6 & Hgr & Hrun).
  apply create_group_ok in Hgr as (g0 & g1 & Hfs & Hfs6 & Hadd).
  destruct (write_datasets_ok _ _ _ _ _ _ _ Hrun Hfs6 (proj1 (proj2 (proj2 Hadd))))
    as (Hfs' & Hnd & _).
  assert (fs w5 = fs w) as Hfs5.
  { pose proof (get_3dG_from_smi_world _ _ _ _ _ Ha) as [Ea _].
    pose proof (get_3dG_from_smi_world _ _ _ _ _ Hb) as [Eb _].
    pose proof (get_3dG_from_smi_world _ _ _ _ _ Hc) as [Ec _].
    pose proof (get_3dG_from_smi_world _ _ _ _ _ Hd) as [Ed _].
    pose proof (get_3dG_from_smi_world _ _ _ _ _ He) as [Ee _].
    congruence. }
  rewrite Hfs5, Hg in Hfs. injection Hfs as <-.
  exists g, (<[h5_path smi := section_of (datasets f_a f_b f_c f_d f_e)]> g1),
    f_a, f_b, f_c, f_d, f_e.
  split_and!; [|done|done|by apply adds_group_written|done].
  exists w, w1, w2, w3, w4, w5. done.
Qed.

(** A successful molecule loop: every descriptor has the section of its
    five runs. *)
Lemma molecule_loop_runs path
    (datasets : features → features → features → features → features → list (string * dataset))
    (body : string → M unit) l w w' :
  (∀ smi, body smi =
     (f_a ← get_3dG_from_smi smi 0xF00A;
      f_b ← get_3dG_from_smi smi 0xF00B;
      f_c ← get_3dG_from_smi smi 0xF00C;
      f_d ← get_3dG_from_smi smi 0xF00D;
      f_e ← get_3dG_from_smi smi 0xF00E;
      _ ← create_group path smi;
      for_each (create_dataset path smi) (datasets f_a f_b f_c f_d f_e))) →
  for_each body l w = (Ok (), w') →
  fs w !! path = Some (H5File ∅) →
  ∃ g', fs w' !! path = Some (H5File g') ∧
    ∀ smi, smi ∈ l →
      ∃ f_a f_b f_c f_d f_e sec,
        five_runs smi f_a f_b f_c f_d f_e ∧ g' !! h5_path smi = Some sec ∧
        ∀ name d, (name, d) ∈ datasets f_a f_b f_c f_d f_e → sec !! name = Some d.
Proof.
  intros Hbody Hrun Hinit.
  destruct (sections_loop_ok path body
           (λ smi name sec, name = smi ∧ ∃ f_a f_b f_c f_d f_e,
              five_runs smi f_a f_b f_c f_d f_e ∧
              NoDup (datasets f_a f_b f_c f_d f_e).*1 ∧
              sec = section_of (datasets f_a f_b f_c f_d f_e))
           l w w' ∅) as (g' & Hg' & Hs); [|exact Hrun|exact Hinit|].
  { intros smi wa wb Hb. rewrite Hbody in Hb.
    apply molecule_body_runs in Hb
      as (g & g2 & f_a & f_b & f_c & f_d & f_e & H5 & Hg & Hg2 & Hadd & Hnd).
    exists g, g2, smi, (section_of (datasets f_a f_b f_c f_d f_e)).
    split_and!; [done..|]. by exists f_a, f_b, f_c, f_d, f_e. }
  exists g'. split; [done|]. intros smi Hin.
  destruct (Hs _ Hin) as (name & sec & Hsec & -> & f_a & f_b & f_c & f_d & f_e & H5 & Hnd & ->).
  exists f_a, f_b, f_c, f_d, f_e, (section_of (datasets f_a f_b f_c f_d f_e)).
  split_and!; [done..|]. intros nm d. by apply section_of_lookup.
Qed.

(** Property X17.  After a successful run, for every descriptor of the
    first-reactant column there are five successive successful featurizer
    calls, with the seeds 0xF00A to 0xF00E in this order and each starting
    from the world the one before left, whose results are what the section
    of that descriptor holds: every dataset of [substrate_datasets], with
    the suffix [_a] to [_e] of its call, is in the section under its name.
    The same holds for the second-reactant column, the acid container and
    [carbacid_datasets]. *)
Theorem molecule_sections_hold_the_five_runs df w w' t :
  main df w = (Ok (), w') → read_table df = Ok t →
  ∃ g1 g2,
    fs w' !! substrate_path = Some (H5File g1) ∧
    fs w' !! carbacids_path = Some (H5File g2) ∧
    (∀ smi, smi ∈ startingmat_1_smiles t →
       ∃ f_a f_b f_c f_d f_e sec,
         five_runs smi f_a f_b f_c f_d f_e ∧ g1 !! h5_path smi = Some sec ∧
         ∀ name d, (name, d) ∈ substrate_datasets f_a f_b f_c f_d f_e →
           sec !! name = Some d) ∧
    (∀ smi, smi ∈ startingmat_2_smiles t →
       ∃ f_a f_b f_c f_d f_e sec,
         five_runs smi f_a f_b f_c f_d f_e ∧ g2 !! h5_path smi = Some sec ∧
         ∀ name d, (name, d) ∈ carbacid_datasets f_a f_b f_c f_d f_e →
           sec !! name = Some d).
Proof.
  intros Hrun Ht.
  apply main_molecule_containers in Hrun
    as (t' & pa & w1 & w2 & w3 & w4 & w5 & Ht' & _ & Hf1 & Hl1 & Hk1 & Hf3 & Hl2 & Hk2 & _).
  rewrite Ht in Ht'. injection Ht' as <-.
  destruct (molecule_loop_runs substrate_path substrate_datasets substrate_body
              _ _ _ (λ _, eq_refl) Hl1 Hf1) as (g1 & Hg1 & Hs1).
  destruct (molecule_loop_runs carbacids_path carbacid_datasets carbacid_body
              _ _ _ (λ _, eq_refl) Hl2 Hf3) as (g2 & Hg2 & Hs2).
  exists g1, g2. split_and!; [congruence | congruence | |].
  - intros smi Hin. apply Hs1. by apply elem_of_unique.
  - intros smi Hin. apply Hs2. by apply elem_of_unique.
Qed.

(** Property X18.  A run succeeds only if every descriptor of the two
    reactant columns parses to a molecule that, with hydrogens, has at
    least one atom. *)
Theorem successful_run_parses_every_descriptor df w w' t smi :
  main df w = (Ok (), w') → read_table df = Ok t →
  smi ∈ startingmat_1_smiles t ++ startingmat_2_smiles t →
  ∃ m, MolFromSmiles smi = Some m ∧ (1 ≤ length (GetAtoms (AddHs m)))%nat.
Proof.
  intros Hrun Ht Hin.
  apply main_molecule_containers in Hrun
    as (t' & pa & w1 & w2 & w3 & w4 & w5 & Ht' & _ & Hf1 & Hl1 & _ & Hf3 & Hl2 & _).
  rewrite Ht in Ht'. injection Ht' as <-.
  assert (∃ f_a f_b f_c f_d f_e, five_runs smi f_a f_b f_c f_d f_e)
    as (f_a & f_b & f_c & f_d & f_e & wa & wb & wc & wd & we & wf & Ha & _).
  { apply elem_of_app in Hin as [Hin|Hin].
    - destruct (molecule_loop_runs substrate_path substrate_datasets substrate_body
                  _ _ _ (λ _, eq_refl) Hl1 Hf1) as (g1 & _ & Hs1).
      destruct (Hs1 smi) as (f_a & f_b & f_c & f_d & f_e & _ & H5 & _);
        [by apply elem_of_unique | eauto 6].
    - destruct (molecule_loop_runs carbacids_path carbacid_datasets carbacid_body
                  _ _ _ (λ _, eq_refl) Hl2 Hf3) as (g2 & _ & Hs2).
      destruct (Hs2 smi) as (f_a & f_b & f_c & f_d & f_e & _ & H5 & _);
        [by apply elem_of_unique | eauto 6]. }
  apply get_3dG_from_smi_ok in Ha as (m0 & mol & rows & Hm0 & Hatoms & _ & Hrows & Hne & _).
  exists m0. split; [done|].
  apply Forall2_atom_rows in Hrows as [Hlen _]. rewrite Hatoms in Hlen. rewrite <- Hlen.
  destruct rows; [done | simpl; lia].
Qed.

Lemma unique_nil : unique [] = [].
Proof. unfold unique. simpl. apply elements_empty. Qed.

(** Property X19.  On a table that has the 23 columns and no row, the run
    succeeds: it writes the six vocabularies of the empty column, an empty
    lookup artifact and three containers without sections, calls the
    featurizer never and leaves the generator as it was. *)
Theorem table_without_rows_gives_empty_outputs df w :
  Forall (λ c, df !! c = Some []) required_columns →
  main df w
  = (Ok (),
     {| fs := <[conditions_path := H5File ∅]>
                (<[carbacids_path := H5File ∅]>
                   (<[substrate_path := H5File ∅]>
                      (<[rxn_smi_dict_path := TorchRxnSmi []]>
                         (<[cond_dicts_path :=
                              TorchCondDicts (replicate 6 (get_dict_for_embedding []))]>
                            (fs w)))));
        rng := rng w; calls := calls w |}).
Proof.
  intros Hcols. rewrite Forall_forall in Hcols.
  assert (∃ t, read_table df = Ok t ∧ rxn_id t = [] ∧ product_mono t = [] ∧
               startingmat_1_smiles t = [] ∧ startingmat_2_smiles t = [] ∧
               build_vocabularies t
               = {| rea_dict := get_dict_for_embedding []; so1_dict := get_dict_for_embedding [];
                    so2_dict := get_dict_for_embedding []; cat_dict := get_dict_for_embedding [];
                    add_dict := get_dict_for_embedding []; atm_dict := get_dict_for_embedding [] |})
    as (t & Ht & Hid & Hpm & Hs1 & Hs2 & Hv).
  { eexists. unfold read_table, column, getitem, mbind, result_bind.
    repeat (rewrite Hcols
              by (unfold required_columns;
                  repeat first [apply list_elem_of_here | apply list_elem_of_further]);
            cbv beta iota).
    split; [reflexivity|]. split_and!; reflexivity. }
  unfold main. rewrite (bindM_lift_Ok _ _ _ _ Ht). cbv zeta.
  assert (compute_product_all t = Ok []) as Hpa
    by (unfold compute_product_all; by rewrite Hpm).
  rewrite (bindM_lift_Ok _ _ _ _ Hpa).
  rewrite Hid, Hs1, Hs2, Hv, unique_nil. reflexivity.
Qed.

End MoleculeSections.

(** * The definitions at work, on the instance of [Demo] *)

Import Demo.

(** Claim C9, at a failing input.  On the toolkit of [Demo], two
    successive invocations of [get_3dG_from_smi] with the descriptor "C"
    and the seed 0xF00D both succeed and return different coordinates:
    the seed reaches [EmbedMolecule] as [maxAttempts], and the embedding
    draws from the process-global generator. *)
Theorem same_descriptor_and_seed_different_coordinates :
  ∃ out1 w1 out2 w2,
    get_3dG_from_smi "C" 0xF00D w0 = (Ok out1, w1) ∧
    get_3dG_from_smi "C" 0xF00D w1 = (Ok out2, w2) ∧
    crds_3d out1 ≠ crds_3d out2.
Proof.
  eexists _, _, _, _. split_and!.
  - vm_compute. reflexivity.
  - vm_compute. reflexivity.
  - intros Heq.
    apply (f_equal (λ l, match l with
                         | (x :: _) :: _ => PrimFloat.eqb x 2%float
                         | _ => false
                         end)) in Heq.
    vm_compute in Heq. discriminate.
Qed.

Lemma proximity_edges_witness :
  has_edge (edge_3d methane_a.1) 0 1 ∧ has_edge (edge_3d methane_a.1) 1 0.
Proof.
  refine (proj1 (proximity_edges_symmetric_without_loops "C" 0xF00A w0 methane_a.1 methane_a.2 _)
                0%nat 1%nat 1.5%float _ _ _).
  - vm_compute. reflexivity.
  - lia.
  - vm_compute. reflexivity.
  - vm_compute. reflexivity.
Defined.

Lemma bond_edges_witness :
  has_edge (edge_2d methane_a.1) 0 3 ∧ has_edge (edge_2d methane_a.1) 3 0.
Proof.
  refine (bond_edges_both_directions "C" 0xF00A w0 methane_a.1 methane_a.2
            {| GetAtoms := [heavy_atom "C"]; GetBonds := []; GetConformers := [] |} {| GetBeginAtomIdx := 0; GetEndAtomIdx := 3 |} _ _ _).
  - vm_compute. reflexivity.
  - vm_compute. reflexivity.
  - vm_compute. do 2 right. left.
Defined.

Lemma featurizer_output_shapes_witness :
  length (atomids methane_a.1) = 5%nat ∧
  Forall (Forall (λ a, a < 5)%nat) (edge_3d methane_a.1).
Proof.
  pose proof (featurizer_output_shapes "C" 0xF00A w0 methane_a.1 methane_a.2
                {| GetAtoms := [heavy_atom "C"]; GetBonds := []; GetConformers := [] |})
    as Hshape.
  destruct Hshape as (H1 & _ & _ & _ & _ & _ & _ & _ & H9).
  - vm_compute. reflexivity.
  - apply (bool_decide_unpack _). vm_compute. exact I.
  - vm_compute. reflexivity.
  - split; [exact H1 | exact H9].
Defined.

Lemma demo_run_ok : (main df w0).1 = Ok ().
Proof. vm_compute. reflexivity. Qed.


Lemma reaction_section_witness :
  ∃ w' g sec,
    main df w0 = (Ok (), w') ∧
    fs w' !! conditions_path = Some (H5File g) ∧ g !! h5_path "rxn_2" = Some sec ∧
    size sec = 20%nat.
Proof.
  destruct (main df w0) as [r w'] eqn:Hrun.
  assert (r = Ok ()) as ->.
  { change r with (r, w').1. rewrite <- Hrun. vm_compute. reflexivity. }
  destruct (reaction_section_fields df w0 w' [CStr "rxn_1"; CStr "rxn_2"] 1 (CStr "rxn_2")
              Hrun ltac:(vm_compute; reflexivity) eq_refl)
    as (name & g & sec & r & y & b & Hname & Hg & Hsec & _ & Hsize & _).
  injection Hname as <-.
  exists w', g, sec. split_and!; [reflexivity | exact Hg | exact Hsec | exact Hsize].
Defined.

(** Claim C4 as the specification counts the fields.  In the run on the
    table of [Demo] the section under "rxn_1" has 20 datasets of which 10,
    not 8, are numeric condition values. *)
Lemma reaction_section_has_ten_numeric_conditions_not_eight :
  ∃ w' g r y b,
    main df w0 = (Ok (), w') ∧
    fs w' !! conditions_path = Some (H5File g) ∧
    g !! h5_path "rxn_1" = Some (section_of (reaction_fields r y b).*2) ∧
    size (section_of (reaction_fields r y b).*2) = 20%nat ∧
    count_class NumericCondition (reaction_fields r y b) = 10%nat ∧
    ¬ (count_class Fingerprint (reaction_fields r y b) = 2%nat ∧
       count_class NumericCondition (reaction_fields r y b) = 8%nat ∧
       count_class CategoricalId (reaction_fields r y b) = 6%nat ∧
       count_class Target (reaction_fields r y b) = 2%nat).
Proof.
  destruct (main df w0) as [res w'] eqn:Hrun.
  assert (res = Ok ()) as ->.
  { change res with (res, w').1. rewrite <- Hrun. vm_compute. reflexivity. }
  apply main_containers in Hrun
    as (t & pa & g1 & g2 & g3 & Ht & _ & _ & _ & _ & _ & Hg3 & Hrows).
  vm_compute in Ht. injection Ht as <-.
  destruct (Hrows 0%nat (CStr "rxn_1") eq_refl) as (name & r & y & b & Hname & _ & _ & _ & Hsec).
  injection Hname as <-.
  exists w', g3, r, y, b. split_and!; try done.
  intros (_ & H8 & _). vm_compute in H8. discriminate.
Qed.

Lemma molecule_sections_witness :
  ∃ w' g1 g2 sec1 sec2,
    main df w0 = (Ok (), w') ∧
    fs w' !! substrate_path = Some (H5File g1) ∧ g1 !! h5_path "N" = Some sec1 ∧
    size sec1 = 40%nat ∧
    fs w' !! carbacids_path = Some (H5File g2) ∧ g2 !! h5_path "O" = Some sec2 ∧
    size sec2 = 35%nat.
Proof.
  destruct (main df w0) as [r w'] eqn:Hrun.
  assert (r = Ok ()) as ->.
  { change r with (r, w').1. rewrite <- Hrun. vm_compute. reflexivity. }
  destruct (molecule_sections_hold_40_and_35_arrays df w0 w'
              [CStr "C"; CStr "N"] [CStr "O"; CStr "O"] Hrun
              ltac:(vm_compute; reflexivity) ltac:(vm_compute; reflexivity))
    as [(g1 & Hg1 & Hs1) (g2 & Hg2 & Hs2)].
  destruct (Hs1 "N") as (sec1 & Hsec1 & Hsize1 & _).
  { apply elem_of_unique. apply (bool_decide_unpack _). vm_compute. exact I. }
  destruct (Hs2 "O") as (sec2 & Hsec2 & Hsize2 & _).
  { apply elem_of_unique. apply (bool_decide_unpack _). vm_compute. exact I. }
  exists w', g1, g2, sec1, sec2. split_and!; done.
Defined.

Lemma featurizer_calls_witness :
  ∃ w' u1 u2,
    main df w0 = (Ok (), w') ∧
    NoDup u1 ∧ NoDup u2 ∧
    calls w' = (u1 ≫= five_calls) ++ (u2 ≫= five_calls) ∧
    length (calls w') = 15%nat.
Proof.
  destruct (main df w0) as [r w'] eqn:Hrun.
  assert (r = Ok ()) as ->.
  { change r with (r, w').1. rewrite <- Hrun. vm_compute. reflexivity. }
  assert (length (calls w') = 15%nat) as Hlen.
  { change w' with (Ok (), w').2. rewrite <- Hrun. vm_compute. reflexivity. }
  destruct (featurizer_called_with_five_literal_seeds df w0 w'
              [CStr "C"; CStr "N"] [CStr "O"; CStr "O"] Hrun
              ltac:(vm_compute; reflexivity) ltac:(vm_compute; reflexivity))
    as (u1 & u2 & Hnd1 & _ & Hnd2 & _ & Hcalls).
  exists w', u1, u2.
  exact (conj eq_refl (conj Hnd1 (conj Hnd2 (conj Hcalls Hlen)))).
Defined.

Lemma vocabulary_lookups_witness :
  ∃ t id,
    read_table df = Ok t ∧
    id_at (add_dict (build_vocabularies t)) (additive_1_smiles t) 1 = Ok id.
Proof.
  destruct (read_table df) as [t|e] eqn:Ht; [|vm_compute in Ht; discriminate].
  assert (∀ t', read_table df = Ok t' → vocabularies_cover t') as Hcov.
  { intros t' Ht'. rewrite Ht in Ht'. injection Ht' as <-.
    vm_compute in Ht. injection Ht as <-.
    unfold vocabularies_cover, covers. simpl.
    split_and!; apply (bool_decide_unpack _); vm_compute; exact I. }
  destruct (proj2 (vocabulary_lookups_never_miss df Hcov) t 1%nat Ht)
    as (_ & _ & _ & _ & Hadd & _).
  - vm_compute in Ht. injection Ht as <-. simpl. lia.
  - destruct Hadd as [id Hid].
    + vm_compute in Ht. injection Ht as <-. simpl. lia.
    + exists t, id. split; [reflexivity | exact Hid].
Defined.

Lemma missing_column_witness :
  ∃ c, main (delete "binary" df) w0 = (Raise (KeyError SiteColumn c), w0).
Proof.
  destruct (missing_column_fails_before_any_output (delete "binary" df) w0 "binary")
    as (c & _ & _ & Hrun).
  - apply (bool_decide_unpack _). vm_compute. exact I.
  - vm_compute. reflexivity.
  - exists c. exact Hrun.
Defined.

(** ** The further properties on the instance of [Demo] *)

Lemma methane_run : get_3dG_from_smi "C" 0xF00A w0 = (Ok methane_a.1, methane_a.2).
Proof. vm_compute. reflexivity. Qed.

(** The run of the script on [df], with the table it reads. *)
Ltac demo_run w' t Hrun Ht :=
  let r := fresh "r" in
  destruct (main df w0) as [r w'] eqn:Hrun;
  assert (r = Ok ()) as ->
    by (change r with (r, w').1; rewrite <- Hrun; vm_compute; reflexivity);
  let e := fresh "e" in
  destruct (read_table df) as [t|e] eqn:Ht; [|vm_compute in Ht; discriminate];
  let H := fresh "H" in
  pose proof Ht as H; vm_compute in H; injection H as <-.

Ltac in_list := repeat first [apply list_elem_of_here | apply list_elem_of_further].

Lemma per_atom_features_witness :
  atomids methane_a.1 !! 0%nat = ATOMTYPE_DICT !! "C" ∧
  hyb methane_a.1 !! 1%nat = HYBRIDISATION_DICT !! "S".
Proof.
  destruct (per_atom_features_follow_the_atoms "C" 0xF00A w0 methane_a.1 methane_a.2 methane_run)
    as (m & c & g' & Hm & _ & Hat).
  vm_compute in Hm. injection Hm as <-.
  destruct (Hat 0%nat (heavy_atom "C") eq_refl) as (_ & H0 & _).
  destruct (Hat 1%nat hydrogen eq_refl) as (_ & _ & _ & H1 & _).
  split; [exact H0 | exact H1].
Defined.

Lemma keep_flag_witness :
  ∃ a r h ar,
    atomids methane_a.1 !! 0%nat = Some a ∧ is_ring methane_a.1 !! 0%nat = Some r ∧
    hyb methane_a.1 !! 0%nat = Some h ∧ arom methane_a.1 !! 0%nat = Some ar ∧
    (0 = 0 ∨ 0 = 1) ∧ (0 = 1 ↔ a = 1 ∧ r = 0 ∧ ar = 0 ∧ h = 1).
Proof.
  exact (keep_flag_marks_the_atom_class "C" 0xF00A w0 methane_a.1 methane_a.2 0 0
           methane_run eq_refl).
Defined.

Lemma proximity_threshold_witness :
  ∃ d, pair_distance (crds_3d methane_a.1) 0 1 = Some d ∧ le4 d = true.
Proof.
  refine (proj2 (proximity_edges_only_within_threshold "C" 0xF00A w0 methane_a.1 methane_a.2
                   0 1 methane_run _)).
  eexists _, _, 0%nat. split_and!; reflexivity.
Defined.

Lemma proximity_columns_witness :
  ∃ r0 r1, edge_3d methane_a.1 = [r0; r1] ∧ length r0 = length r1 ∧ NoDup (zip r0 r1).
Proof.
  exact (proximity_edges_have_no_repeated_column "C" 0xF00A w0 methane_a.1 methane_a.2
           methane_run).
Defined.

Lemma bond_edges_twice_witness :
  ∃ r0 r1, edge_2d methane_a.1 = [r0; r1] ∧ length r0 = 8%nat ∧ length r1 = 8%nat.
Proof.
  destruct (bond_edges_are_the_bonds_twice "C" 0xF00A w0 methane_a.1 methane_a.2
              {| GetAtoms := [heavy_atom "C"]; GetBonds := []; GetConformers := [] |}
              methane_run ltac:(vm_compute; reflexivity))
    as (r0 & r1 & E & L0 & L1 & _).
  exists r0, r1. split_and!; [exact E | exact L0 | exact L1].
Defined.

Lemma unparsable_descriptor_witness :
  get_3dG_from_smi "X" 0xF00A w0 = (Raise ArgumentError, after_call w0 "X" 0xF00A 42).
Proof.
  apply (unparsable_descriptor_raises "X" 0xF00A w0). vm_compute. reflexivity.
Defined.

Lemma failed_embedding_witness :
  @get_3dG_from_smi DemoFail.toolkit utils "C" 0xF00A w0
  = (Raise (ValueError "Bad Conformer Id"), after_call w0 "C" 0xF00A 43).
Proof.
  apply (@failed_embedding_raises DemoFail.toolkit utils "C" 0xF00A w0
           {| GetAtoms := [heavy_atom "C"]; GetBonds := []; GetConformers := [] |} 43).
  - vm_compute. reflexivity.
  - vm_compute. discriminate.
  - lia.
  - vm_compute. reflexivity.
Defined.

Lemma molecule_without_atoms_witness :
  @get_3dG_from_smi DemoFail.toolkit utils "" 0xF00A w0
  = (Raise (ValueError "molecule has no atoms"), after_call w0 "" 0xF00A 42).
Proof.
  apply (@molecule_without_atoms_raises DemoFail.toolkit utils "" 0xF00A w0
           {| GetAtoms := []; GetBonds := []; GetConformers := [] |}).
  - vm_compute. reflexivity.
  - vm_compute. reflexivity.
  - lia.
Defined.

Lemma featurizer_needs_an_atom_witness :
  (1 ≤ length (GetAtoms (add_hydrogens
     {| GetAtoms := [heavy_atom "C"]; GetBonds := []; GetConformers := [] |})))%nat.
Proof.
  exact (proj1 (featurizer_needs_an_atom "C" 0xF00A w0 methane_a.1 methane_a.2
                  {| GetAtoms := [heavy_atom "C"]; GetBonds := []; GetConformers := [] |}
                  methane_run ltac:(vm_compute; reflexivity))).
Defined.

Lemma main_writes_only_its_five_files_witness :
  ∃ r w', main df w0 = (r, w') ∧ fs w' !! "data/notes.txt" = fs w0 !! "data/notes.txt".
Proof.
  destruct (main df w0) as [r w'] eqn:Hrun. exists r, w'. split; [reflexivity|].
  apply (main_writes_only_its_five_files df w0 r w' "data/notes.txt" Hrun).
  apply (bool_decide_unpack _). vm_compute. exact I.
Defined.

Lemma vocabulary_artifact_witness :
  ∃ r w' t, main df w0 = (r, w') ∧ read_table df = Ok t ∧
    fs w' !! cond_dicts_path
    = Some (TorchCondDicts
              [ get_dict_for_embedding (reagent_1_smiles t);
                get_dict_for_embedding (solvent_1_smiles t);
                get_dict_for_embedding (solvent_2_smiles t);
                get_dict_for_embedding (catalyst_1_smiles t);
                get_dict_for_embedding (additive_1_smiles t);
                get_dict_for_embedding (atmosphere t) ]).
Proof.
  destruct (main df w0) as [r w'] eqn:Hrun.
  destruct (read_table df) as [t|e] eqn:Ht; [|vm_compute in Ht; discriminate].
  destruct (compute_product_all t) as [pa|e] eqn:Hpa.
  - exists r, w', t. split_and!; [reflexivity | reflexivity |].
    exact (vocabulary_artifact_written_whatever_follows df w0 r w' t pa Hrun Ht Hpa).
  - exfalso. vm_compute in Ht. injection Ht as <-. vm_compute in Hpa. discriminate.
Defined.

Lemma lookup_artifact_witness :
  ∃ w' t items, main df w0 = (Ok (), w') ∧ read_table df = Ok t ∧
    fs w' !! rxn_smi_dict_path = Some (TorchRxnSmi items) ∧
    items !! 1%nat = Some (CStr "rxn_2", ["N"; "O"]).
Proof.
  demo_run w' t Hrun Ht.
  destruct (lookup_artifact_pairs_each_reaction_with_its_descriptors df w0 w' _ Hrun Ht)
    as (items & Hfs & _ & _ & Hrows).
  destruct (Hrows 1%nat (CStr "rxn_2") eq_refl) as (s1 & s2 & E1 & E2 & Hit).
  injection E1 as <-. injection E2 as <-.
  eexists w', _, items. split_and!; [reflexivity | exact Ht | exact Hfs | exact Hit].
Defined.

Lemma reaction_ids_witness :
  ∃ w' t g3, main df w0 = (Ok (), w') ∧ read_table df = Ok t ∧
    NoDup (h5_path <$> ["rxn_1"; "rxn_2"]) ∧
    fs w' !! conditions_path = Some (H5File g3) ∧
    dom g3 = list_to_set [["rxn_1"]; ["rxn_2"]] ∧ size g3 = 2%nat.
Proof.
  demo_run w' t Hrun Ht.
  destruct (reaction_ids_are_distinct_group_names df w0 w' _ Hrun Ht)
    as (names & g3 & Hid & Hnd & _ & Hg3 & _ & Hone).
  destruct names as [|a [|b [|c names]]]; try discriminate Hid.
  injection Hid as <- <-.
  destruct Hone as [Hdom Hsize]; [repeat constructor|].
  eexists w', _, g3.
  split_and!; [reflexivity | exact Ht | exact Hnd | exact Hg3 | exact Hdom | exact Hsize].
Defined.

Lemma molecule_container_keys_witness :
  ∃ w' t g1 g2, main df w0 = (Ok (), w') ∧ read_table df = Ok t ∧
    fs w' !! substrate_path = Some (H5File g1) ∧ dom g1 = groups_of ["C"; "N"] ∧
    fs w' !! carbacids_path = Some (H5File g2) ∧ dom g2 = groups_of ["O"; "O"].
Proof.
  demo_run w' t Hrun Ht.
  destruct (molecule_containers_are_keyed_by_the_descriptors df w0 w' _ Hrun Ht)
    as (g1 & g2 & Hg1 & Hd1 & Hg2 & Hd2).
  eexists w', _, g1, g2.
  split_and!; [reflexivity | exact Ht | exact Hg1 | exact Hd1 | exact Hg2 | exact Hd2].
Defined.

Lemma numeric_conditions_witness :
  ∃ w' t g3 sec, main df w0 = (Ok (), w') ∧ read_table df = Ok t ∧
    fs w' !! conditions_path = Some (H5File g3) ∧ g3 !! h5_path "rxn_1" = Some sec ∧
    sec !! "tmp_de" = Some (DFloat1 [25%float]).
Proof.
  demo_run w' t Hrun Ht.
  destruct (numeric_conditions_are_the_floats_of_the_row df w0 w' _ 0 (CStr "rxn_1")
              Hrun Ht eq_refl)
    as (name & g3 & sec & Hname & Hg3 & Hsec & Hall).
  injection Hname as <-.
  destruct (Forall_lookup_1 _ _ 3 _ Hall eq_refl) as (c & x & Hc & Hx & Hs).
  injection Hc as <-. injection Hx as <-.
  eexists w', _, g3, sec.
  split_and!; [reflexivity | exact Ht | exact Hg3 | exact Hsec | exact Hs].
Defined.

Lemma categorical_conditions_witness :
  ∃ w' t g3 sec id, main df w0 = (Ok (), w') ∧ read_table df = Ok t ∧
    fs w' !! conditions_path = Some (H5File g3) ∧ g3 !! h5_path "rxn_2" = Some sec ∧
    get_dict_for_embedding (atmosphere t) !! "N2" = Some id ∧
    sec !! "atm_id" = Some (DInt1 [id]).
Proof.
  demo_run w' t Hrun Ht.
  destruct (categorical_conditions_are_the_vocabulary_ids_of_the_row df w0 w' _ 1 (CStr "rxn_2")
              Hrun Ht eq_refl)
    as (name & g3 & sec & Hname & Hg3 & Hsec & Hall).
  injection Hname as <-.
  destruct (Forall_lookup_1 _ _ 5 _ Hall eq_refl) as (x & id & Hx & Hid & Hs).
  injection Hx as <-.
  eexists w', _, g3, sec, id.
  split_and!; [reflexivity | exact Ht | exact Hg3 | exact Hsec | exact Hid | exact Hs].
Defined.

Lemma fingerprints_witness :
  ∃ w' t g3 sec m1, main df w0 = (Ok (), w') ∧ read_table df = Ok t ∧
    fs w' !! conditions_path = Some (H5File g3) ∧ g3 !! h5_path "rxn_1" = Some sec ∧
    MolFromSmiles "C" = Some m1 ∧
    sec !! "ecfp4_2_1"
      = Some (DInt2 [(λ x : bool, if x then 1 else 0) <$> morgan_bits (AddHs m1) 2 256]) ∧
    sec !! "trg_bin" = Some (DCell1 [CInt 1]).
Proof.
  demo_run w' t Hrun Ht.
  destruct (fingerprints_and_binary_target_of_the_row df w0 w' _ 0 (CStr "rxn_1")
              Hrun Ht eq_refl)
    as (name & g3 & sec & smi1 & smi2 & m1 & m2 & b & Hname & Hg3 & Hsec & Hs1 & Hm1
        & _ & _ & Hfp1 & _ & Hb & Hbin).
  injection Hname as <-. injection Hs1 as <-. injection Hb as <-.
  eexists w', _, g3, sec, m1.
  split_and!; [reflexivity | exact Ht | exact Hg3 | exact Hsec | exact Hm1 | exact Hfp1
               | exact Hbin].
Defined.

Lemma five_runs_witness :
  ∃ w' t g1 sec f_a f_b f_c f_d f_e, main df w0 = (Ok (), w') ∧ read_table df = Ok t ∧
    fs w' !! substrate_path = Some (H5File g1) ∧ g1 !! h5_path "N" = Some sec ∧
    five_runs "N" f_a f_b f_c f_d f_e ∧
    sec !! "crds_3d_1_c" = Some (DFloat2 (crds_3d f_c)).
Proof.
  demo_run w' t Hrun Ht.
  destruct (molecule_sections_hold_the_five_runs df w0 w' _ Hrun Ht)
    as (g1 & g2 & Hg1 & _ & Hs1 & _).
  destruct (Hs1 "N" ltac:(in_list))
    as (f_a & f_b & f_c & f_d & f_e & sec & H5 & Hsec & Hget).
  eexists w', _, g1, sec, f_a, f_b, f_c, f_d, f_e.
  split_and!; [reflexivity | exact Ht | exact Hg1 | exact Hsec | exact H5 |].
  apply Hget. unfold substrate_datasets. in_list.
Defined.

Lemma parsed_descriptors_witness :
  ∃ w' t m, main df w0 = (Ok (), w') ∧ read_table df = Ok t ∧
    MolFromSmiles "O" = Some m ∧ (1 ≤ length (GetAtoms (AddHs m)))%nat.
Proof.
  demo_run w' t Hrun Ht.
  destruct (successful_run_parses_every_descriptor df w0 w' _ "O" Hrun Ht ltac:(in_list))
    as (m & Hm & Hn).
  eexists w', _, m. split_and!; [reflexivity | exact Ht | exact Hm | exact Hn].
Defined.

Lemma table_without_rows_witness :
  ∃ w', main (list_to_map ((λ c, (c, [])) <$> required_columns)) w0 = (Ok (), w') ∧
    calls w' = [] ∧ fs w' !! conditions_path = Some (H5File ∅).
Proof.
  eexists. split_and!.
  - apply table_without_rows_gives_empty_outputs.
    unfold required_columns.
    repeat (apply Forall_cons_2; [vm_compute; reflexivity|]). apply Forall_nil_2.
  - reflexivity.
  - apply lookup_insert_eq.
Defined.
